(** * domreducer: the [HtmlReducer] pipeline of [reducer.py]

    A shallow embedding of the class [HtmlReducer] and of the part of
    BeautifulSoup its methods rely on, followed by the properties of the
    pipeline and of its stages.

    Text is modelled by [string]; the character classes below are Python's
    for code points under 128, the text [PyStr.is_ascii] accepts.  The parser, the
    serializer and the MD5 digest are collaborators of the program and are
    taken as section variables. *)

From Stdlib Require Import Bool Arith List String Ascii ZArith Lia DecimalString.
Import ListNotations.
Open Scope string_scope.
Open Scope list_scope.
Open Scope nat_scope.

(** ** Python strings *)

Module PyStr.

(** [str.isspace] on one character: TAB..CR, FS..US and the blank. *)
Definition is_space (c : ascii) : bool :=
  let n := nat_of_ascii c in
  ((9 <=? n) && (n <=? 13)) || ((28 <=? n) && (n <=? 31)) || (n =? 32).

Definition is_empty (s : string) : bool :=
  match s with EmptyString => true | String _ _ => false end.

Fixpoint lstrip (s : string) : string :=
  match s with
  | EmptyString => EmptyString
  | String c r => if is_space c then lstrip r else s
  end.

Fixpoint rstrip (s : string) : string :=
  match s with
  | EmptyString => EmptyString
  | String c r =>
      let r' := rstrip r in
      if is_space c && is_empty r' then EmptyString else String c r'
  end.

(** [s.strip()] *)
Definition strip (s : string) : string := rstrip (lstrip s).

Fixpoint split_ws (s cur : string) : list string :=
  match s with
  | EmptyString => if is_empty cur then [] else [cur]
  | String c r =>
      if is_space c
      then (if is_empty cur then split_ws r EmptyString
            else cur :: split_ws r EmptyString)
      else split_ws r (String.append cur (String c EmptyString))
  end.

(** [s.split()] *)
Definition split (s : string) : list string := split_ws s EmptyString.

(** [sep.join(l)] *)
Definition join (sep : string) (l : list string) : string := String.concat sep l.

(** [" ".join(s.split())] *)
Definition collapse_ws (s : string) : string := join " " (split s).

(** [re.sub(r"\s+", " ", s)]: [in_ws] tells that the character before was
    white space, already replaced. *)
Fixpoint sub_ws_from (in_ws : bool) (s : string) : string :=
  match s with
  | EmptyString => EmptyString
  | String c r =>
      if is_space c
      then (if in_ws then sub_ws_from true r else String " " (sub_ws_from true r))
      else String c (sub_ws_from false r)
  end.

Definition sub_ws (s : string) : string := sub_ws_from false s.

Definition lower_char (c : ascii) : ascii :=
  let n := nat_of_ascii c in
  if (65 <=? n) && (n <=? 90) then ascii_of_nat (n + 32) else c.

(** [s.lower()] *)
Fixpoint lower (s : string) : string :=
  match s with
  | EmptyString => EmptyString
  | String c r => String (lower_char c) (lower r)
  end.

(** [s.startswith(p)] *)
Fixpoint startswith (p s : string) : bool :=
  match p, s with
  | EmptyString, _ => true
  | String a p', String b s' => Ascii.eqb a b && startswith p' s'
  | String _ _, EmptyString => false
  end.

(** Matching a lower-case literal at the head of [s] under [re.I]; the rest
    of [s] on success. *)
Fixpoint match_lit_ci (p s : string) : option string :=
  match p, s with
  | EmptyString, _ => Some s
  | String a p', String b s' =>
      if Ascii.eqb a (lower_char b) then match_lit_ci p' s' else None
  | String _ _, EmptyString => None
  end.

(** The pattern [display\s*:\s*<value>] anchored at the head of [s]. *)
Definition display_at (value s : string) : bool :=
  match match_lit_ci "display" s with
  | Some r =>
      match lstrip r with
      | String ":" r' =>
          match match_lit_ci value (lstrip r') with
          | Some _ => true
          | None => false
          end
      | _ => false
      end
  | None => false
  end.

(** [re.compile(r"display\s*:\s*<value>", re.I).search(s)] as a truth value. *)
Fixpoint display_search (value s : string) : bool :=
  display_at value s ||
  match s with
  | EmptyString => false
  | String _ r => display_search value r
  end.

Definition is_digit (c : ascii) : bool :=
  let n := nat_of_ascii c in (48 <=? n) && (n <=? 57).

Definition digit_val (c : ascii) : Z := Z.of_nat (nat_of_ascii c - 48).

(** The white space [int] skips around an ASCII literal: TAB..CR and the
    blank ([Py_ISSPACE]); FS..US are not skipped. *)
Definition is_c_space (c : ascii) : bool :=
  let n := nat_of_ascii c in
  ((9 <=? n) && (n <=? 13)) || (n =? 32).

Fixpoint lstrip_c (s : string) : string :=
  match s with
  | EmptyString => EmptyString
  | String c r => if is_c_space c then lstrip_c r else s
  end.

Fixpoint rstrip_c (s : string) : string :=
  match s with
  | EmptyString => EmptyString
  | String c r =>
      let r' := rstrip_c r in
      if is_c_space c && is_empty r' then EmptyString else String c r'
  end.

(** [sys.int_info.default_max_str_digits]: a decimal literal with more
    digits is refused with [ValueError]. *)
Definition MAX_STR_DIGITS : nat := 4300.

(** Digits of an [int] literal: single underscores are allowed between
    digits.  [acc] is the value read so far, [count] the number of digits
    read, [prev] tells that the character before was a digit. *)
Fixpoint digits (s : string) (acc : Z) (count : nat) (prev : bool) : option Z :=
  match s with
  | EmptyString => if prev && (count <=? MAX_STR_DIGITS) then Some acc else None
  | String c r =>
      if is_digit c then digits r (10 * acc + digit_val c)%Z (S count) true
      else if Ascii.eqb c "_" then (if prev then digits r acc count false else None)
      else None
  end.

(** [int(s)] for a string [s]: [None] stands for [ValueError]. *)
Definition int (s : string) : option Z :=
  match rstrip_c (lstrip_c s) with
  | String "-" r => option_map Z.opp (digits r 0%Z 0 false)
  | String "+" r => digits r 0%Z 0 false
  | r => digits r 0%Z 0 false
  end.

(** Every character of the string is under 128. *)
Fixpoint is_ascii (s : string) : bool :=
  match s with
  | EmptyString => true
  | String c r => (nat_of_ascii c <? 128) && is_ascii r
  end.

End PyStr.

(** ** The BeautifulSoup tree *)

Module Bs4.

(** An attribute value: a [str], or a list of tokens for the attributes the
    tree builder declares multi-valued ([class], [rel], [headers], ...). *)
Inductive attr_value : Type :=
| AStr (s : string)
| AList (toks : list string).

(** [tag.attrs], in insertion order. *)
Definition attrs_t : Type := list (string * attr_value).

(** A page element.  The [BeautifulSoup] object itself is the list of its
    top-level elements, [Soup].  [OtherString] stands for a string of a
    class that is neither [NavigableString] itself nor [Comment]: the text
    the tree builder puts in [script], [style], [template], [rt] and [rp]
    ([Script], [Stylesheet], [TemplateString], [RubyTextString],
    [RubyParenthesisString]), a doctype, a declaration. *)
#[local] Unset Elimination Schemes.
Inductive Node : Type :=
| Tag (name : string) (attrs : attrs_t) (contents : list Node)
| NavigableString (s : string)
| Comment (s : string)
| OtherString (s : string).
#[local] Set Elimination Schemes.

Definition Soup : Type := list Node.

Definition is_tag (n : Node) : bool :=
  match n with Tag _ _ _ => true | _ => false end.

Definition node_name (n : Node) : option string :=
  match n with Tag nm _ _ => Some nm | _ => None end.

(** [name in names] *)
Definition name_in (names : list string) (nm : string) : bool :=
  existsb (String.eqb nm) names.

(** *** The attribute dictionary *)

(** [attrs.get(k)] *)
Fixpoint get (k : string) (a : attrs_t) : option attr_value :=
  match a with
  | [] => None
  | (k', v) :: r => if String.eqb k k' then Some v else get k r
  end.

(** [tag.has_attr(k)] *)
Definition has_attr (k : string) (a : attrs_t) : bool :=
  match get k a with Some _ => true | None => false end.

(** [attrs[k] = v] *)
Fixpoint set (k : string) (v : attr_value) (a : attrs_t) : attrs_t :=
  match a with
  | [] => [(k, v)]
  | (k', v') :: r =>
      if String.eqb k k' then (k', v) :: r else (k', v') :: set k v r
  end.

(** A value read where the program expects a [str].  The tree builder gives
    a [str] to every attribute the program reads so ([style], [aria-hidden],
    [width], [height], [src], [alt]); a token list is outside what those
    reads are defined for and is read as the empty string. *)
Definition str_value (v : attr_value) : string :=
  match v with AStr s => s | AList _ => EmptyString end.

(** [tag.get(k, default)] read as a [str] *)
Definition get_str (k default : string) (a : attrs_t) : string :=
  match get k a with Some v => str_value v | None => default end.

(** *** Searching *)

(** [find_all(True)] on one element: the element, then its descendants, in
    document order. *)
Fixpoint tags_of (n : Node) : list Node :=
  match n with
  | Tag _ _ cs => n :: flat_map tags_of cs
  | _ => []
  end.

(** [tag.find_all(True)]: the descendant tags of a tag with contents [cs]. *)
Definition find_all_tags (cs : list Node) : list Node := flat_map tags_of cs.

(** A tag whose name is one of [names]. *)
Definition named (names : list string) (n : Node) : bool :=
  match n with Tag nm _ _ => name_in names nm | _ => false end.

(** [tag.find_all(names)] *)
Definition find_all (names : list string) (cs : list Node) : list Node :=
  filter (named names) (find_all_tags cs).

(** [tag.find_all(True, recursive=False)] *)
Definition child_tags (cs : list Node) : list Node := filter is_tag cs.

(** [tag.find_all(names, recursive=False)] *)
Definition child_tags_named (names : list string) (cs : list Node) : list Node :=
  filter (named names) cs.

(** [tag.find(name)] *)
Definition find (nm : string) (cs : list Node) : option Node :=
  hd_error (find_all [nm] cs).

(** *** Text *)

(** The strings [get_text] visits when asked of an ordinary tag: the
    strings below the node whose class is [NavigableString] itself, in
    document order; comments and the strings of the other classes are left
    out. *)
Fixpoint strings (n : Node) : list string :=
  match n with
  | Tag _ _ cs => flat_map strings cs
  | NavigableString s => [s]
  | Comment _ => []
  | OtherString _ => []
  end.

(** [tag.get_text(sep, strip=True)] for a tag with contents [cs]: every
    string is stripped and dropped when nothing is left. *)
Definition get_text_strip (sep : string) (cs : list Node) : string :=
  PyStr.join sep
    (filter (fun s => negb (PyStr.is_empty s))
            (map PyStr.strip (flat_map strings cs))).

(** [tag.find_all(text=True, recursive=False)]: the strings among the
    children, of any class, comments included. *)
Definition child_strings (cs : list Node) : list string :=
  flat_map (fun n => match n with
                     | NavigableString s => [s]
                     | Comment s => [s]
                     | OtherString s => [s]
                     | Tag _ _ _ => []
                     end) cs.

(** [soup.new_tag("pre", **{marker: "1"})] followed by
    [pre.string = NavigableString(text)] *)
Definition pre_placeholder (marker text : string) : Node :=
  Tag "pre" [(marker, AStr "1")] [NavigableString text].

(** *** Detaching nodes *)

(** Every node for which [drop] holds is taken out of the tree together with
    its subtree.  [drop] is asked of a node before anything below it has been
    touched, as in a loop over a [find_all] result in document order. *)
Fixpoint remove_nodes (drop : Node -> bool) (n : Node) : Node :=
  match n with
  | Tag nm a cs =>
      Tag nm a (flat_map (fun c => if drop c then [] else [remove_nodes drop c]) cs)
  | _ => n
  end.

Definition remove_in (drop : Node -> bool) (f : Soup) : Soup :=
  flat_map (fun c => if drop c then [] else [remove_nodes drop c]) f.

(** A loop over a [find_all] result, in document order, whose turn on a tag
    either goes on to the next tag ([None]) or puts other nodes in its place
    with [replace_with].  The tags below a replaced tag are still in the
    list, and their turns change the detached subtree only. *)
Fixpoint replace_outer (turn : Node -> option (list Node)) (n : Node) : list Node :=
  match n with
  | Tag nm a cs =>
      match turn n with
      | Some l => l
      | None => [Tag nm a (flat_map (replace_outer turn) cs)]
      end
  | _ => [n]
  end.

Definition replace_in (turn : Node -> option (list Node)) (f : Soup) : Soup :=
  flat_map (replace_outer turn) f.

(** The loop leaves [m] as it is. *)
Definition stable (turn : Node -> option (list Node)) (m : Node) : Prop :=
  replace_outer turn m = [m].

(** The two tags have the same name and the same attributes. *)
Definition same_head (m m0 : Node) : Prop :=
  match m, m0 with
  | Tag nm a _, Tag nm0 a0 _ => nm = nm0 /\ a = a0
  | _, _ => False
  end.

(** [drop] holds only of nodes with no tag below them. *)
Definition leafy (drop : Node -> bool) : Prop :=
  forall n m, drop n = true -> In m (tags_of n) -> m = n.

(** [drop] looks at the kind and the name of a node only. *)
Definition by_name (drop : Node -> bool) : Prop :=
  (forall nm a cs a' cs', drop (Tag nm a cs) = drop (Tag nm a' cs')).

End Bs4.

(** ** The stages of [HtmlReducer], as functions on the tree *)

Module Stages.
Import Bs4.

(** *** [strip_out_non_structural_nodes] *)

Definition is_comment (n : Node) : bool :=
  match n with Comment _ => true | _ => false end.

Definition NON_STRUCTURAL : list string :=
  ["script"; "noscript"; "style"; "iframe"; "meta"; "link"].

Definition is_non_structural (n : Node) : bool :=
  match n with Tag nm _ _ => name_in NON_STRUCTURAL nm | _ => false end.

Definition strip_out_non_structural_nodes (f : Soup) : Soup :=
  remove_in is_non_structural (remove_in is_comment f).

(** *** [strip_out_non_visual_nodes] *)

(** The three-way test [hidden_attr] of the first loop. *)
Definition hidden_attr (a : attrs_t) : bool :=
  has_attr "hidden" a
  || match get "aria-hidden" a with
     | Some (AStr v) => String.eqb v "true"
     | _ => false
     end
  || match get "style" a with
     | Some v => PyStr.display_search "none" (str_value v)
     | None => false
     end.

(** [hidden_attr and not tag.find_all(True)] *)
Definition hidden_leaf (n : Node) : bool :=
  match n with
  | Tag _ a cs => hidden_attr a && match find_all_tags cs with [] => true | _ => false end
  | _ => false
  end.

Definition INLINE_EMPTY : list string := ["span"; "b"; "i"; "u"].

(** [not tag.contents and tag.name in {"span", "b", "i", "u"}] *)
Definition empty_inline (n : Node) : bool :=
  match n with
  | Tag nm _ [] => name_in INLINE_EMPTY nm
  | _ => false
  end.

(** The first loop alone. *)
Definition strip_hidden (f : Soup) : Soup := remove_in hidden_leaf f.

Definition strip_out_non_visual_nodes (f : Soup) : Soup :=
  remove_in empty_inline (strip_hidden f).

(** *** [simplify_attributes] *)

Definition _ALLOWED_ATTRS : list string :=
  ["id"; "class"; "href"; "src"; "alt"; "title"; "role"].

(** The ellipsis token appended to a trimmed class list. *)
Definition ELLIPSIS : string := "…".

(** [len(tag["class"]) > 6] and the assignment under it.  The tree builder
    makes [class] a token list; a [str] there is outside what the slice and
    the concatenation are defined for and is left as it is. *)
Definition trim_class (a : attrs_t) : attrs_t :=
  match get "class" a with
  | Some (AList toks) =>
      if 6 <? List.length toks then set "class" (AList (firstn 6 toks ++ [ELLIPSIS])) a
      else a
  | _ => a
  end.

(** The body of the loop for one tag. *)
Definition simplify_attrs (a : attrs_t) : attrs_t :=
  trim_class (filter (fun kv => name_in _ALLOWED_ATTRS (fst kv)) a).

Fixpoint simplify_node (n : Node) : Node :=
  match n with
  | Tag nm a cs => Tag nm (simplify_attrs a) (map simplify_node cs)
  | _ => n
  end.

Definition simplify_attributes (f : Soup) : Soup := map simplify_node f.

(** *** [collapse_deeply_nested_container_with_one_child] *)

Definition COLLAPSIBLE : list string := ["div"; "section"; "article"; "span"].

(** The condition of the [while] loop. *)
Definition collapsible (nm : string) (a : attrs_t) (cs : list Node) : bool :=
  (List.length (child_tags cs) =? 1)
  && match a with [] => true | _ => false end
  && name_in COLLAPSIBLE nm.

(** [tag.unwrap()] puts the contents of a tag in its place.  The loop meets
    every tag before its descendants, and unwrapping a tag leaves the number
    of element children of its parent as it was, so the condition holds of a
    tag when the loop asks it exactly when it holds at the start. *)
Fixpoint collapse_node (n : Node) : list Node :=
  match n with
  | Tag nm a cs =>
      let cs' := flat_map collapse_node cs in
      if collapsible nm a cs then cs' else [Tag nm a cs']
  | _ => [n]
  end.

Definition collapse_deeply_nested_container_with_one_child (f : Soup) : Soup :=
  flat_map collapse_node f.

(** *** [prune_repetitive_and_boilerplate_navigation_items] *)

Section Prune.

(** [hashlib.md5(s.encode()).hexdigest()] *)
Variable md5 : string -> string.

Definition NAV_LIKE : list string := ["nav"; "ul"; "ol"].

(** [h in seen_hashes] *)
Definition seen_mem (h : string) (seen : list string) : bool :=
  existsb (String.eqb h) seen.

(** The digest of the normalised text of a tag with contents [cs]. *)
Definition fingerprint (cs : list Node) : string :=
  md5 (PyStr.sub_ws (PyStr.lower (get_text_strip "" cs))).

(** One turn of the loop on a tag that an earlier turn has decomposed: its
    text is empty by now. *)
Definition visit_decomposed (seen : list string) : list string :=
  let h := fingerprint [] in
  if seen_mem h seen then seen else h :: seen.

(** The loop, in document order, with the set of digests seen so far.  When a
    container is decomposed, the containers below it are still in the list
    the loop runs over and are visited, emptied, after it. *)
Fixpoint prune_node (seen : list string) (n : Node) : list string * list Node :=
  match n with
  | Tag nm a cs =>
      let below (s0 : list string) :=
        (fix go (s : list string) (l : list Node) : list string * list Node :=
           match l with
           | [] => (s, [])
           | c :: r =>
               let (s1, c') := prune_node s c in
               let (s2, r') := go s1 r in
               (s2, c' ++ r')
           end) s0 cs in
      if name_in NAV_LIKE nm then
        let h := fingerprint cs in
        if seen_mem h seen
        then (fold_left (fun s _ => visit_decomposed s) (find_all NAV_LIKE cs) seen, [])
        else let (s', cs') := below (h :: seen) in (s', [Tag nm a cs'])
      else let (s', cs') := below seen in (s', [Tag nm a cs'])
  | _ => (seen, [n])
  end.

Fixpoint prune_nodes (seen : list string) (l : list Node) : list string * list Node :=
  match l with
  | [] => (seen, [])
  | c :: r =>
      let (s1, c') := prune_node seen c in
      let (s2, r') := prune_nodes s1 r in
      (s2, c' ++ r')
  end.

Definition prune_repetitive_and_boilerplate_navigation_items (f : Soup) : Soup :=
  snd (prune_nodes [] f).

End Prune.

(** *** [reduce_large_inline_SVGs_or_images_to_lightweight_placeholders] *)

Section Media.

(** [BeautifulSoup(markup, "lxml")]: the top-level elements of the parsed
    document.  [replace_with] and [insert] put the contents of a
    [BeautifulSoup] object, not the object, into the tree. *)
Variable parse : string -> Soup.

(** [_SVG_PLACEHOLDER.format(w=w, h=h)] *)
Definition _SVG_PLACEHOLDER (w h : string) : string :=
  String.append "<svg data-placeholder='1' width='"
    (String.append w (String.append "' height='" (String.append h "'></svg>"))).

(** [_IMG_PLACEHOLDER.format(w=w, h=h)] *)
Definition _IMG_PLACEHOLDER (w h : string) : string :=
  String.append "<img data-placeholder='1' width='"
    (String.append w (String.append "' height='" (String.append h "'/>"))).

(** A turn of the first loop: every [svg] is replaced. *)
Definition svg_turn (n : Node) : option (list Node) :=
  match n with
  | Tag nm a _ =>
      if String.eqb nm "svg"
      then Some (parse (_SVG_PLACEHOLDER (get_str "width" "100%" a)
                                         (get_str "height" "100%" a)))
      else None
  | _ => None
  end.

(** [int(img.get(k, 0) or 0)]; [None] stands for [ValueError]. *)
Definition int_or_zero (k : string) (a : attrs_t) : option Z :=
  match get k a with
  | None => Some 0%Z
  | Some v =>
      let s := str_value v in
      if PyStr.is_empty s then Some 0%Z else PyStr.int s
  end.

Definition big_data_uri (a : attrs_t) : bool :=
  PyStr.startswith "data:image" (get_str "src" "" a)
  && (1500 <? String.length (get_str "src" "" a)).

Definition big_dims (a : attrs_t) : option bool :=
  match int_or_zero "width" a with
  | None => None
  | Some w =>
      match int_or_zero "height" a with
      | None => None
      | Some h => Some (512 * 512 <? w * h)%Z
      end
  end.

(** A turn of the second loop raises on this [img]. *)
Definition img_raises (n : Node) : bool :=
  match n with
  | Tag _ a _ => match big_dims a with None => true | Some _ => false end
  | _ => false
  end.

(** The second loop, in document order; the flag tells that [ValueError] was
    raised, and the tree is then as the loop left it.  The images below a
    replaced image are still in the list the loop runs over. *)
Fixpoint replace_imgs (n : Node) : list Node * bool :=
  match n with
  | Tag nm a cs =>
      let below :=
        let (cs', e) :=
          (fix go (l : list Node) : list Node * bool :=
             match l with
             | [] => ([], false)
             | c :: r =>
                 let (c', e) := replace_imgs c in
                 if e then (c' ++ r, true)
                 else let (r', e') := go r in (c' ++ r', e')
             end) cs in
        ([Tag nm a cs'], e) in
      if String.eqb nm "img" then
        match big_dims a with
        | None => ([n], true)
        | Some bd =>
            if big_data_uri a || bd
            then (parse (_IMG_PLACEHOLDER (get_str "width" "auto" a)
                                          (get_str "height" "auto" a)),
                  existsb img_raises (find_all ["img"] cs))
            else below
        end
      else below
  | _ => ([n], false)
  end.

Fixpoint replace_imgs_in (l : list Node) : list Node * bool :=
  match l with
  | [] => ([], false)
  | c :: r =>
      let (c', e) := replace_imgs c in
      if e then (c' ++ r, true)
      else let (r', e') := replace_imgs_in r in (c' ++ r', e')
  end.

Definition reduce_large_inline_SVGs_or_images_to_lightweight_placeholders
    (f : Soup) : Soup * bool :=
  replace_imgs_in (replace_in svg_turn f).

End Media.

(** *** [preserve_tables_as_markdown]

    The [def] line of this method stands one level too deep in the file; it
    is read as the method of the class that the docstring and the pipeline
    of [test_run.py] take it for. *)

Definition NL : string := String (ascii_of_nat 10) EmptyString.

(** [" ".join(cell.get_text(strip=True).split())] *)
Definition cell_text (cell : Node) : string :=
  match cell with
  | Tag _ _ cs => PyStr.collapse_ws (get_text_strip "" cs)
  | _ => EmptyString
  end.

(** [max(len(r) for r in table_data)] *)
Definition max_cols (table_data : list (list string)) : nat :=
  fold_right (fun r m => Nat.max (List.length r) m) 0 table_data.

(** [row.extend([""] * (max_cols - len(row)))] *)
Definition pad (n : nat) (row : list string) : list string :=
  row ++ repeat EmptyString (n - List.length row).

(** ["| " + " | ".join(row) + " |"] *)
Definition md_line (row : list string) : string :=
  String.append "| " (String.append (PyStr.join " | " row) " |").

(** The lines of the grid, from the padding on; [first_row_has_th] chooses
    between the two branches of the source. *)
Definition md_lines (first_row_has_th : bool) (table_data : list (list string))
  : list string :=
  let n := max_cols table_data in
  let padded := map (pad n) table_data in
  if first_row_has_th
  then md_line (hd [] padded) :: md_line (repeat "---" n) :: map md_line (tl padded)
  else md_line (hd [] padded) :: md_line (repeat "---" n) :: map md_line (tl padded).

(** [table_data] as the loop over [rows] builds it. *)
Definition table_data_of (rows : list Node) : list (list string) :=
  map (fun tr => match tr with
                 | Tag _ _ cs => map cell_text (find_all ["th"; "td"] cs)
                 | _ => []
                 end) rows.

(** [bool(rows[0].find_all("th"))] *)
Definition first_row_has_th (rows : list Node) : bool :=
  match rows with
  | Tag _ _ cs :: _ => match find_all ["th"] cs with [] => false | _ => true end
  | _ => false
  end.

(** One turn of the loop on a table with contents [cs]: [None] when the turn
    ends in [continue], the placeholder otherwise. *)
Definition convert_table (cs : list Node) : option Node :=
  match find_all ["tr"] cs with
  | [] => None
  | rows =>
      match table_data_of rows with
      | [] => None
      | table_data =>
          Some (pre_placeholder "data-table"
                  (PyStr.join NL (md_lines (first_row_has_th rows) table_data)))
      end
  end.

Definition table_turn (n : Node) : option (list Node) :=
  match n with
  | Tag nm _ cs =>
      if String.eqb nm "table" then option_map (fun pre => [pre]) (convert_table cs)
      else None
  | _ => None
  end.

Definition preserve_tables_as_markdown (f : Soup) : Soup :=
  replace_in table_turn f.

(** *** [preserve_deflists_as_markdown] *)

Definition dl_lines (cs : list Node) : list string :=
  flat_map (fun child =>
    match child with
    | Tag nm _ _ =>
        if String.eqb nm "dt" then [String.append (cell_text child) "  "]
        else if String.eqb nm "dd"
        then [String.append ":  " (String.append (cell_text child) "  ")]
        else []
    | _ => []
    end) cs.

Definition convert_dl (cs : list Node) : option Node :=
  match dl_lines cs with
  | [] => None
  | lines => Some (pre_placeholder "data-dl" (PyStr.rstrip (PyStr.join NL lines)))
  end.

Definition dl_turn (n : Node) : option (list Node) :=
  match n with
  | Tag nm _ cs =>
      if String.eqb nm "dl" then option_map (fun pre => [pre]) (convert_dl cs)
      else None
  | _ => None
  end.

Definition preserve_deflists_as_markdown (f : Soup) : Soup :=
  replace_in dl_turn f.

(** *** [preserve_lists_as_markdown] *)

(** [str(idx)] *)
Definition str_of_nat (n : nat) : string := NilZero.string_of_uint (Nat.to_uint n).

(** ["  " * depth] *)
Fixpoint indent (depth : nat) : string :=
  match depth with
  | 0 => EmptyString
  | S d => String.append "  " (indent d)
  end.

Definition LISTS : list string := ["ul"; "ol"].

(** The nested function [walk_list]. *)
Fixpoint walk_list (depth : nat) (lst : Node) : list string :=
  match lst with
  | Tag nm _ cs =>
      let is_ordered := String.eqb nm "ol" in
      (fix items (idx : nat) (l : list Node) : list string :=
         match l with
         | [] => []
         | li :: r =>
             match li with
             | Tag ln _ lcs =>
                 if String.eqb ln "li" then
                   let prefix :=
                     String.append (indent depth)
                       (if is_ordered then String.append (str_of_nat idx) ". "
                        else "- ") in
                   let direct_text :=
                     PyStr.strip (PyStr.join EmptyString (child_strings lcs)) in
                   let content := PyStr.collapse_ws direct_text in
                   (String.append prefix content
                      :: flat_map (fun child =>
                           match child with
                           | Tag cn _ _ =>
                               if name_in LISTS cn then walk_list (S depth) child
                               else []
                           | _ => []
                           end) lcs)
                   ++ items (S idx) r
                 else items idx r
             | _ => items idx r
             end
         end) 1 cs
  | _ => []
  end.

Definition list_turn (n : Node) : option (list Node) :=
  match n with
  | Tag nm _ _ =>
      if name_in LISTS nm then
        match walk_list 0 n with
        | [] => None
        | md_lines => Some [pre_placeholder "data-list" (PyStr.join NL md_lines)]
        end
      else None
  | _ => None
  end.

Definition preserve_lists_as_markdown (f : Soup) : Soup :=
  replace_in list_turn f.

(** *** [preserve_figures_as_markdown] *)

Definition convert_figure (cs : list Node) : option Node :=
  match find "img" cs with
  | Some (Tag _ ia _) =>
      let src := PyStr.strip (get_str "src" "" ia) in
      let alt := PyStr.strip (get_str "alt" "" ia) in
      let caption_text :=
        match find "figcaption" cs with
        | Some (Tag _ _ ccs) => get_text_strip " " ccs
        | _ => alt
        end in
      let caption_text :=
        if PyStr.is_empty caption_text && negb (PyStr.is_empty alt) then alt
        else caption_text in
      Some (pre_placeholder "data-figure"
              (String.append "!["
                 (String.append caption_text
                    (String.append "](" (String.append src ")")))))
  | _ => None
  end.

Definition figure_turn (n : Node) : option (list Node) :=
  match n with
  | Tag nm _ cs =>
      if String.eqb nm "figure" then option_map (fun pre => [pre]) (convert_figure cs)
      else None
  | _ => None
  end.

Definition preserve_figures_as_markdown (f : Soup) : Soup :=
  replace_in figure_turn f.

(** *** [preserve_css_tables_as_markdown] *)

(** [tag.has_attr("style") and regex.search(tag["style"] or "")] for the
    pattern [display\s*:\s*<value>]. *)
Definition style_displays (value : string) (n : Node) : bool :=
  match n with
  | Tag _ a _ =>
      match get "style" a with
      | Some v => PyStr.display_search value (str_value v)
      | None => false
      end
  | _ => false
  end.

Definition css_table_data (rows : list Node) : list (list string) :=
  map (fun row => match row with
                  | Tag _ _ cs =>
                      map cell_text
                        (filter (style_displays "table-cell") (child_tags cs))
                  | _ => []
                  end) rows.

Definition convert_css_table (cs : list Node) : option Node :=
  match filter (style_displays "table-row") (find_all_tags cs) with
  | [] => None
  | rows =>
      match css_table_data rows with
      | [] => None
      | table_data =>
          Some (pre_placeholder "data-csstable"
                  (PyStr.join NL (md_lines true table_data)))
      end
  end.

Definition css_table_turn (n : Node) : option (list Node) :=
  match n with
  | Tag _ _ cs =>
      if style_displays "table" n
      then option_map (fun pre => [pre]) (convert_css_table cs)
      else None
  | _ => None
  end.

Definition preserve_css_tables_as_markdown (f : Soup) : Soup :=
  replace_in css_table_turn f.

End Stages.

(** ** The class [HtmlReducer] *)

Module HtmlReducer.
Import Bs4.

(** The instance: [self.raw_html] and [self.dom_tree]. *)
Record t : Type := mk { raw_html : string; dom_tree : option Soup }.

(** [HtmlReducer(raw_html)] *)
Definition init (raw : string) : t := mk raw None.

(** The exceptions the methods raise. *)
Inductive exn : Type :=
| RuntimeError    (* [_assert_parsed] *)
| ValueError      (* [int] on a string that is no number *)
| AttributeError  (* [getattr] on a name the instance does not have *)
| TypeError.      (* a call of an attribute that cannot be called so *)

(** What a call does: it returns, or it raises and leaves the instance as it
    is at that moment.  [Beyond] marks a name whose call the embedding does
    not describe (the attributes inherited from [object]). *)
Inductive outcome : Type :=
| Ok (st : t)
| Raise (e : exn) (st : t)
| Beyond.

Section Methods.

Variable parse : string -> Soup.
Variable md5 : string -> string.

(** A stage that starts with [self._assert_parsed()] and then changes the
    tree by [body]. *)
Definition guarded (body : Soup -> Soup) (st : t) : outcome :=
  match dom_tree st with
  | None => Raise RuntimeError st
  | Some f => Ok (mk (raw_html st) (Some (body f)))
  end.

Definition _assert_parsed (st : t) : outcome :=
  match dom_tree st with
  | None => Raise RuntimeError st
  | Some _ => Ok st
  end.

(** [to_html()], the value it returns: after the guard, what
    [dom_tree.encode(formatter="html").decode()] gives, [encode] standing
    for the serializer of the library. *)
Definition to_html (encode : Soup -> string) (st : t) : exn + string :=
  match dom_tree st with
  | None => inl RuntimeError
  | Some f => inr (encode f)
  end.

Definition parse_the_full_dom_into_a_dom_tree (st : t) : outcome :=
  Ok (mk (raw_html st) (Some (parse (raw_html st)))).

Definition strip_out_non_structural_nodes : t -> outcome :=
  guarded Stages.strip_out_non_structural_nodes.

Definition strip_out_non_visual_nodes : t -> outcome :=
  guarded Stages.strip_out_non_visual_nodes.

Definition simplify_attributes : t -> outcome :=
  guarded Stages.simplify_attributes.

Definition collapse_deeply_nested_container_with_one_child : t -> outcome :=
  guarded Stages.collapse_deeply_nested_container_with_one_child.

Definition prune_repetitive_and_boilerplate_navigation_items : t -> outcome :=
  guarded (Stages.prune_repetitive_and_boilerplate_navigation_items md5).

Definition reduce_large_inline_SVGs_or_images_to_lightweight_placeholders
    (st : t) : outcome :=
  match dom_tree st with
  | None => Raise RuntimeError st
  | Some f =>
      let (f', raised) :=
        Stages.reduce_large_inline_SVGs_or_images_to_lightweight_placeholders parse f in
      if raised then Raise ValueError (mk (raw_html st) (Some f'))
      else Ok (mk (raw_html st) (Some f'))
  end.

Definition preserve_tables_as_markdown : t -> outcome :=
  guarded Stages.preserve_tables_as_markdown.

Definition preserve_deflists_as_markdown : t -> outcome :=
  guarded Stages.preserve_deflists_as_markdown.

Definition preserve_lists_as_markdown : t -> outcome :=
  guarded Stages.preserve_lists_as_markdown.

Definition preserve_figures_as_markdown : t -> outcome :=
  guarded Stages.preserve_figures_as_markdown.

Definition preserve_css_tables_as_markdown : t -> outcome :=
  guarded Stages.preserve_css_tables_as_markdown.

(** The stages that are not the parse stage, by method name. *)
Definition later_stages : list (string * (t -> outcome)) :=
  [ ("strip_out_non_structural_nodes", strip_out_non_structural_nodes);
    ("strip_out_non_visual_nodes", strip_out_non_visual_nodes);
    ("simplify_attributes", simplify_attributes);
    ("collapse_deeply_nested_container_with_one_child",
      collapse_deeply_nested_container_with_one_child);
    ("prune_repetitive_and_boilerplate_navigation_items",
      prune_repetitive_and_boilerplate_navigation_items);
    ("reduce_large_inline_SVGs_or_images_to_lightweight_placeholders",
      reduce_large_inline_SVGs_or_images_to_lightweight_placeholders);
    ("preserve_tables_as_markdown", preserve_tables_as_markdown);
    ("preserve_deflists_as_markdown", preserve_deflists_as_markdown);
    ("preserve_lists_as_markdown", preserve_lists_as_markdown);
    ("preserve_figures_as_markdown", preserve_figures_as_markdown);
    ("preserve_css_tables_as_markdown", preserve_css_tables_as_markdown) ].

(** The stages whose second run, right after the first, changes nothing. *)
Definition second_run_idle : list (string * (t -> outcome)) :=
  [ ("parse_the_full_dom_into_a_dom_tree", parse_the_full_dom_into_a_dom_tree);
    ("strip_out_non_structural_nodes", strip_out_non_structural_nodes);
    ("simplify_attributes", simplify_attributes);
    ("collapse_deeply_nested_container_with_one_child",
      collapse_deeply_nested_container_with_one_child);
    ("preserve_tables_as_markdown", preserve_tables_as_markdown);
    ("preserve_deflists_as_markdown", preserve_deflists_as_markdown);
    ("preserve_lists_as_markdown", preserve_lists_as_markdown);
    ("preserve_figures_as_markdown", preserve_figures_as_markdown);
    ("preserve_css_tables_as_markdown", preserve_css_tables_as_markdown) ].

(** What [getattr(self, name)] gives, as far as the call [fn()] that follows
    goes. *)
Inductive attribute : Type :=
| Callable (call : t -> outcome)  (* [fn()] runs [call] *)
| NotCallable                     (* [fn()] raises [TypeError] *)
| Inherited                       (* a name inherited from [object] *)
| Absent.                         (* [getattr] raises [AttributeError] *)

Fixpoint assoc {A : Type} (k : string) (l : list (string * A)) : option A :=
  match l with
  | [] => None
  | (k', v) :: r => if String.eqb k k' then Some v else assoc k r
  end.

(** The attributes of the instance other than [reduce]: the stages, the
    helpers ([to_html] and [_assert_parsed] check the guard and change
    nothing, [_walk] only builds a generator), the data attributes (of
    which only a parsed [dom_tree] can be called, as a search), and the
    names in double underscores. *)
Definition getattr_but_reduce (st : t) (name : string) : attribute :=
  if String.eqb name "parse_the_full_dom_into_a_dom_tree"
  then Callable parse_the_full_dom_into_a_dom_tree
  else match assoc name later_stages with
  | Some m => Callable m
  | None =>
      if name_in ["to_html"; "_assert_parsed"] name then Callable _assert_parsed
      else if String.eqb name "_walk" then Callable Ok
      else if String.eqb name "dom_tree"
      then match dom_tree st with Some _ => Callable Ok | None => NotCallable end
      else if name_in ["raw_html"; "_ALLOWED_ATTRS"; "_SVG_PLACEHOLDER";
                       "_IMG_PLACEHOLDER"; "_DEFAULT_PIPE"] name
      then NotCallable
      else if PyStr.startswith "__" name then Inherited
      else Absent
  end.

Definition _DEFAULT_PIPE : list string :=
  [ "parse_the_full_dom_into_a_dom_tree";
    "strip_out_non_structural_nodes";
    "strip_out_non_visual_nodes";
    "simplify_attributes";
    "collapse_deeply_nested_container_with_one_child";
    "prune_repetitive_and_boilerplate_navigation_items";
    "reduce_large_inline_SVGs_or_images_to_lightweight_placeholders" ].

(** The loop of [reduce] over [steps], with [lookup] for [getattr]. *)
Fixpoint run (lookup : t -> string -> attribute) (steps : list string) (st : t)
  : outcome :=
  match steps with
  | [] => Ok st
  | name :: rest =>
      match lookup st name with
      | Absent => Raise AttributeError st
      | NotCallable => Raise TypeError st
      | Inherited => Beyond
      | Callable fn =>
          match fn st with
          | Ok st' => run lookup rest st'
          | r => r
          end
      end
  end.

(** [getattr(self, name)].  The name [reduce] is the method itself, called
    without an argument: it runs the default pipeline, which does not name
    [reduce]. *)
Definition getattr (st : t) (name : string) : attribute :=
  if String.eqb name "reduce"
  then Callable (run getattr_but_reduce _DEFAULT_PIPE)
  else getattr_but_reduce st name.

(** [order or self._DEFAULT_PIPE] *)
Definition steps_of (order : option (list string)) : list string :=
  match order with
  | None => _DEFAULT_PIPE
  | Some [] => _DEFAULT_PIPE
  | Some l => l
  end.

(** [reduce(order)] *)
Definition reduce (order : option (list string)) (st : t) : outcome :=
  run getattr (steps_of order) st.

End Methods.

End HtmlReducer.

(** ** The caller in [test_run.py] *)

Module TestRun.

(** [_EXTRA_PIPE], the list [test_run.py] passes to [reduce]. *)
Definition _EXTRA_PIPE : list string :=
  [ "parse_the_full_dom_into_a_dom_tree";
    "strip_out_non_structural_nodes";
    "strip_out_non_visual_nodes";
    "simplify_attributes";
    "strip_tailwind_utility_classes";
    "collapse_deeply_nested_container_with_one_child";
    "prune_repetitive_and_boilerplate_navigation_items";
    "preserve_tables_as_markdown";
    "drop_row_ids_inside_large_tables";
    "reduce_large_inline_SVGs_or_images_to_lightweight_placeholders";
    "minify_whitespace" ].

(** The attributes [test_run.py] reads of the reducer once [reduce] has
    returned (lines 46 to 51). *)
Definition metric_attributes : list string :=
  [ "total_char_len"; "raw_token_size"; "reduced_char_len";
    "reduced_token_size"; "reducement_details" ].

End TestRun.

(** ** Sample documents *)

Module Samples.
Import Bs4.

Definition menu : Node :=
  Tag "nav" [] [Tag "ul" [] [Tag "li" [] [NavigableString "home"]]].

Definition html : string :=
  "<nav><ul><li>home</li></ul></nav><nav><ul><li>home</li></ul></nav>".

(** The tree of [html]: the two menus in the body the parser supplies. *)
Definition tree : Soup :=
  [Tag "html" [] [Tag "body" [] [menu; menu]]].

(** A stand-in for the parser on the markup above. *)
Definition parse (markup : string) : Soup :=
  if String.eqb markup html then tree else [].

(** A stand-in for the digest, free of collisions. *)
Definition md5 (s : string) : string := s.

(** The placeholder markup for an [svg] of 800 by 600, and the tree the
    parser gives for it: the fragment in the [html] and [body] it supplies. *)
Definition svg_stub_markup : string :=
  "<svg data-placeholder='1' width='800' height='600'></svg>".

Definition svg_stub : Node :=
  Tag "svg" [("data-placeholder", AStr "1"); ("width", AStr "800");
             ("height", AStr "600")] [].

(** A stand-in for the parser on the placeholder markup. *)
Definition parse_stub (markup : string) : Soup :=
  if String.eqb markup svg_stub_markup
  then [Tag "html" [] [Tag "body" [] [svg_stub]]]
  else [].

Definition order_with_unknown : list string :=
  ["parse_the_full_dom_into_a_dom_tree"; "not_a_real_stage"].

(** [<span hidden><b hidden></b></span>] *)
Definition hidden_span : Node :=
  Tag "span" [("hidden", AStr "")] [Tag "b" [("hidden", AStr "")] []].

(** [<div hidden><p hidden></p></div>] *)
Definition hidden_div : Node :=
  Tag "div" [("hidden", AStr "")] [Tag "p" [("hidden", AStr "")] []].

(** [<img width="100%" height="50">] *)
Definition wide_img : Node :=
  Tag "img" [("width", AStr "100%"); ("height", AStr "50")] [].

(** [<table><tr></tr></table>] *)
Definition table_without_cells : Node :=
  Tag "table" [] [Tag "tr" [] []].

(** [<table><tr><th>A</th><th>B</th></tr><tr><td>1</td><td>2</td></tr></table>] *)
Definition table_2x2 : Node :=
  Tag "table" []
    [Tag "tr" [] [Tag "th" [] [NavigableString "A"]; Tag "th" [] [NavigableString "B"]];
     Tag "tr" [] [Tag "td" [] [NavigableString "1"]; Tag "td" [] [NavigableString "2"]]].

(** [<p class="a b c d e f g h" onclick="f()">] *)
Definition classy : Node :=
  Tag "p" [("class", AList ["a"; "b"; "c"; "d"; "e"; "f"; "g"; "h"]);
           ("onclick", AStr "f()")] [].

(** A stand-in for the serializer: tags with their names, attributes left
    out. *)
Fixpoint serialize_node (n : Node) : string :=
  match n with
  | Tag nm _ cs =>
      String.append "<" (String.append nm (String.append ">"
        (String.append (String.concat "" (map serialize_node cs))
           (String.append "</" (String.append nm ">")))))
  | NavigableString s => s
  | Comment s => String.append "<!--" (String.append s "-->")
  | OtherString s => s
  end.

Definition serialize (f : Soup) : string := String.concat "" (map serialize_node f).

(** A literal of [n] digits. *)
Fixpoint nines (n : nat) : string :=
  match n with
  | 0 => EmptyString
  | S k => String "9" (nines k)
  end.

End Samples.

(** ** Views of a tree *)

Module Doc.
Import Bs4.

(** A node and everything below it, in document order: tags, strings and
    comments. *)
Fixpoint nodes_of (n : Node) : list Node :=
  n :: match n with
       | Tag _ _ cs => flat_map nodes_of cs
       | _ => []
       end.

(** All the nodes of a document. *)
Definition all_nodes (f : Soup) : list Node := flat_map nodes_of f.

(** The name and the attributes of a tag. *)
Definition head (n : Node) : option (string * attrs_t) :=
  match n with Tag nm a _ => Some (nm, a) | _ => None end.

(** The condition of the [while] loop of the collapse, on a node. *)
Definition collapsible_tag (n : Node) : bool :=
  match n with
  | Tag nm a cs => Stages.collapsible nm a cs
  | _ => false
  end.

(** The fingerprints of the navigation-like containers of a document, in
    document order. *)
Definition fingerprints (md5 : string -> string) (f : Soup) : list string :=
  map (fun n => match n with
                | Tag _ _ cs => Stages.fingerprint md5 cs
                | _ => EmptyString
                end)
      (find_all Stages.NAV_LIKE f).

(** The strings [get_text] reads in a document hold ASCII characters only. *)
Definition ascii_text (f : Soup) : bool :=
  forallb PyStr.is_ascii (flat_map strings f).

(** The attribute [k], where there is one, is a [str] of ASCII characters. *)
Definition ascii_attr (k : string) (a : attrs_t) : bool :=
  match get k a with
  | None => true
  | Some (AStr s) => PyStr.is_ascii s
  | Some (AList _) => false
  end.

(** The [width] and the [height] of a tag are such attributes. *)
Definition ascii_dims (n : Node) : bool :=
  match n with
  | Tag _ a _ => ascii_attr "width" a && ascii_attr "height" a
  | _ => true
  end.

(** So is its [src]. *)
Definition ascii_src (n : Node) : bool :=
  match n with
  | Tag _ a _ => ascii_attr "src" a
  | _ => true
  end.

(** An image the second loop of the media stage replaces. *)
Definition big_img (n : Node) : bool :=
  match n with
  | Tag _ a _ =>
      Stages.big_data_uri a
      || match Stages.big_dims a with Some bd => bd | None => false end
  | _ => false
  end.

End Doc.

(** ** Predicates used in the statements *)

Import Bs4.

(** A string or a comment. *)
Definition not_tag (x : Node) : bool := negb (is_tag x).

(** A tag the collapse does not unwrap. *)
Definition kept_by_collapse (n : Node) : bool := negb (Doc.collapsible_tag n).

(** The tag is part of a parsed placeholder. *)
Definition from_placeholder (parse : string -> Soup) (m : Node) : Prop :=
  exists w h,
    In m (find_all_tags (parse (Stages._SVG_PLACEHOLDER w h))) \/
    In m (find_all_tags (parse (Stages._IMG_PLACEHOLDER w h))).

(** An [img] that the second loop replaces. *)
Definition replaced_img (m : Node) : bool := named ["img"] m && Doc.big_img m.

(** The call leaves [raw_html] as it finds it. *)
Definition keeps_raw_html (fn : HtmlReducer.t -> HtmlReducer.outcome) : Prop :=
  forall st,
    match fn st with
    | HtmlReducer.Ok st' | HtmlReducer.Raise _ st' =>
        HtmlReducer.raw_html st' = HtmlReducer.raw_html st
    | HtmlReducer.Beyond => True
    end.

(** The call, when it returns, leaves an instance that had a tree with a
    tree. *)
Definition keeps_parsed (fn : HtmlReducer.t -> HtmlReducer.outcome) : Prop :=
  forall st st',
    HtmlReducer.dom_tree st <> None -> fn st = HtmlReducer.Ok st' ->
    HtmlReducer.dom_tree st' <> None.

(** The text of an item: its own strings, joined, stripped and with white
    space collapsed. *)
Definition item_text (li : Node) : string :=
  match li with
  | Tag _ _ lcs =>
      PyStr.collapse_ws (PyStr.strip (PyStr.join EmptyString (child_strings lcs)))
  | _ => EmptyString
  end.

(** The line of the [i]-th item of a list named [nm] at depth [depth]. *)
Definition item_line (depth : nat) (nm : string) (i : nat) (li : Node) : string :=
  String.append
    (String.append (Stages.indent depth)
       (if String.eqb nm "ol" then String.append (Stages.str_of_nat i) ". " else "- "))
    (item_text li).

(** The string is made of white space only. *)
Fixpoint all_space (s : string) : bool :=
  match s with
  | EmptyString => true
  | String c r => PyStr.is_space c && all_space r
  end.

(** The attributes are all allowed and the class list, if any, has at most
    six tokens. *)
Definition attrs_simple (a : attrs_t) : bool :=
  forallb (fun kv => name_in Stages._ALLOWED_ATTRS (fst kv)) a
  && match get "class" a with
     | Some (AList toks) => List.length toks <=? 6
     | _ => true
     end.

(** Nothing for the stages on single nodes to do: not a hidden leaf, not an
    empty inline tag, not a single-child wrapper, no attribute to delete or
    to trim. *)
Definition plain (x : Node) : bool :=
  negb (Stages.hidden_leaf x) && negb (Stages.empty_inline x)
  && negb (Doc.collapsible_tag x)
  && match x with Tag _ a _ => attrs_simple a | _ => true end.

(** * Properties *)

Import Bs4.

(** ** Python strings, on examples *)

Example strip_ex : PyStr.strip "  a b  " = "a b".
Proof. reflexivity. Qed.

Example collapse_ws_ex :
  PyStr.collapse_ws (String.append " a   b" (String.append Stages.NL " c ")) = "a b c".
Proof. reflexivity. Qed.

Example sub_ws_ex : PyStr.sub_ws " a   b " = " a b ".
Proof. reflexivity. Qed.

Example display_none_ex :
  PyStr.display_search "none" "color:red; DISPLAY :  None" = true.
Proof. reflexivity. Qed.

Example display_block_ex : PyStr.display_search "none" "display:block" = false.
Proof. reflexivity. Qed.

Example int_underscore_ex : PyStr.int " 1_000 " = Some 1000%Z.
Proof. reflexivity. Qed.

Example int_percent_ex : PyStr.int "100%" = None.
Proof. reflexivity. Qed.

(** [int] strips blanks, tabs and line ends, and no other character. *)
Example int_line_end_ex :
  PyStr.int (String (ascii_of_nat 10) "12") = Some 12%Z.
Proof. reflexivity. Qed.

Example int_file_separator_ex :
  PyStr.int (String (ascii_of_nat 28) "12") = None.
Proof. reflexivity. Qed.

(** The limit on the digits of a literal. *)
Example int_4300_digits_ex :
  PyStr.int (Samples.nines 4300) = Some (10 ^ 4300 - 1)%Z.
Proof. vm_compute. reflexivity. Qed.

Example int_4301_digits_ex : PyStr.int (Samples.nines 4301) = None.
Proof. vm_compute. reflexivity. Qed.

Example img_of_4301_digits_raises :
  Stages.img_raises (Tag "img" [("width", AStr (Samples.nines 4301))] []) = true.
Proof. vm_compute. reflexivity. Qed.

(** [get_text] leaves out the strings of a [script]. *)
Example get_text_skips_script :
  get_text_strip ""
    [NavigableString "home"; Tag "script" [] [OtherString "var x;"]]
  = "home".
Proof. reflexivity. Qed.

(** ** Induction on trees *)

Lemma Node_ind' (P : Node -> Prop) :
  (forall nm a cs, Forall P cs -> P (Tag nm a cs)) ->
  (forall s, P (NavigableString s)) ->
  (forall s, P (Comment s)) ->
  (forall s, P (OtherString s)) ->
  forall n, P n.
Proof.
  intros HT HS HC HO.
  fix IH 1.
  intros [nm a cs | s | s | s].
  - apply HT. induction cs as [| c cs IHcs]; constructor; [apply IH | exact IHcs].
  - apply HS.
  - apply HC.
  - apply HO.
Qed.

(** ** The pipeline runner *)

Section Runner.

Variable parse : string -> Soup.
Variable md5 : string -> string.

#[local] Abbreviation getattr := (HtmlReducer.getattr parse md5).
#[local] Abbreviation reduce := (HtmlReducer.reduce parse md5).

Lemma steps_of_nonempty (pre post : list string) (x : string) :
  HtmlReducer.steps_of (Some (pre ++ x :: post)) = pre ++ x :: post.
Proof. destruct pre; reflexivity. Qed.

Lemma run_app lookup (pre rest : list string) (st : HtmlReducer.t) :
  HtmlReducer.run lookup (pre ++ rest) st =
  match HtmlReducer.run lookup pre st with
  | HtmlReducer.Ok st' => HtmlReducer.run lookup rest st'
  | r => r
  end.
Proof.
  revert st. induction pre as [| name pre IH]; intros st; simpl.
  - reflexivity.
  - destruct (lookup st name) as [fn | | |]; try reflexivity.
    destruct (fn st) as [st' | e st' |]; try reflexivity.
    apply IH.
Qed.

(** C1, as amended: [reduce] looks a name up when its turn comes.  With a
    name the instance does not have anywhere in the list, the stages named
    before it run first, and unless one of them raises, the call raises
    [AttributeError] with the document as those stages left it. *)
Theorem C1_unknown_name_raises_in_its_turn
    (pre post : list string) (bad : string) (st : HtmlReducer.t) :
  (forall s, getattr s bad = HtmlReducer.Absent) ->
  reduce (Some (pre ++ bad :: post)) st =
  match HtmlReducer.run getattr pre st with
  | HtmlReducer.Ok st' => HtmlReducer.Raise HtmlReducer.AttributeError st'
  | r => r
  end.
Proof.
  intros Hbad. unfold HtmlReducer.reduce.
  rewrite steps_of_nonempty, run_app.
  destruct (HtmlReducer.run getattr pre st) as [st' | e st' |]; try reflexivity.
  simpl. rewrite Hbad. reflexivity.
Qed.

(** C10: an empty list of stage names is falsy, so [reduce([])] is
    [reduce(None)], and it runs the whole default pipeline, not zero stages:
    the steps are the seven names of [_DEFAULT_PIPE], from the parse stage to
    the media stage, and whatever the instance held before, the tree is
    parsed from [raw_html] and taken through the six stages that follow, in
    that order; what the media stage leaves, or the [ValueError] it raises,
    is how the call ends. *)
Theorem C10_empty_order_runs_default (st : HtmlReducer.t) :
  reduce (Some []) st = reduce None st /\
  HtmlReducer.steps_of (Some [])
  = [ "parse_the_full_dom_into_a_dom_tree";
      "strip_out_non_structural_nodes";
      "strip_out_non_visual_nodes";
      "simplify_attributes";
      "collapse_deeply_nested_container_with_one_child";
      "prune_repetitive_and_boilerplate_navigation_items";
      "reduce_large_inline_SVGs_or_images_to_lightweight_placeholders" ] /\
  reduce (Some []) st
  = let (f, raised) :=
      Stages.reduce_large_inline_SVGs_or_images_to_lightweight_placeholders parse
        (Stages.prune_repetitive_and_boilerplate_navigation_items md5
           (Stages.collapse_deeply_nested_container_with_one_child
              (Stages.simplify_attributes
                 (Stages.strip_out_non_visual_nodes
                    (Stages.strip_out_non_structural_nodes
                       (parse (HtmlReducer.raw_html st))))))) in
    if raised
    then HtmlReducer.Raise HtmlReducer.ValueError
           (HtmlReducer.mk (HtmlReducer.raw_html st) (Some f))
    else HtmlReducer.Ok (HtmlReducer.mk (HtmlReducer.raw_html st) (Some f)).
Proof.
  split; [reflexivity | split; [reflexivity |]].
  unfold HtmlReducer.reduce.
  cbn -[Stages.strip_out_non_structural_nodes Stages.strip_out_non_visual_nodes
        Stages.simplify_attributes
        Stages.collapse_deeply_nested_container_with_one_child
        Stages.prune_repetitive_and_boilerplate_navigation_items
        Stages.reduce_large_inline_SVGs_or_images_to_lightweight_placeholders].
  destruct (Stages.reduce_large_inline_SVGs_or_images_to_lightweight_placeholders _ _)
    as [f [|]]; reflexivity.
Qed.

(** C9: every stage other than the parse stage, called on an instance that
    has not been parsed, raises [RuntimeError] and leaves the instance as it
    was; after the parse stage the same call no longer raises it. *)
Theorem C9_stage_before_parse_raises
    (name : string) (m : HtmlReducer.t -> HtmlReducer.outcome) (st : HtmlReducer.t) :
  In (name, m) (HtmlReducer.later_stages parse md5) ->
  HtmlReducer.dom_tree st = None ->
  getattr st name = HtmlReducer.Callable m /\
  m st = HtmlReducer.Raise HtmlReducer.RuntimeError st /\
  exists st',
    HtmlReducer.parse_the_full_dom_into_a_dom_tree parse st = HtmlReducer.Ok st' /\
    forall s, m st' <> HtmlReducer.Raise HtmlReducer.RuntimeError s.
Proof.
  intros Hin Hnone.
  assert (Hparsed : exists st',
    HtmlReducer.parse_the_full_dom_into_a_dom_tree parse st = HtmlReducer.Ok st' /\
    exists f, HtmlReducer.dom_tree st' = Some f).
  { eexists. split; [reflexivity | simpl; eauto]. }
  destruct Hparsed as (st' & Hst' & f & Hf).
  simpl in Hin.
  repeat (destruct Hin as [Heq | Hin];
    [ injection Heq as <- <-;
      split; [reflexivity |];
      split;
      [ unfold HtmlReducer.strip_out_non_structural_nodes,
          HtmlReducer.strip_out_non_visual_nodes, HtmlReducer.simplify_attributes,
          HtmlReducer.collapse_deeply_nested_container_with_one_child,
          HtmlReducer.prune_repetitive_and_boilerplate_navigation_items,
          HtmlReducer.reduce_large_inline_SVGs_or_images_to_lightweight_placeholders,
          HtmlReducer.preserve_tables_as_markdown,
          HtmlReducer.preserve_deflists_as_markdown,
          HtmlReducer.preserve_lists_as_markdown,
          HtmlReducer.preserve_figures_as_markdown,
          HtmlReducer.preserve_css_tables_as_markdown, HtmlReducer.guarded;
        rewrite Hnone; reflexivity
      | exists st'; split; [exact Hst' |];
        intros s;
        unfold HtmlReducer.strip_out_non_structural_nodes,
          HtmlReducer.strip_out_non_visual_nodes, HtmlReducer.simplify_attributes,
          HtmlReducer.collapse_deeply_nested_container_with_one_child,
          HtmlReducer.prune_repetitive_and_boilerplate_navigation_items,
          HtmlReducer.reduce_large_inline_SVGs_or_images_to_lightweight_placeholders,
          HtmlReducer.preserve_tables_as_markdown,
          HtmlReducer.preserve_deflists_as_markdown,
          HtmlReducer.preserve_lists_as_markdown,
          HtmlReducer.preserve_figures_as_markdown,
          HtmlReducer.preserve_css_tables_as_markdown, HtmlReducer.guarded;
        rewrite Hf;
        try discriminate;
        destruct (Stages.reduce_large_inline_SVGs_or_images_to_lightweight_placeholders
                    parse f) as [f' [|]]; discriminate ]
    | ]).
  contradiction.
Qed.

End Runner.

Lemma C1_unknown_name_raises_in_its_turn_witness :
  (forall s, HtmlReducer.getattr Samples.parse Samples.md5 s "not_a_real_stage"
             = HtmlReducer.Absent) /\
  HtmlReducer.reduce Samples.parse Samples.md5
    (Some (["parse_the_full_dom_into_a_dom_tree"] ++ "not_a_real_stage" :: []))
    (HtmlReducer.init Samples.html)
  = match HtmlReducer.run (HtmlReducer.getattr Samples.parse Samples.md5)
            ["parse_the_full_dom_into_a_dom_tree"] (HtmlReducer.init Samples.html) with
    | HtmlReducer.Ok st' => HtmlReducer.Raise HtmlReducer.AttributeError st'
    | r => r
    end.
Proof.
  split.
  - intros s. reflexivity.
  - apply (C1_unknown_name_raises_in_its_turn Samples.parse Samples.md5
             ["parse_the_full_dom_into_a_dom_tree"] [] "not_a_real_stage"
             (HtmlReducer.init Samples.html)).
    intros s. reflexivity.
Defined.

(** C1 fails on the configuration the specification names: the parse stage
    has run and has set the tree by the time the unknown name is met, so the
    call does not fail with the instance untouched. *)
Lemma C1_counterexample :
  In "not_a_real_stage" Samples.order_with_unknown /\
  HtmlReducer.getattr Samples.parse Samples.md5 (HtmlReducer.init Samples.html)
    "not_a_real_stage" = HtmlReducer.Absent /\
  HtmlReducer.reduce Samples.parse Samples.md5 (Some Samples.order_with_unknown)
    (HtmlReducer.init Samples.html)
  = HtmlReducer.Raise HtmlReducer.AttributeError
      (HtmlReducer.mk Samples.html (Some Samples.tree)) /\
  ~ (exists e,
       HtmlReducer.reduce Samples.parse Samples.md5 (Some Samples.order_with_unknown)
         (HtmlReducer.init Samples.html)
       = HtmlReducer.Raise e (HtmlReducer.init Samples.html)).
Proof.
  split; [simpl; auto |].
  split; [reflexivity |].
  split; [reflexivity |].
  intros [e He]. vm_compute in He. discriminate He.
Qed.

Lemma C9_stage_before_parse_raises_witness :
  In ("simplify_attributes", HtmlReducer.simplify_attributes)
     (HtmlReducer.later_stages Samples.parse Samples.md5) /\
  HtmlReducer.dom_tree (HtmlReducer.init Samples.html) = None /\
  HtmlReducer.simplify_attributes (HtmlReducer.init Samples.html)
  = HtmlReducer.Raise HtmlReducer.RuntimeError (HtmlReducer.init Samples.html).
Proof.
  assert (Hin : In ("simplify_attributes", HtmlReducer.simplify_attributes)
                   (HtmlReducer.later_stages Samples.parse Samples.md5)).
  { simpl. auto. }
  split; [exact Hin |].
  split; [reflexivity |].
  exact (proj1 (proj2 (C9_stage_before_parse_raises Samples.parse Samples.md5
                         "simplify_attributes" HtmlReducer.simplify_attributes
                         (HtmlReducer.init Samples.html) Hin eq_refl))).
Defined.

(** ** The stages on the sample documents *)

(** Evaluation with the digest left abstract: a comparison of a digest with
    itself is settled by reflexivity, any other comparison by computation. *)
Ltac run_with_digest :=
  cbv -[String.eqb];
  repeat match goal with
  | |- context [String.eqb ?a ?b] =>
      first [ rewrite (String.eqb_refl a)
            | let v := eval vm_compute in (String.eqb a b) in
              change (String.eqb a b) with v ]; cbv iota beta
  end.

(** C7 fails on an image whose width is not a number: the media stage raises
    [ValueError] out of [int], whatever the parser and the digest. *)
Theorem C7_media_stage_raises_on_percent_width
    (parse : string -> Soup) (md5 : string -> string) :
  HtmlReducer.reduce_large_inline_SVGs_or_images_to_lightweight_placeholders parse
    (HtmlReducer.mk "" (Some [Samples.wide_img]))
  = HtmlReducer.Raise HtmlReducer.ValueError
      (HtmlReducer.mk "" (Some [Samples.wide_img])) /\
  HtmlReducer.getattr parse md5 (HtmlReducer.mk "" (Some [Samples.wide_img]))
    "reduce_large_inline_SVGs_or_images_to_lightweight_placeholders"
  = HtmlReducer.Callable
      (HtmlReducer.reduce_large_inline_SVGs_or_images_to_lightweight_placeholders parse).
Proof. split; reflexivity. Qed.

(** C4 fails on two equal menus: the list inside the first [nav] has the
    fingerprint of the [nav] itself and is removed as its duplicate, so the
    first menu survives emptied, whatever the digest. *)
Theorem C4_first_menu_is_emptied (md5 : string -> string) :
  Stages.prune_repetitive_and_boilerplate_navigation_items md5 Samples.tree
  = [Tag "html" [] [Tag "body" [] [Tag "nav" [] []]]].
Proof.
  unfold Stages.prune_repetitive_and_boilerplate_navigation_items, Samples.tree,
    Samples.menu.
  run_with_digest.
  reflexivity.
Qed.

(** C8 fails on a table with a row and no cell: [table_data] holds one empty
    row, the test [if not table_data] lets it through, and the table is
    replaced by a grid of two empty lines. *)
Theorem C8_table_without_cells_is_replaced :
  Stages.preserve_tables_as_markdown [Samples.table_without_cells]
  = [pre_placeholder "data-table"
       (String.append "|  |" (String.append Stages.NL "|  |"))].
Proof. reflexivity. Qed.

Example table_2x2_grid :
  Stages.preserve_tables_as_markdown [Samples.table_2x2]
  = [pre_placeholder "data-table"
       (String.append "| A | B |"
          (String.append Stages.NL
             (String.append "| --- | --- |"
                (String.append Stages.NL "| 1 | 2 |"))))].
Proof. reflexivity. Qed.

Example table_without_rows_is_kept :
  Stages.preserve_tables_as_markdown [Tag "table" [] [NavigableString "x"]]
  = [Tag "table" [] [NavigableString "x"]].
Proof. reflexivity. Qed.

(** ** Attribute simplification *)

Section Dict.

Variable p : string -> bool.

Lemma get_filter_keep (k : string) (a : attrs_t) :
  p k = true -> get k (filter (fun kv => p (fst kv)) a) = get k a.
Proof.
  intros Hk. induction a as [| [k' v] a IH]; simpl; [reflexivity |].
  destruct (p k') eqn:Hk'; simpl.
  - destruct (String.eqb k k'); [reflexivity | exact IH].
  - destruct (String.eqb_spec k k') as [-> | _]; [congruence | exact IH].
Qed.

Lemma get_filter_key (k : string) (a : attrs_t) (v : attr_value) :
  get k (filter (fun kv => p (fst kv)) a) = Some v -> p k = true.
Proof.
  induction a as [| [k' v'] a IH]; simpl; [discriminate |].
  destruct (p k') eqn:Hk'; simpl; [| exact IH].
  destruct (String.eqb_spec k k') as [-> | _]; [intros _; exact Hk' | exact IH].
Qed.

End Dict.

Lemma get_set (k k' : string) (v : attr_value) (a : attrs_t) :
  get k (set k' v a) = if String.eqb k k' then Some v else get k a.
Proof.
  induction a as [| [k0 v0] a IH]; simpl.
  - destruct (String.eqb k k'); reflexivity.
  - destruct (String.eqb_spec k' k0) as [-> | Hne]; simpl.
    + destruct (String.eqb k k0); reflexivity.
    + destruct (String.eqb_spec k k0) as [-> | Hne'].
      * destruct (String.eqb_spec k0 k') as [-> | _]; [congruence | reflexivity].
      * exact IH.
Qed.

Lemma has_attr_trim_class (k : string) (a : attrs_t) :
  has_attr k (Stages.trim_class a) = true -> has_attr k a = true.
Proof.
  unfold Stages.trim_class, has_attr.
  destruct (get "class" a) as [[s | toks] |] eqn:Hc; try (intros H; exact H).
  destruct (6 <? List.length toks); [| intros H; exact H].
  rewrite get_set. destruct (String.eqb_spec k "class") as [-> | _].
  - intros _. rewrite Hc. reflexivity.
  - intros H; exact H.
Qed.

Lemma simplify_attrs_allowed (k : string) (a : attrs_t) :
  has_attr k (Stages.simplify_attrs a) = true ->
  name_in Stages._ALLOWED_ATTRS k = true.
Proof.
  unfold Stages.simplify_attrs. intros H. apply has_attr_trim_class in H.
  unfold has_attr in H.
  destruct (get k (filter (fun kv => name_in Stages._ALLOWED_ATTRS (fst kv)) a))
    as [v |] eqn:Hg; [| discriminate].
  exact (get_filter_key (name_in Stages._ALLOWED_ATTRS) k a v Hg).
Qed.

Lemma simplify_attrs_class (a : attrs_t) (toks : list string) :
  get "class" a = Some (AList toks) ->
  6 < List.length toks ->
  get "class" (Stages.simplify_attrs a) = Some (AList (firstn 6 toks ++ [Stages.ELLIPSIS])).
Proof.
  intros Hc Hlen. unfold Stages.simplify_attrs, Stages.trim_class.
  rewrite (get_filter_keep (name_in Stages._ALLOWED_ATTRS) "class" a eq_refl), Hc.
  apply Nat.ltb_lt in Hlen. rewrite Hlen, get_set. reflexivity.
Qed.

Lemma tags_of_simplify (n : Node) :
  tags_of (Stages.simplify_node n) = map Stages.simplify_node (tags_of n).
Proof.
  induction n as [nm a cs IH | s | s | s] using Node_ind'; try reflexivity.
  simpl. f_equal.
  induction IH as [| c cs Hc _ IHcs]; simpl; [reflexivity |].
  rewrite map_app, Hc, IHcs. reflexivity.
Qed.

Lemma find_all_tags_simplify (f : Soup) :
  find_all_tags (Stages.simplify_attributes f)
  = map Stages.simplify_node (find_all_tags f).
Proof.
  unfold find_all_tags, Stages.simplify_attributes.
  induction f as [| c f IH]; simpl; [reflexivity |].
  rewrite map_app, tags_of_simplify, IH. reflexivity.
Qed.

(** C5: after attribute simplification every attribute key of every element
    of the tree is in the allow-list, and an element (the [i]-th in document
    order) whose class list had more than six tokens carries the first six
    of them followed by the ellipsis token. *)
Theorem C5_simplify_attributes (f : Soup) :
  (forall nm a cs k,
      In (Tag nm a cs) (find_all_tags (Stages.simplify_attributes f)) ->
      has_attr k a = true ->
      In k ["id"; "class"; "href"; "src"; "alt"; "title"; "role"]) /\
  (forall i nm a cs toks,
      nth_error (find_all_tags f) i = Some (Tag nm a cs) ->
      get "class" a = Some (AList toks) ->
      6 < List.length toks ->
      exists a' cs',
        nth_error (find_all_tags (Stages.simplify_attributes f)) i = Some (Tag nm a' cs') /\
        get "class" a' = Some (AList (firstn 6 toks ++ ["…"])) /\
        List.length (firstn 6 toks ++ ["…"]) = 7).
Proof.
  rewrite find_all_tags_simplify. split.
  - intros nm a cs k Hin Hk.
    apply in_map_iff in Hin. destruct Hin as ([nm0 a0 cs0 | s | s | s] & Heq & _);
      simpl in Heq; try discriminate.
    injection Heq as <- <- <-.
    apply simplify_attrs_allowed in Hk.
    unfold name_in in Hk. apply existsb_exists in Hk.
    destruct Hk as (x & Hx & Heq). apply String.eqb_eq in Heq. subst x. exact Hx.
  - intros i nm a cs toks Hi Hc Hlen.
    exists (Stages.simplify_attrs a), (map Stages.simplify_node cs).
    split; [| split].
    + rewrite nth_error_map, Hi. reflexivity.
    + exact (simplify_attrs_class a toks Hc Hlen).
    + rewrite length_app, firstn_length_le by lia. reflexivity.
Qed.

Lemma C5_simplify_attributes_witness :
  nth_error (find_all_tags [Samples.classy]) 0
  = Some (Tag "p" [("class", AList ["a"; "b"; "c"; "d"; "e"; "f"; "g"; "h"]);
                   ("onclick", AStr "f()")] []) /\
  6 < List.length ["a"; "b"; "c"; "d"; "e"; "f"; "g"; "h"] /\
  exists a' cs',
    nth_error (find_all_tags (Stages.simplify_attributes [Samples.classy])) 0
    = Some (Tag "p" a' cs') /\
    get "class" a' = Some (AList ["a"; "b"; "c"; "d"; "e"; "f"; "…"]) /\
    List.length (firstn 6 ["a"; "b"; "c"; "d"; "e"; "f"; "g"; "h"] ++ ["…"]) = 7.
Proof.
  split; [reflexivity |].
  split; [simpl; lia |].
  apply (proj2 (C5_simplify_attributes [Samples.classy]) 0 "p"
           [("class", AList ["a"; "b"; "c"; "d"; "e"; "f"; "g"; "h"]);
            ("onclick", AStr "f()")] []
           ["a"; "b"; "c"; "d"; "e"; "f"; "g"; "h"]).
  - reflexivity.
  - reflexivity.
  - simpl; lia.
Defined.

Example simplify_classy :
  Stages.simplify_attributes [Samples.classy]
  = [Tag "p" [("class", AList ["a"; "b"; "c"; "d"; "e"; "f"; "…"])] []].
Proof. reflexivity. Qed.

(** ** Removal of nodes *)

Section Removal.

Variable d : Node -> bool.

Lemma remove_in_cons (c : Node) (cs : list Node) :
  remove_in d (c :: cs)
  = (if d c then [] else [remove_nodes d c]) ++ remove_in d cs.
Proof. reflexivity. Qed.

Lemma find_all_tags_app (l1 l2 : list Node) :
  find_all_tags (l1 ++ l2) = find_all_tags l1 ++ find_all_tags l2.
Proof. unfold find_all_tags. apply flat_map_app. Qed.

Lemma find_all_tags_cons (c : Node) (cs : list Node) :
  find_all_tags (c :: cs) = tags_of c ++ find_all_tags cs.
Proof. reflexivity. Qed.

(** Every tag left in the tree comes from a tag that was not dropped. *)
Lemma tags_of_remove_origin (n n' : Node) :
  In n' (tags_of (remove_nodes d n)) ->
  exists m, In m (tags_of n) /\ (m = n \/ d m = false) /\ n' = remove_nodes d m.
Proof.
  revert n'. induction n as [nm a cs IH | s | s | s] using Node_ind';
    intros n' Hin; try (simpl in Hin; contradiction).
  change (remove_nodes d (Tag nm a cs)) with (Tag nm a (remove_in d cs)) in *.
  simpl in Hin. destruct Hin as [<- | Hin].
  - exists (Tag nm a cs). split; [simpl; auto | split; [auto | reflexivity]].
  - change (flat_map tags_of (remove_in d cs))
      with (find_all_tags (remove_in d cs)) in Hin.
    assert (H : exists m, In m (find_all_tags cs) /\ d m = false /\ n' = remove_nodes d m).
    { induction IH as [| c cs Hc _ IHcs]; [simpl in Hin; contradiction |].
      rewrite remove_in_cons, find_all_tags_app in Hin.
      rewrite find_all_tags_cons.
      apply in_app_or in Hin. destruct Hin as [Hin | Hin].
      - destruct (d c) eqn:Hd; [simpl in Hin; contradiction |].
        unfold find_all_tags in Hin. simpl in Hin. rewrite app_nil_r in Hin.
        destruct (Hc n' Hin) as (m & Hm & Hor & Heq).
        exists m. split; [apply in_or_app; auto |].
        split; [| exact Heq]. destruct Hor as [-> | Hf]; assumption.
      - destruct (IHcs Hin) as (m & Hm & Hf & Heq).
        exists m. split; [apply in_or_app; auto | auto]. }
    destruct H as (m & Hm & Hf & Heq).
    exists m. split; [simpl; right; exact Hm | auto].
Qed.

Lemma remove_in_origin (f : Soup) (n' : Node) :
  In n' (find_all_tags (remove_in d f)) ->
  exists m, In m (find_all_tags f) /\ d m = false /\ n' = remove_nodes d m.
Proof.
  induction f as [| c f IH]; intros Hin; [simpl in Hin; contradiction |].
  rewrite remove_in_cons, find_all_tags_app in Hin. rewrite find_all_tags_cons.
  apply in_app_or in Hin. destruct Hin as [Hin | Hin].
  - destruct (d c) eqn:Hd; [simpl in Hin; contradiction |].
    unfold find_all_tags in Hin. simpl in Hin. rewrite app_nil_r in Hin.
    destruct (tags_of_remove_origin c n' Hin) as (m & Hm & Hor & Heq).
    exists m. split; [apply in_or_app; auto |].
    split; [| exact Heq]. destruct Hor as [-> | Hf]; assumption.
  - destruct (IH Hin) as (m & Hm & Hf & Heq).
    exists m. split; [apply in_or_app; auto | auto].
Qed.

Hypothesis d_leafy : leafy d.

(** A tag that is not dropped stays in the tree: nothing above it is
    dropped, since what is dropped has no tag below it. *)
Lemma tags_of_remove_survives (n m : Node) :
  In m (tags_of n) -> d m = false ->
  In (remove_nodes d m) (tags_of (remove_nodes d n)).
Proof.
  induction n as [nm a cs IH | s | s | s] using Node_ind';
    intros Hin Hm; try (simpl in Hin; contradiction).
  change (remove_nodes d (Tag nm a cs)) with (Tag nm a (remove_in d cs)).
  simpl in Hin. destruct Hin as [<- | Hin]; [simpl; auto |].
  simpl. right.
  change (flat_map tags_of (remove_in d cs)) with (find_all_tags (remove_in d cs)).
  change (flat_map tags_of cs) with (find_all_tags cs) in Hin.
  induction IH as [| c cs Hc _ IHcs]; [simpl in Hin; contradiction |].
  rewrite find_all_tags_cons in Hin.
  rewrite remove_in_cons, find_all_tags_app.
  apply in_app_or in Hin. apply in_or_app. destruct Hin as [Hin | Hin].
  - left. destruct (d c) eqn:Hd.
    + rewrite (d_leafy c m Hd Hin) in Hm. congruence.
    + unfold find_all_tags. simpl. rewrite app_nil_r. exact (Hc Hin Hm).
  - right. exact (IHcs Hin).
Qed.

Lemma remove_in_survives (f : Soup) (m : Node) :
  In m (find_all_tags f) -> d m = false ->
  In (remove_nodes d m) (find_all_tags (remove_in d f)).
Proof.
  induction f as [| c f IH]; intros Hin Hm; [simpl in Hin; contradiction |].
  rewrite find_all_tags_cons in Hin.
  rewrite remove_in_cons, find_all_tags_app.
  apply in_app_or in Hin. apply in_or_app. destruct Hin as [Hin | Hin].
  - left. destruct (d c) eqn:Hd.
    + rewrite (d_leafy c m Hd Hin) in Hm. congruence.
    + unfold find_all_tags. simpl. rewrite app_nil_r.
      exact (tags_of_remove_survives c m Hin Hm).
  - right. exact (IH Hin Hm).
Qed.

End Removal.

(** ** Non-visual nodes *)

Lemma no_tag_below_iff (cs : list Node) :
  find_all_tags cs = [] <-> child_tags cs = [].
Proof.
  induction cs as [| c cs IH]; [split; reflexivity |].
  rewrite find_all_tags_cons. unfold child_tags in *. simpl.
  destruct c as [nm a cs0 | s | s | s]; simpl.
  - split; discriminate.
  - exact IH.
  - exact IH.
  - exact IH.
Qed.

Lemma hidden_leaf_iff (nm : string) (a : attrs_t) (cs : list Node) :
  Stages.hidden_leaf (Tag nm a cs) = true <->
  Stages.hidden_attr a = true /\ child_tags cs = [].
Proof.
  simpl. rewrite andb_true_iff, <- no_tag_below_iff.
  destruct (find_all_tags cs); intuition (auto; discriminate).
Qed.

Lemma hidden_leaf_leafy : leafy Stages.hidden_leaf.
Proof.
  intros [nm a cs | s | s | s] m Hd Hin; try (simpl in Hin; contradiction).
  simpl in Hd. apply andb_true_iff in Hd. destruct Hd as [_ Hd].
  simpl in Hin. change (flat_map tags_of cs) with (find_all_tags cs) in Hin.
  destruct (find_all_tags cs); [| discriminate].
  destruct Hin as [<- | []]. reflexivity.
Qed.

Lemma empty_inline_leafy : leafy Stages.empty_inline.
Proof.
  intros [nm a [| c cs] | s | s | s] m Hd Hin; try discriminate;
    try (simpl in Hin; contradiction).
  simpl in Hin. destruct Hin as [<- | []]. reflexivity.
Qed.

Lemma tags_of_are_tags (n m : Node) : In m (tags_of n) -> is_tag m = true.
Proof.
  induction n as [nm a cs IH | s | s | s] using Node_ind'; simpl; try tauto.
  intros [<- | Hin]; [reflexivity |].
  induction IH as [| c cs Hc _ IHcs]; [contradiction |].
  simpl in Hin. apply in_app_or in Hin. tauto.
Qed.

Lemma find_all_tags_are_tags (f : Soup) (m : Node) :
  In m (find_all_tags f) -> is_tag m = true.
Proof.
  unfold find_all_tags. intros Hin. apply in_flat_map in Hin.
  destruct Hin as (c & _ & Hin). exact (tags_of_are_tags c m Hin).
Qed.

(** C3, as amended.  An element survives the stage only if it was not a
    hidden element without element children.  A hidden element with an
    element child survives the first loop, with the hidden leaves below it
    removed; it survives the stage too unless the first loop left it an
    empty [span], [b], [i] or [u], which the second loop removes. *)
Theorem C3_hidden_leaves_removed (f : Soup) :
  (forall n',
      In n' (find_all_tags (Stages.strip_out_non_visual_nodes f)) ->
      exists nm a cs,
        In (Tag nm a cs) (find_all_tags f) /\
        ~ (Stages.hidden_attr a = true /\ child_tags cs = []) /\
        n' = remove_nodes Stages.empty_inline
               (remove_nodes Stages.hidden_leaf (Tag nm a cs))) /\
  (forall nm a cs,
      In (Tag nm a cs) (find_all_tags f) ->
      Stages.hidden_attr a = true ->
      child_tags cs <> [] ->
      In (remove_nodes Stages.hidden_leaf (Tag nm a cs))
         (find_all_tags (Stages.strip_hidden f)) /\
      (Stages.empty_inline (remove_nodes Stages.hidden_leaf (Tag nm a cs)) = false ->
       In (remove_nodes Stages.empty_inline
             (remove_nodes Stages.hidden_leaf (Tag nm a cs)))
          (find_all_tags (Stages.strip_out_non_visual_nodes f)))).
Proof.
  unfold Stages.strip_out_non_visual_nodes, Stages.strip_hidden. split.
  - intros n' Hin.
    apply remove_in_origin in Hin. destruct Hin as (m1 & Hm1 & _ & ->).
    apply remove_in_origin in Hm1. destruct Hm1 as (m & Hm & Hd & ->).
    destruct m as [nm a cs | s | s | s].
    + exists nm, a, cs. split; [exact Hm |]. split; [| reflexivity].
      intros H. apply (proj2 (hidden_leaf_iff nm a cs)) in H. congruence.
    + apply find_all_tags_are_tags in Hm. discriminate.
    + apply find_all_tags_are_tags in Hm. discriminate.
    + apply find_all_tags_are_tags in Hm. discriminate.
  - intros nm a cs Hin Hh Hcs.
    assert (Hd : Stages.hidden_leaf (Tag nm a cs) = false).
    { destruct (Stages.hidden_leaf (Tag nm a cs)) eqn:E; [| reflexivity].
      apply (proj1 (hidden_leaf_iff nm a cs)) in E. tauto. }
    pose proof (remove_in_survives Stages.hidden_leaf hidden_leaf_leafy f _ Hin Hd) as H1.
    split; [exact H1 |].
    intros He.
    exact (remove_in_survives Stages.empty_inline empty_inline_leafy _ _ H1 He).
Qed.

Lemma C3_hidden_leaves_removed_witness :
  In Samples.hidden_div (find_all_tags [Samples.hidden_div]) /\
  In (Tag "div" [("hidden", AStr "")] [])
     (find_all_tags (Stages.strip_out_non_visual_nodes [Samples.hidden_div])).
Proof.
  split; [simpl; auto |].
  refine (proj2 (proj2 (C3_hidden_leaves_removed [Samples.hidden_div])
                   "div" [("hidden", AStr "")] [Tag "p" [("hidden", AStr "")] []]
                   _ _ _) _).
  - simpl; auto.
  - reflexivity.
  - discriminate.
  - reflexivity.
Defined.

(** C3 fails both ways.  A hidden [span] with one element child is not
    retained: its child is removed by the first loop and the emptied [span]
    by the second.  And a hidden element without element children is found in
    the tree after the stage: a hidden [div] whose only child was a hidden
    leaf. *)
Lemma C3_counterexample :
  (In Samples.hidden_span (find_all_tags [Samples.hidden_span]) /\
   Stages.hidden_attr [("hidden", AStr "")] = true /\
   child_tags [Tag "b" [("hidden", AStr "")] []] <> [] /\
   Stages.strip_out_non_visual_nodes [Samples.hidden_span] = []) /\
  (Stages.strip_out_non_visual_nodes [Samples.hidden_div]
   = [Tag "div" [("hidden", AStr "")] []] /\
   Stages.hidden_attr [("hidden", AStr "")] = true /\
   child_tags [] = []).
Proof.
  repeat split; try reflexivity; try (simpl; auto; fail). discriminate.
Qed.

(** ** Running a stage twice *)

Lemma remove_in_app (d : Node -> bool) (l1 l2 : list Node) :
  remove_in d (l1 ++ l2) = remove_in d l1 ++ remove_in d l2.
Proof. unfold remove_in. apply flat_map_app. Qed.

Lemma by_name_remove (d d' : Node -> bool) (n : Node) :
  by_name d -> d (remove_nodes d' n) = d n.
Proof. intros Hd. destruct n as [nm a cs | s | s | s]; [apply Hd | reflexivity ..]. Qed.

(** Two removals by name commute. *)
Lemma remove_nodes_comm (d1 d2 : Node -> bool) (n : Node) :
  by_name d1 -> by_name d2 ->
  remove_nodes d1 (remove_nodes d2 n) = remove_nodes d2 (remove_nodes d1 n).
Proof.
  intros H1 H2.
  induction n as [nm a cs IH | s | s | s] using Node_ind'; try reflexivity.
  change (Tag nm a (remove_in d1 (remove_in d2 cs))
          = Tag nm a (remove_in d2 (remove_in d1 cs))).
  f_equal.
  induction IH as [| c cs Hc _ IHcs]; [reflexivity |].
  rewrite !remove_in_cons, !remove_in_app, IHcs. f_equal.
  destruct (d1 c) eqn:E1, (d2 c) eqn:E2; simpl;
    rewrite ?app_nil_r, ?by_name_remove, ?E1, ?E2 by assumption;
    try reflexivity.
  rewrite Hc. reflexivity.
Qed.

Lemma remove_in_comm (d1 d2 : Node -> bool) (f : Soup) :
  by_name d1 -> by_name d2 ->
  remove_in d1 (remove_in d2 f) = remove_in d2 (remove_in d1 f).
Proof.
  intros H1 H2. induction f as [| c f IH]; [reflexivity |].
  rewrite !remove_in_cons, !remove_in_app, IH. f_equal.
  destruct (d1 c) eqn:E1, (d2 c) eqn:E2; simpl;
    rewrite ?app_nil_r, ?by_name_remove, ?E1, ?E2 by assumption;
    try reflexivity.
  rewrite remove_nodes_comm by assumption. reflexivity.
Qed.

(** A removal by name finds nothing the second time. *)
Lemma remove_nodes_twice (d : Node -> bool) (n : Node) :
  by_name d -> remove_nodes d (remove_nodes d n) = remove_nodes d n.
Proof.
  intros Hd.
  induction n as [nm a cs IH | s | s | s] using Node_ind'; try reflexivity.
  change (Tag nm a (remove_in d (remove_in d cs)) = Tag nm a (remove_in d cs)).
  f_equal.
  induction IH as [| c cs Hc _ IHcs]; [reflexivity |].
  rewrite !remove_in_cons, !remove_in_app, IHcs. f_equal.
  destruct (d c) eqn:E; [reflexivity |].
  simpl. rewrite app_nil_r, by_name_remove, E, Hc by assumption. reflexivity.
Qed.

Lemma remove_in_twice (d : Node -> bool) (f : Soup) :
  by_name d -> remove_in d (remove_in d f) = remove_in d f.
Proof.
  intros Hd. induction f as [| c f IH]; [reflexivity |].
  rewrite !remove_in_cons, !remove_in_app, IH. f_equal.
  destruct (d c) eqn:E; [reflexivity |].
  simpl. rewrite app_nil_r, by_name_remove, E, remove_nodes_twice by assumption.
  reflexivity.
Qed.

Lemma is_comment_by_name : by_name Stages.is_comment.
Proof. intros nm a cs a' cs'. reflexivity. Qed.

Lemma is_non_structural_by_name : by_name Stages.is_non_structural.
Proof. intros nm a cs a' cs'. reflexivity. Qed.

Lemma strip_out_non_structural_nodes_twice (f : Soup) :
  Stages.strip_out_non_structural_nodes (Stages.strip_out_non_structural_nodes f)
  = Stages.strip_out_non_structural_nodes f.
Proof.
  unfold Stages.strip_out_non_structural_nodes.
  rewrite (remove_in_comm Stages.is_comment Stages.is_non_structural)
    by (apply is_comment_by_name || apply is_non_structural_by_name).
  rewrite (remove_in_twice Stages.is_comment) by apply is_comment_by_name.
  rewrite (remove_in_twice Stages.is_non_structural)
    by apply is_non_structural_by_name.
  reflexivity.
Qed.

Lemma set_set (k : string) (v v' : attr_value) (a : attrs_t) :
  set k v (set k v' a) = set k v a.
Proof.
  induction a as [| [k0 v0] a IH]; simpl.
  - rewrite String.eqb_refl. reflexivity.
  - destruct (String.eqb k k0) eqn:E; simpl; rewrite E; [reflexivity |].
    rewrite IH. reflexivity.
Qed.

Lemma set_keeps_keys (p : string -> bool) (k : string) (v v0 : attr_value) (a : attrs_t) :
  get k a = Some v0 ->
  Forall (fun kv => p (fst kv) = true) a ->
  Forall (fun kv => p (fst kv) = true) (set k v a).
Proof.
  intros Hg Ha. induction Ha as [| [k0 w] a Hk Ha IH]; simpl in *; [discriminate |].
  destruct (String.eqb k k0) eqn:E.
  - constructor; assumption.
  - constructor; [assumption | exact (IH Hg)].
Qed.

Lemma trim_class_keeps_keys (p : string -> bool) (a : attrs_t) :
  Forall (fun kv => p (fst kv) = true) a ->
  Forall (fun kv => p (fst kv) = true) (Stages.trim_class a).
Proof.
  intros Ha. unfold Stages.trim_class.
  destruct (get "class" a) as [[s | toks] |] eqn:Hc; try exact Ha.
  destruct (6 <? List.length toks); [| exact Ha].
  exact (set_keeps_keys p "class" _ _ a Hc Ha).
Qed.

Lemma filter_all (A : Type) (p : A -> bool) (l : list A) :
  Forall (fun x => p x = true) l -> filter p l = l.
Proof.
  intros H. induction H as [| x l Hx _ IH]; simpl; [reflexivity |].
  rewrite Hx, IH. reflexivity.
Qed.

Lemma filter_Forall (A : Type) (p : A -> bool) (l : list A) :
  Forall (fun x => p x = true) (filter p l).
Proof.
  induction l as [| x l IH]; simpl; [constructor |].
  destruct (p x) eqn:E; [constructor; assumption | exact IH].
Qed.

Lemma trim_class_twice (a : attrs_t) :
  Stages.trim_class (Stages.trim_class a) = Stages.trim_class a.
Proof.
  unfold Stages.trim_class at 2 3.
  destruct (get "class" a) as [[s | toks] |] eqn:Hc;
    try (unfold Stages.trim_class; rewrite Hc; reflexivity).
  destruct (6 <? List.length toks) eqn:Hlen;
    [| unfold Stages.trim_class; rewrite Hc, Hlen; reflexivity].
  apply Nat.ltb_lt in Hlen.
  unfold Stages.trim_class. rewrite get_set. simpl String.eqb. cbv iota.
  assert (H6 : List.length (firstn 6 toks) = 6) by (apply firstn_length_le; lia).
  rewrite length_app, H6. simpl Nat.ltb. cbv iota.
  rewrite set_set.
  assert (Hf : firstn 6 (firstn 6 toks ++ [Stages.ELLIPSIS]) = firstn 6 toks).
  { rewrite firstn_app, H6, Nat.sub_diag, firstn_firstn, Nat.min_id.
    apply app_nil_r. }
  rewrite Hf. reflexivity.
Qed.

Lemma simplify_attrs_twice (a : attrs_t) :
  Stages.simplify_attrs (Stages.simplify_attrs a) = Stages.simplify_attrs a.
Proof.
  unfold Stages.simplify_attrs.
  rewrite (filter_all _ (fun kv => name_in Stages._ALLOWED_ATTRS (fst kv))).
  - apply trim_class_twice.
  - apply (trim_class_keeps_keys (name_in Stages._ALLOWED_ATTRS)).
    apply (filter_Forall _ (fun kv => name_in Stages._ALLOWED_ATTRS (fst kv))).
Qed.

Lemma simplify_node_twice (n : Node) :
  Stages.simplify_node (Stages.simplify_node n) = Stages.simplify_node n.
Proof.
  induction n as [nm a cs IH | s | s | s] using Node_ind'; try reflexivity.
  simpl. rewrite simplify_attrs_twice, map_map. f_equal.
  induction IH as [| c cs Hc _ IHcs]; simpl; [reflexivity |].
  rewrite Hc, IHcs. reflexivity.
Qed.

Lemma simplify_attributes_twice (f : Soup) :
  Stages.simplify_attributes (Stages.simplify_attributes f)
  = Stages.simplify_attributes f.
Proof.
  unfold Stages.simplify_attributes. rewrite map_map.
  apply map_ext. intros n. apply simplify_node_twice.
Qed.

(** Unwrapping leaves the number of element children of the parent as it
    was. *)
Lemma collapse_keeps_child_tags (cs : list Node) :
  List.length (child_tags (flat_map Stages.collapse_node cs))
  = List.length (child_tags cs).
Proof.
  assert (H : forall n, List.length (child_tags (Stages.collapse_node n))
                        = List.length (child_tags [n])).
  { induction n as [nm a cs0 IH | s | s | s] using Node_ind'; try reflexivity.
    assert (Hcs : List.length (child_tags (flat_map Stages.collapse_node cs0))
                  = List.length (child_tags cs0)).
    { induction IH as [| c cs1 Hc _ IHcs]; [reflexivity |].
      simpl flat_map. unfold child_tags in *. rewrite filter_app, length_app, Hc, IHcs.
      change (c :: cs1) with ([c] ++ cs1). rewrite filter_app, length_app. reflexivity. }
    simpl Stages.collapse_node.
    destruct (Stages.collapsible nm a cs0) eqn:E; [| reflexivity].
    rewrite Hcs. unfold Stages.collapsible in E.
    apply andb_true_iff in E. destruct E as [E _].
    apply andb_true_iff in E. destruct E as [E _].
    apply Nat.eqb_eq in E. rewrite E. reflexivity. }
  induction cs as [| c cs IH]; [reflexivity |].
  simpl flat_map. unfold child_tags in *. rewrite filter_app, length_app, H, IH.
  change (c :: cs) with ([c] ++ cs). rewrite filter_app, length_app. reflexivity.
Qed.

Lemma collapsible_after (nm : string) (a : attrs_t) (cs : list Node) :
  Stages.collapsible nm a (flat_map Stages.collapse_node cs)
  = Stages.collapsible nm a cs.
Proof. unfold Stages.collapsible. rewrite collapse_keeps_child_tags. reflexivity. Qed.

Lemma flat_map_stable (l : list Node) :
  Forall (fun m => Stages.collapse_node m = [m]) l ->
  flat_map Stages.collapse_node l = l.
Proof.
  intros H. induction H as [| m l Hm _ IH]; simpl; [reflexivity |].
  rewrite Hm, IH. reflexivity.
Qed.

(** What the collapse leaves holds no wrapper to unwrap. *)
Lemma collapse_node_stable (n : Node) :
  Forall (fun m => Stages.collapse_node m = [m]) (Stages.collapse_node n).
Proof.
  induction n as [nm a cs IH | s | s | s] using Node_ind';
    try (constructor; [reflexivity | constructor]).
  assert (Hcs : Forall (fun m => Stages.collapse_node m = [m])
                       (flat_map Stages.collapse_node cs)).
  { induction IH as [| c cs0 Hc _ IHcs]; simpl; [constructor |].
    apply Forall_app. split; assumption. }
  simpl Stages.collapse_node.
  destruct (Stages.collapsible nm a cs) eqn:E; [exact Hcs |].
  constructor; [| constructor].
  simpl Stages.collapse_node. rewrite collapsible_after, E.
  rewrite (flat_map_stable _ Hcs). reflexivity.
Qed.

Lemma collapse_twice (f : Soup) :
  Stages.collapse_deeply_nested_container_with_one_child
    (Stages.collapse_deeply_nested_container_with_one_child f)
  = Stages.collapse_deeply_nested_container_with_one_child f.
Proof.
  unfold Stages.collapse_deeply_nested_container_with_one_child.
  apply flat_map_stable.
  induction f as [| c f IH]; simpl; [constructor |].
  apply Forall_app. split; [apply collapse_node_stable | exact IH].
Qed.

(** ** Loops that replace tags *)

Section ReplaceOuter.

Variable turn : Node -> option (list Node).

#[local] Abbreviation stable := (Bs4.stable turn).

Lemma replace_in_stable (l : list Node) :
  Forall stable l -> replace_in turn l = l.
Proof.
  intros H. induction H as [| m l Hm _ IH]; [reflexivity |].
  unfold replace_in in *. simpl. rewrite Hm, IH. reflexivity.
Qed.

Lemma replace_in_cons (c : Node) (cs : list Node) :
  replace_in turn (c :: cs) = replace_outer turn c ++ replace_in turn cs.
Proof. reflexivity. Qed.

(** A tag of the tree after the loop is a tag of something put in, or has
    the name and the attributes of a tag of the tree before it. *)
Lemma replace_outer_tags (n m : Node) :
  In m (find_all_tags (replace_outer turn n)) ->
  (exists n0 l, In n0 (tags_of n) /\ turn n0 = Some l /\ In m (find_all_tags l)) \/
  (exists m0, In m0 (tags_of n) /\ same_head m m0).
Proof.
  revert m. induction n as [nm a cs IH | s | s | s] using Node_ind'; intros m Hin;
    try (simpl in Hin; contradiction).
  simpl replace_outer in Hin.
  destruct (turn (Tag nm a cs)) as [l |] eqn:Ht.
  - left. exists (Tag nm a cs), l. split; [simpl; auto | auto].
  - unfold find_all_tags in Hin. simpl in Hin. rewrite app_nil_r in Hin.
    destruct Hin as [<- | Hin].
    + right. exists (Tag nm a cs). split; [simpl; auto | simpl; auto].
    + change (flat_map tags_of (flat_map (replace_outer turn) cs))
        with (find_all_tags (replace_in turn cs)) in Hin.
      assert (H : (exists n0 l, In n0 (find_all_tags cs) /\ turn n0 = Some l /\
                                In m (find_all_tags l)) \/
                  (exists m0, In m0 (find_all_tags cs) /\ same_head m m0)).
      { clear Ht.
        induction IH as [| c cs0 Hc _ IHcs]; [simpl in Hin; contradiction |].
        rewrite replace_in_cons, find_all_tags_app in Hin.
        rewrite find_all_tags_cons.
        apply in_app_or in Hin. destruct Hin as [Hin | Hin].
        - destruct (Hc m Hin) as [(n0 & l & Hn0 & Hl & Hm) | (m0 & Hm0 & Hh)].
          + left. exists n0, l. split; [apply in_or_app; auto | auto].
          + right. exists m0. split; [apply in_or_app; auto | auto].
        - destruct (IHcs Hin) as [(n0 & l & Hn0 & Hl & Hm) | (m0 & Hm0 & Hh)].
          + left. exists n0, l. split; [apply in_or_app; auto | auto].
          + right. exists m0. split; [apply in_or_app; auto | auto]. }
      destruct H as [(n0 & l & Hn0 & Hl & Hm) | (m0 & Hm0 & Hh)].
      * left. exists n0, l. split; [simpl; right; exact Hn0 | auto].
      * right. exists m0. split; [simpl; right; exact Hm0 | auto].
Qed.

Lemma replace_in_tags (cs : list Node) (m : Node) :
  In m (find_all_tags (replace_in turn cs)) ->
  (exists n0 l, In n0 (find_all_tags cs) /\ turn n0 = Some l /\ In m (find_all_tags l)) \/
  (exists m0, In m0 (find_all_tags cs) /\ same_head m m0).
Proof.
  induction cs as [| c cs IH]; intros Hin; [simpl in Hin; contradiction |].
  rewrite replace_in_cons, find_all_tags_app in Hin. rewrite find_all_tags_cons.
  apply in_app_or in Hin. destruct Hin as [Hin | Hin].
  - destruct (replace_outer_tags c m Hin) as [(n0 & l & Hn0 & Hl & Hm) | (m0 & Hm0 & Hh)].
    + left. exists n0, l. split; [apply in_or_app; auto | auto].
    + right. exists m0. split; [apply in_or_app; auto | auto].
  - destruct (IH Hin) as [(n0 & l & Hn0 & Hl & Hm) | (m0 & Hm0 & Hh)].
    + left. exists n0, l. split; [apply in_or_app; auto | auto].
    + right. exists m0. split; [apply in_or_app; auto | auto].
Qed.

(** The same, for the children only. *)
Lemma replace_in_children (cs : list Node) (m : Node) :
  In m (child_tags (replace_in turn cs)) ->
  (exists n0 l, In n0 (child_tags cs) /\ turn n0 = Some l /\ In m (child_tags l)) \/
  (exists m0, In m0 (child_tags cs) /\ same_head m m0).
Proof.
  unfold child_tags.
  induction cs as [| c cs IH]; intros Hin; [simpl in Hin; contradiction |].
  rewrite replace_in_cons, filter_app in Hin.
  apply in_app_or in Hin. destruct Hin as [Hin | Hin].
  - destruct c as [nm a cs0 | s | s | s]; try (simpl in Hin; contradiction).
    simpl replace_outer in Hin.
    destruct (turn (Tag nm a cs0)) as [l |] eqn:Ht.
    + left. exists (Tag nm a cs0), l. split; [simpl; auto | auto].
    + simpl in Hin. destruct Hin as [<- | []].
      right. exists (Tag nm a cs0). split; [simpl; auto | simpl; auto].
  - destruct (IH Hin) as [(n0 & l & Hn0 & Hl & Hm) | (m0 & Hm0 & Hh)].
    + left. exists n0, l. split; [| auto].
      simpl. destruct (is_tag c); [right |]; exact Hn0.
    + right. exists m0. split; [| auto].
      simpl. destruct (is_tag c); [right |]; exact Hm0.
Qed.

Hypothesis put_in_stable :
  forall n l, turn n = Some l -> Forall stable l.
Hypothesis skipped_again :
  forall nm a cs,
    turn (Tag nm a cs) = None -> turn (Tag nm a (replace_in turn cs)) = None.

Lemma replace_outer_all_stable (n : Node) : Forall stable (replace_outer turn n).
Proof.
  induction n as [nm a cs IH | s | s | s] using Node_ind';
    try (constructor; [reflexivity | constructor]).
  simpl replace_outer.
  destruct (turn (Tag nm a cs)) as [l |] eqn:Ht; [exact (put_in_stable _ _ Ht) |].
  assert (Hcs : Forall stable (replace_in turn cs)).
  { clear Ht. induction IH as [| c cs0 Hc _ IHcs]; [constructor |].
    rewrite replace_in_cons. apply Forall_app. split; assumption. }
  constructor; [| constructor].
  unfold stable. simpl replace_outer.
  change (flat_map (replace_outer turn) cs) with (replace_in turn cs).
  rewrite (skipped_again nm a cs Ht).
  change (flat_map (replace_outer turn) (replace_in turn cs))
    with (replace_in turn (replace_in turn cs)).
  rewrite (replace_in_stable _ Hcs). reflexivity.
Qed.

(** Such a loop finds nothing to do the second time. *)
Lemma replace_in_twice (f : Soup) :
  replace_in turn (replace_in turn f) = replace_in turn f.
Proof.
  apply replace_in_stable.
  induction f as [| c f IH]; [constructor |].
  rewrite replace_in_cons. apply Forall_app.
  split; [apply replace_outer_all_stable | exact IH].
Qed.

End ReplaceOuter.

Lemma filter_nil_iff (A : Type) (q : A -> bool) (l : list A) :
  filter q l = [] <-> (forall x, In x l -> q x = false).
Proof.
  induction l as [| x l IH]; simpl.
  - split; [intros _ y [] | reflexivity].
  - destruct (q x) eqn:E.
    + split; [discriminate |]. intros H. rewrite (H x (or_introl eq_refl)) in E.
      discriminate.
    + rewrite IH. split.
      * intros H y [<- | Hy]; [exact E | exact (H y Hy)].
      * intros H y Hy. apply H. right. exact Hy.
Qed.

Section AfterLoop.

Variable turn : Node -> option (list Node).
Variable q : Node -> bool.

Hypothesis q_head : forall m m0, same_head m m0 -> q m = q m0.

(** When nothing the loop puts in satisfies [q], and no tag did before the
    loop, no tag does after it. *)
Lemma filter_tags_after (cs : list Node) :
  (forall n l m, turn n = Some l -> In m (find_all_tags l) -> q m = false) ->
  filter q (find_all_tags cs) = [] ->
  filter q (find_all_tags (replace_in turn cs)) = [].
Proof.
  intros Hput H. rewrite filter_nil_iff in *. intros m Hm.
  destruct (replace_in_tags turn cs m Hm) as [(n0 & l & _ & Hl & Hin) | (m0 & Hm0 & Hh)].
  - exact (Hput n0 l m Hl Hin).
  - rewrite (q_head m m0 Hh). exact (H m0 Hm0).
Qed.

Lemma filter_children_after (cs : list Node) :
  (forall n l m, turn n = Some l -> In m (child_tags l) -> q m = false) ->
  filter q (child_tags cs) = [] ->
  filter q (child_tags (replace_in turn cs)) = [].
Proof.
  intros Hput H. rewrite filter_nil_iff in *. intros m Hm.
  destruct (replace_in_children turn cs m Hm) as [(n0 & l & _ & Hl & Hin) | (m0 & Hm0 & Hh)].
  - exact (Hput n0 l m Hl Hin).
  - rewrite (q_head m m0 Hh). exact (H m0 Hm0).
Qed.

End AfterLoop.

Lemma named_head (names : list string) (m m0 : Node) :
  same_head m m0 -> named names m = named names m0.
Proof.
  destruct m as [nm a cs | | |], m0 as [nm0 a0 cs0 | | |]; simpl; try contradiction.
  intros [-> _]. reflexivity.
Qed.

Lemma style_displays_head (v : string) (m m0 : Node) :
  same_head m m0 -> Stages.style_displays v m = Stages.style_displays v m0.
Proof.
  destruct m as [nm a cs | | |], m0 as [nm0 a0 cs0 | | |]; simpl; try contradiction.
  intros [_ ->]. reflexivity.
Qed.

Lemma find_all_as_filter (names : list string) (cs : list Node) :
  find_all names cs = filter (named names) (find_all_tags cs).
Proof. reflexivity. Qed.

Lemma child_tags_named_as_filter (names : list string) (cs : list Node) :
  child_tags_named names cs = filter (named names) (child_tags cs).
Proof.
  unfold child_tags_named, child_tags.
  induction cs as [| c cs IH]; [reflexivity |].
  simpl. destruct c as [nm a cs0 | s | s | s]; simpl; rewrite IH; reflexivity.
Qed.

(** *** Tables *)

Lemma convert_table_none (cs : list Node) :
  Stages.convert_table cs = None <-> find_all ["tr"] cs = [].
Proof.
  unfold Stages.convert_table.
  destruct (find_all ["tr"] cs) as [| r rows]; [tauto |].
  simpl. split; discriminate.
Qed.

Lemma table_turn_is_pre (n : Node) (l : list Node) :
  Stages.table_turn n = Some l ->
  exists text, l = [pre_placeholder "data-table" text].
Proof.
  destruct n as [nm a cs | s | s | s]; simpl; try discriminate.
  destruct (String.eqb nm "table"); [| discriminate].
  unfold Stages.convert_table.
  destruct (find_all ["tr"] cs) as [| r rows]; [discriminate |].
  simpl. intros H. injection H as <-. eexists. reflexivity.
Qed.

Lemma preserve_tables_as_markdown_twice (f : Soup) :
  Stages.preserve_tables_as_markdown (Stages.preserve_tables_as_markdown f)
  = Stages.preserve_tables_as_markdown f.
Proof.
  apply replace_in_twice.
  - intros n l H. destruct (table_turn_is_pre n l H) as (text & ->).
    constructor; [reflexivity | constructor].
  - intros nm a cs H. simpl in *.
    destruct (String.eqb nm "table"); [| reflexivity].
    destruct (Stages.convert_table cs) eqn:E; [discriminate |].
    apply (proj1 (convert_table_none cs)) in E.
    rewrite (proj2 (convert_table_none (replace_in Stages.table_turn cs)));
      [reflexivity |].
    rewrite find_all_as_filter in *.
    apply filter_tags_after; [apply named_head | | exact E].
    intros n l m Hl Hm. destruct (table_turn_is_pre n l Hl) as (text & ->).
    simpl in Hm. destruct Hm as [<- | []]. reflexivity.
Qed.

(** *** Figures *)

Lemma convert_figure_none (cs : list Node) :
  Stages.convert_figure cs = None <-> find_all ["img"] cs = [].
Proof.
  unfold Stages.convert_figure, find.
  destruct (find_all ["img"] cs) as [| r rows] eqn:E; [simpl; tauto |].
  assert (Hr : named ["img"] r = true).
  { rewrite find_all_as_filter in E.
    assert (Hin : In r (filter (named ["img"]) (find_all_tags cs)))
      by (rewrite E; simpl; auto).
    apply filter_In in Hin. tauto. }
  destruct r as [nm a cs0 | s | s | s]; try discriminate.
  simpl. split; discriminate.
Qed.

Lemma figure_turn_is_pre (n : Node) (l : list Node) :
  Stages.figure_turn n = Some l ->
  exists text, l = [pre_placeholder "data-figure" text].
Proof.
  destruct n as [nm a cs | s | s | s]; simpl; try discriminate.
  destruct (String.eqb nm "figure"); [| discriminate].
  unfold Stages.convert_figure.
  destruct (find "img" cs) as [[nm0 a0 cs0 | s | s | s] |]; try discriminate.
  simpl. intros H. injection H as <-. eexists. reflexivity.
Qed.

Lemma preserve_figures_as_markdown_twice (f : Soup) :
  Stages.preserve_figures_as_markdown (Stages.preserve_figures_as_markdown f)
  = Stages.preserve_figures_as_markdown f.
Proof.
  apply replace_in_twice.
  - intros n l H. destruct (figure_turn_is_pre n l H) as (text & ->).
    constructor; [reflexivity | constructor].
  - intros nm a cs H. simpl in *.
    destruct (String.eqb nm "figure"); [| reflexivity].
    destruct (Stages.convert_figure cs) eqn:E; [discriminate |].
    apply (proj1 (convert_figure_none cs)) in E.
    rewrite (proj2 (convert_figure_none (replace_in Stages.figure_turn cs)));
      [reflexivity |].
    rewrite find_all_as_filter in *.
    apply filter_tags_after; [apply named_head | | exact E].
    intros n l m Hl Hm. destruct (figure_turn_is_pre n l Hl) as (text & ->).
    simpl in Hm. destruct Hm as [<- | []]. reflexivity.
Qed.

(** *** Definition lists *)

Lemma dl_lines_nil (cs : list Node) :
  Stages.dl_lines cs = [] <-> child_tags_named ["dt"; "dd"] cs = [].
Proof.
  unfold Stages.dl_lines, child_tags_named.
  induction cs as [| c cs IH]; [tauto |].
  simpl. destruct c as [nm a cs0 | s | s | s]; simpl; try exact IH.
  destruct (String.eqb nm "dt"); simpl; [split; discriminate |].
  destruct (String.eqb nm "dd"); simpl; [split; discriminate | exact IH].
Qed.

Lemma dl_turn_is_pre (n : Node) (l : list Node) :
  Stages.dl_turn n = Some l ->
  exists text, l = [pre_placeholder "data-dl" text].
Proof.
  destruct n as [nm a cs | s | s | s]; simpl; try discriminate.
  destruct (String.eqb nm "dl"); [| discriminate].
  unfold Stages.convert_dl.
  destruct (Stages.dl_lines cs); [discriminate |].
  simpl. intros H. injection H as <-. eexists. reflexivity.
Qed.

Lemma preserve_deflists_as_markdown_twice (f : Soup) :
  Stages.preserve_deflists_as_markdown (Stages.preserve_deflists_as_markdown f)
  = Stages.preserve_deflists_as_markdown f.
Proof.
  apply replace_in_twice.
  - intros n l H. destruct (dl_turn_is_pre n l H) as (text & ->).
    constructor; [reflexivity | constructor].
  - intros nm a cs H. simpl in *.
    destruct (String.eqb nm "dl"); [| reflexivity].
    unfold Stages.convert_dl in *.
    destruct (Stages.dl_lines cs) eqn:E; [| discriminate].
    apply (proj1 (dl_lines_nil cs)) in E.
    rewrite (proj2 (dl_lines_nil (replace_in Stages.dl_turn cs))); [reflexivity |].
    rewrite child_tags_named_as_filter in *.
    apply filter_children_after; [apply named_head | | exact E].
    intros n l m Hl Hm. destruct (dl_turn_is_pre n l Hl) as (text & ->).
    simpl in Hm. destruct Hm as [<- | []]. reflexivity.
Qed.

(** *** Lists *)

Lemma walk_list_nil (depth : nat) (nm : string) (a : attrs_t) (cs : list Node) :
  Stages.walk_list depth (Tag nm a cs) = [] <-> child_tags_named ["li"] cs = [].
Proof.
  simpl. generalize 1 as idx. unfold child_tags_named.
  induction cs as [| c cs IH]; intros idx; [tauto |].
  simpl. destruct c as [ln la lcs | s | s | s]; simpl; try apply IH.
  destruct (String.eqb ln "li"); simpl; [split; discriminate | apply IH].
Qed.

Lemma list_turn_is_pre (n : Node) (l : list Node) :
  Stages.list_turn n = Some l ->
  exists text, l = [pre_placeholder "data-list" text].
Proof.
  destruct n as [nm a cs | s | s | s]; try discriminate.
  unfold Stages.list_turn.
  destruct (name_in Stages.LISTS nm); [| discriminate].
  destruct (Stages.walk_list 0 (Tag nm a cs)); [discriminate |].
  intros H. injection H as <-. eexists. reflexivity.
Qed.

Lemma preserve_lists_as_markdown_twice (f : Soup) :
  Stages.preserve_lists_as_markdown (Stages.preserve_lists_as_markdown f)
  = Stages.preserve_lists_as_markdown f.
Proof.
  apply replace_in_twice.
  - intros n l H. destruct (list_turn_is_pre n l H) as (text & ->).
    constructor; [reflexivity | constructor].
  - intros nm a cs H.
    remember (replace_in Stages.list_turn cs) as cs' eqn:Hcs'.
    unfold Stages.list_turn in *.
    destruct (name_in Stages.LISTS nm); [| reflexivity].
    destruct (Stages.walk_list 0 (Tag nm a cs)) eqn:E; [| discriminate].
    apply (proj1 (walk_list_nil 0 nm a cs)) in E.
    rewrite (proj2 (walk_list_nil 0 nm a cs')); [reflexivity |].
    subst cs'.
    rewrite child_tags_named_as_filter in *.
    apply filter_children_after; [apply named_head | | exact E].
    intros n l m Hl Hm. destruct (list_turn_is_pre n l Hl) as (text & ->).
    simpl in Hm. destruct Hm as [<- | []]. reflexivity.
Qed.

(** *** CSS tables *)

Lemma convert_css_table_none (cs : list Node) :
  Stages.convert_css_table cs = None <->
  filter (Stages.style_displays "table-row") (find_all_tags cs) = [].
Proof.
  unfold Stages.convert_css_table.
  destruct (filter (Stages.style_displays "table-row") (find_all_tags cs));
    [tauto |].
  simpl. split; discriminate.
Qed.

Lemma css_table_turn_is_pre (n : Node) (l : list Node) :
  Stages.css_table_turn n = Some l ->
  exists text, l = [pre_placeholder "data-csstable" text].
Proof.
  destruct n as [nm a cs | s | s | s]; try discriminate.
  unfold Stages.css_table_turn.
  destruct (Stages.style_displays "table" (Tag nm a cs)); [| discriminate].
  unfold Stages.convert_css_table.
  destruct (filter (Stages.style_displays "table-row") (find_all_tags cs));
    [discriminate |].
  simpl. intros H. injection H as <-. eexists. reflexivity.
Qed.

Lemma preserve_css_tables_as_markdown_twice (f : Soup) :
  Stages.preserve_css_tables_as_markdown (Stages.preserve_css_tables_as_markdown f)
  = Stages.preserve_css_tables_as_markdown f.
Proof.
  apply replace_in_twice.
  - intros n l H. destruct (css_table_turn_is_pre n l H) as (text & ->).
    constructor; [reflexivity | constructor].
  - intros nm a cs H.
    remember (replace_in Stages.css_table_turn cs) as cs' eqn:Hcs'.
    unfold Stages.css_table_turn in *.
    change (Stages.style_displays "table" (Tag nm a cs'))
      with (Stages.style_displays "table" (Tag nm a cs)).
    destruct (Stages.style_displays "table" (Tag nm a cs)); [| reflexivity].
    destruct (Stages.convert_css_table cs) eqn:E; [discriminate |].
    apply (proj1 (convert_css_table_none cs)) in E.
    rewrite (proj2 (convert_css_table_none cs')); [reflexivity |].
    subst cs'.
    apply filter_tags_after; [apply style_displays_head | | exact E].
    intros n l m Hl Hm. destruct (css_table_turn_is_pre n l Hl) as (text & ->).
    simpl in Hm. destruct Hm as [<- | []]. reflexivity.
Qed.

(** *** The stages whose second run changes nothing *)

Lemma guarded_twice (body : Soup -> Soup) (st st1 : HtmlReducer.t) :
  (forall f, body (body f) = body f) ->
  HtmlReducer.guarded body st = HtmlReducer.Ok st1 ->
  HtmlReducer.guarded body st1 = HtmlReducer.Ok st1.
Proof.
  intros Hb. unfold HtmlReducer.guarded.
  destruct (HtmlReducer.dom_tree st) as [f |]; [| discriminate].
  intros H. injection H as <-. simpl. rewrite Hb. reflexivity.
Qed.

(** C6, as amended: for the parse stage, the removal of structural clutter,
    attribute simplification, single-child collapsing and the five
    conversions to text, a second run right after the first leaves the
    instance as the first left it. *)
Theorem C6_second_run_changes_nothing
    (parse : string -> Soup) (name : string)
    (m : HtmlReducer.t -> HtmlReducer.outcome) (st st1 : HtmlReducer.t) :
  In (name, m) (HtmlReducer.second_run_idle parse) ->
  m st = HtmlReducer.Ok st1 ->
  m st1 = HtmlReducer.Ok st1.
Proof.
  intros Hin. simpl in Hin.
  destruct Hin as [Heq | Hin].
  { injection Heq as <- <-. unfold HtmlReducer.parse_the_full_dom_into_a_dom_tree.
    intros H. injection H as <-. reflexivity. }
  repeat (destruct Hin as [Heq | Hin];
    [ injection Heq as <- <-; apply guarded_twice;
      first [ exact strip_out_non_structural_nodes_twice
            | exact simplify_attributes_twice
            | exact collapse_twice
            | exact preserve_tables_as_markdown_twice
            | exact preserve_deflists_as_markdown_twice
            | exact preserve_lists_as_markdown_twice
            | exact preserve_figures_as_markdown_twice
            | exact preserve_css_tables_as_markdown_twice ]
    | ]).
  contradiction.
Qed.

Lemma C6_second_run_changes_nothing_witness :
  In ("simplify_attributes", HtmlReducer.simplify_attributes)
     (HtmlReducer.second_run_idle Samples.parse) /\
  HtmlReducer.simplify_attributes (HtmlReducer.mk "" (Some [Samples.classy]))
  = HtmlReducer.Ok
      (HtmlReducer.mk ""
         (Some [Tag "p" [("class", AList ["a"; "b"; "c"; "d"; "e"; "f"; "…"])] []])) /\
  HtmlReducer.simplify_attributes
    (HtmlReducer.mk ""
       (Some [Tag "p" [("class", AList ["a"; "b"; "c"; "d"; "e"; "f"; "…"])] []]))
  = HtmlReducer.Ok
      (HtmlReducer.mk ""
         (Some [Tag "p" [("class", AList ["a"; "b"; "c"; "d"; "e"; "f"; "…"])] []])).
Proof.
  assert (Hin : In ("simplify_attributes", HtmlReducer.simplify_attributes)
                   (HtmlReducer.second_run_idle Samples.parse)).
  { simpl. auto. }
  split; [exact Hin |].
  split; [reflexivity |].
  exact (C6_second_run_changes_nothing Samples.parse "simplify_attributes"
           HtmlReducer.simplify_attributes
           (HtmlReducer.mk "" (Some [Samples.classy])) _ Hin eq_refl).
Defined.

(** C6 fails for the removal of non-visual nodes: the first run takes the
    hidden leaf out of a hidden [div] and keeps the [div], the second run
    finds the [div] a hidden leaf and removes it.  It fails for the pruning
    of duplicates as well: the first run empties a [nav] of the list that
    repeats its text, the second finds the empty list after it a duplicate of
    the emptied [nav]. *)
Lemma C6_counterexample :
  (Stages.strip_out_non_visual_nodes [Samples.hidden_div]
   = [Tag "div" [("hidden", AStr "")] []] /\
   Stages.strip_out_non_visual_nodes
     (Stages.strip_out_non_visual_nodes [Samples.hidden_div]) = []) /\
  (Stages.prune_repetitive_and_boilerplate_navigation_items Samples.md5
     [Tag "nav" [] [Tag "ul" [] [NavigableString "a"]]; Tag "ul" [] []]
   = [Tag "nav" [] []; Tag "ul" [] []] /\
   Stages.prune_repetitive_and_boilerplate_navigation_items Samples.md5
     (Stages.prune_repetitive_and_boilerplate_navigation_items Samples.md5
        [Tag "nav" [] [Tag "ul" [] [NavigableString "a"]]; Tag "ul" [] []])
   = [Tag "nav" [] []]).
Proof. repeat split; reflexivity. Qed.

(** With a parser that gives the placeholder markup its usual tree, the
    media stage wraps the placeholder again on every run. *)
Example media_stage_twice :
  Stages.reduce_large_inline_SVGs_or_images_to_lightweight_placeholders
    Samples.parse_stub
    [Tag "svg" [("width", AStr "800"); ("height", AStr "600")]
       [Tag "circle" [] []]]
  = ([Tag "html" [] [Tag "body" [] [Samples.svg_stub]]], false) /\
  Stages.reduce_large_inline_SVGs_or_images_to_lightweight_placeholders
    Samples.parse_stub [Tag "html" [] [Tag "body" [] [Samples.svg_stub]]]
  = ([Tag "html" [] [Tag "body" []
        [Tag "html" [] [Tag "body" [] [Samples.svg_stub]]]]], false).
Proof. split; reflexivity. Qed.

(** ** The conversions and the default pipeline on examples *)

(** A stage made of the guard and a change of the tree returns on every
    parsed instance. *)
Lemma guarded_returns (body : Soup -> Soup) (st : HtmlReducer.t) (f : Soup) :
  HtmlReducer.dom_tree st = Some f ->
  HtmlReducer.guarded body st
  = HtmlReducer.Ok (HtmlReducer.mk (HtmlReducer.raw_html st) (Some (body f))).
Proof. intros H. unfold HtmlReducer.guarded. rewrite H. reflexivity. Qed.

Example deflist_of_docstring :
  Stages.preserve_deflists_as_markdown
    [Tag "dl" []
       [Tag "dt" [] [NavigableString "Foo"]; Tag "dd" [] [NavigableString "Bar"];
        Tag "dt" [] [NavigableString "Baz"]; Tag "dd" [] [NavigableString "Qux"]]]
  = [pre_placeholder "data-dl"
       (PyStr.join Stages.NL ["Foo  "; ":  Bar  "; "Baz  "; ":  Qux"])].
Proof. reflexivity. Qed.

Example figure_of_docstring :
  Stages.preserve_figures_as_markdown
    [Tag "figure" []
       [Tag "img" [("src", AStr "foo.png"); ("alt", AStr "Foo")] [];
        Tag "figcaption" [] [NavigableString "Caption text"]]]
  = [pre_placeholder "data-figure" "![Caption text](foo.png)"].
Proof. reflexivity. Qed.

Example nested_list :
  Stages.preserve_lists_as_markdown
    [Tag "ol" []
       [Tag "li" [] [NavigableString "a";
                     Tag "ul" [] [Tag "li" [] [NavigableString " b  c "]]];
        Tag "li" [] [NavigableString "d"]]]
  = [pre_placeholder "data-list"
       (PyStr.join Stages.NL ["1. a"; "  - b c"; "2. d"])].
Proof. reflexivity. Qed.

Example css_table :
  Stages.preserve_css_tables_as_markdown
    [Tag "div" [("style", AStr "display: table")]
       [Tag "div" [("style", AStr "display:table-row")]
          [Tag "span" [("style", AStr "DISPLAY:table-cell")] [NavigableString "x"];
           Tag "span" [("style", AStr "display:table-cell")] [NavigableString "y"]]]]
  = [pre_placeholder "data-csstable"
       (PyStr.join Stages.NL ["| x | y |"; "| --- | --- |"])].
Proof. reflexivity. Qed.

Example collapse_of_wrappers :
  Stages.collapse_deeply_nested_container_with_one_child
    [Tag "div" [] [NavigableString "t";
                   Tag "div" [] [Tag "p" [] []; Tag "p" [("id", AStr "x")] []]]]
  = [NavigableString "t"; Tag "div" [] [Tag "p" [] []; Tag "p" [("id", AStr "x")] []]].
Proof. reflexivity. Qed.

Example default_pipeline_on_sample :
  HtmlReducer.reduce Samples.parse Samples.md5 None (HtmlReducer.init Samples.html)
  = HtmlReducer.Ok
      (HtmlReducer.mk Samples.html
         (Some [Tag "html" [] [Tag "body" [] [Tag "nav" [] []]]])).
Proof. vm_compute. reflexivity. Qed.

(** * Further properties of the stages *)

(** ** Structural clutter *)

Lemma all_nodes_cons (c : Node) (f : Soup) :
  Doc.all_nodes (c :: f) = Doc.nodes_of c ++ Doc.all_nodes f.
Proof. reflexivity. Qed.

Lemma all_nodes_app (l1 l2 : Soup) :
  Doc.all_nodes (l1 ++ l2) = Doc.all_nodes l1 ++ Doc.all_nodes l2.
Proof. unfold Doc.all_nodes. apply flat_map_app. Qed.

Section RemovalOfNodes.

Variable d : Node -> bool.

(** Every node left in the tree, of any kind, comes from a node that was
    not dropped. *)
Lemma nodes_of_remove_origin (n x : Node) :
  In x (Doc.nodes_of (remove_nodes d n)) ->
  x = remove_nodes d n \/
  exists m, In m (Doc.nodes_of n) /\ d m = false /\ x = remove_nodes d m.
Proof.
  revert x. induction n as [nm a cs IH | s | s | s] using Node_ind'; intros x Hin;
    try (simpl in Hin; destruct Hin as [<- | []]; left; reflexivity).
  change (remove_nodes d (Tag nm a cs)) with (Tag nm a (remove_in d cs)) in *.
  simpl in Hin. destruct Hin as [<- | Hin]; [left; reflexivity |].
  right.
  change (flat_map Doc.nodes_of (remove_in d cs))
    with (Doc.all_nodes (remove_in d cs)) in Hin.
  assert (H : exists m, In m (Doc.all_nodes cs) /\ d m = false /\ x = remove_nodes d m).
  { induction IH as [| c cs0 Hc _ IHcs]; [simpl in Hin; contradiction |].
    rewrite remove_in_cons, all_nodes_app in Hin. rewrite all_nodes_cons.
    apply in_app_or in Hin. destruct Hin as [Hin | Hin].
    - destruct (d c) eqn:Hd; [simpl in Hin; contradiction |].
      unfold Doc.all_nodes in Hin. simpl flat_map in Hin. rewrite app_nil_r in Hin.
      destruct (Hc x Hin) as [-> | (m & Hm & Hf & Heq)].
      + exists c. split; [| auto]. apply in_or_app. left.
        destruct c; simpl; auto.
      + exists m. split; [apply in_or_app; auto | auto].
    - destruct (IHcs Hin) as (m & Hm & Hf & Heq).
      exists m. split; [apply in_or_app; auto | auto]. }
  destruct H as (m & Hm & Hf & Heq).
  exists m. split; [simpl; right; exact Hm | auto].
Qed.

Lemma all_nodes_remove_origin (f : Soup) (x : Node) :
  In x (Doc.all_nodes (remove_in d f)) ->
  exists m, In m (Doc.all_nodes f) /\ d m = false /\ x = remove_nodes d m.
Proof.
  induction f as [| c f IH]; intros Hin; [simpl in Hin; contradiction |].
  rewrite remove_in_cons, all_nodes_app in Hin. rewrite all_nodes_cons.
  apply in_app_or in Hin. destruct Hin as [Hin | Hin].
  - destruct (d c) eqn:Hd; [simpl in Hin; contradiction |].
    unfold Doc.all_nodes in Hin. simpl flat_map in Hin. rewrite app_nil_r in Hin.
    destruct (nodes_of_remove_origin c x Hin) as [-> | (m & Hm & Hf & Heq)].
    + exists c. split; [| auto]. apply in_or_app. left. destruct c; simpl; auto.
    + exists m. split; [apply in_or_app; auto | auto].
  - destruct (IH Hin) as (m & Hm & Hf & Heq).
    exists m. split; [apply in_or_app; auto | auto].
Qed.

(** A removal that finds nothing to drop leaves the tree as it is. *)
Lemma remove_nodes_nothing (n : Node) :
  (forall x, In x (Doc.nodes_of n) -> d x = false) -> remove_nodes d n = n.
Proof.
  induction n as [nm a cs IH | s | s | s] using Node_ind'; intros H; try reflexivity.
  change (Tag nm a (remove_in d cs) = Tag nm a cs). f_equal.
  assert (Hcs : forall x, In x (Doc.all_nodes cs) -> d x = false).
  { intros x Hx. apply H. simpl. right. exact Hx. }
  clear H. induction IH as [| c cs0 Hc _ IHcs]; [reflexivity |].
  rewrite remove_in_cons.
  rewrite all_nodes_cons in Hcs.
  rewrite (Hcs c) by (apply in_or_app; left; destruct c; simpl; auto).
  rewrite Hc by (intros x Hx; apply Hcs; apply in_or_app; auto).
  rewrite IHcs by (intros x Hx; apply Hcs; apply in_or_app; auto).
  reflexivity.
Qed.

Lemma remove_in_nothing (f : Soup) :
  (forall x, In x (Doc.all_nodes f) -> d x = false) -> remove_in d f = f.
Proof.
  induction f as [| c f IH]; intros H; [reflexivity |].
  rewrite remove_in_cons. rewrite all_nodes_cons in H.
  rewrite (H c) by (apply in_or_app; left; destruct c; simpl; auto).
  rewrite remove_nodes_nothing by (intros x Hx; apply H; apply in_or_app; auto).
  rewrite IH by (intros x Hx; apply H; apply in_or_app; auto).
  reflexivity.
Qed.

End RemovalOfNodes.

(** X1: after [strip_out_non_structural_nodes] the tree holds no comment and no
    [script], [noscript], [style], [iframe], [meta] or [link] tag, at any
    depth. *)
Theorem non_structural_nodes_are_gone (f : Soup) (x : Node) :
  In x (Doc.all_nodes (Stages.strip_out_non_structural_nodes f)) ->
  Stages.is_comment x = false /\ Stages.is_non_structural x = false.
Proof.
  unfold Stages.strip_out_non_structural_nodes. intros Hin.
  apply all_nodes_remove_origin in Hin. destruct Hin as (m & Hm & Hd & ->).
  apply all_nodes_remove_origin in Hm. destruct Hm as (m0 & _ & Hd0 & ->).
  split.
  - rewrite !by_name_remove by apply is_comment_by_name. exact Hd0.
  - rewrite by_name_remove by apply is_non_structural_by_name. exact Hd.
Qed.

Lemma non_structural_nodes_are_gone_witness :
  In (Tag "p" [] [])
     (Doc.all_nodes (Stages.strip_out_non_structural_nodes
        [Tag "p" [] [Comment "c"; Tag "script" [] [NavigableString "x()"]]])) /\
  Stages.is_comment (Tag "p" [] []) = false /\
  Stages.is_non_structural (Tag "p" [] []) = false.
Proof.
  assert (Hin : In (Tag "p" [] [])
     (Doc.all_nodes (Stages.strip_out_non_structural_nodes
        [Tag "p" [] [Comment "c"; Tag "script" [] [NavigableString "x()"]]]))).
  { simpl. auto. }
  split; [exact Hin |].
  exact (non_structural_nodes_are_gone _ _ Hin).
Defined.

(** X2: a document without comments and without those tags goes through
    [strip_out_non_structural_nodes] unchanged: nothing else is ever
    removed. *)
Theorem non_structural_only_clutter_is_removed (f : Soup) :
  (forall x, In x (Doc.all_nodes f) ->
             Stages.is_comment x = false /\ Stages.is_non_structural x = false) ->
  Stages.strip_out_non_structural_nodes f = f.
Proof.
  intros H. unfold Stages.strip_out_non_structural_nodes.
  rewrite (remove_in_nothing Stages.is_comment f) by (intros x Hx; apply H; exact Hx).
  apply remove_in_nothing. intros x Hx. apply H. exact Hx.
Qed.

Lemma non_structural_only_clutter_is_removed_witness :
  Stages.strip_out_non_structural_nodes Samples.tree = Samples.tree.
Proof.
  apply non_structural_only_clutter_is_removed.
  intros x Hx. simpl in Hx.
  repeat (destruct Hx as [<- | Hx]; [split; reflexivity |]).
  contradiction.
Defined.

(** ** Non-visual nodes: what is kept *)

Lemma remove_in_keeps (d : Node -> bool) (cs : list Node) (x : Node) :
  In x cs -> d x = false -> In (remove_nodes d x) (remove_in d cs).
Proof.
  intros Hin Hd. unfold remove_in. apply in_flat_map.
  exists x. split; [exact Hin |]. rewrite Hd. simpl. auto.
Qed.

(** X3: an element without a hidden marker that is not a [span], [b], [i] or
    [u], or that holds a string of its own, is still in the tree after
    [strip_out_non_visual_nodes], under its name and with its attributes. *)
Theorem visible_elements_survive
    (f : Soup) (nm : string) (a : attrs_t) (cs : list Node) :
  In (Tag nm a cs) (find_all_tags f) ->
  Stages.hidden_attr a = false ->
  name_in Stages.INLINE_EMPTY nm = false \/ (exists s, In (NavigableString s) cs) ->
  exists cs', In (Tag nm a cs') (find_all_tags (Stages.strip_out_non_visual_nodes f)).
Proof.
  intros Hin Hh Hor.
  assert (Hd : Stages.hidden_leaf (Tag nm a cs) = false) by (simpl; rewrite Hh; reflexivity).
  pose proof (remove_in_survives Stages.hidden_leaf hidden_leaf_leafy f _ Hin Hd) as H1.
  change (remove_nodes Stages.hidden_leaf (Tag nm a cs))
    with (Tag nm a (remove_in Stages.hidden_leaf cs)) in H1.
  assert (He : Stages.empty_inline (Tag nm a (remove_in Stages.hidden_leaf cs)) = false).
  { destruct Hor as [Hn | (s & Hs)].
    - unfold Stages.empty_inline.
      destruct (remove_in Stages.hidden_leaf cs); [exact Hn | reflexivity].
    - pose proof (remove_in_keeps Stages.hidden_leaf cs (NavigableString s) Hs eq_refl) as Hk.
      unfold Stages.empty_inline.
      destruct (remove_in Stages.hidden_leaf cs); [contradiction | reflexivity]. }
  pose proof (remove_in_survives Stages.empty_inline empty_inline_leafy _ _ H1 He) as H2.
  eexists. exact H2.
Qed.

Lemma visible_elements_survive_witness :
  exists cs',
    In (Tag "span" [("id", AStr "t")] cs')
       (find_all_tags (Stages.strip_out_non_visual_nodes
          [Tag "span" [("id", AStr "t")]
             [NavigableString "x"; Tag "b" [("hidden", AStr "")] []]])).
Proof.
  apply (visible_elements_survive
           [Tag "span" [("id", AStr "t")]
              [NavigableString "x"; Tag "b" [("hidden", AStr "")] []]]
           "span" [("id", AStr "t")]
           [NavigableString "x"; Tag "b" [("hidden", AStr "")] []]).
  - simpl. auto.
  - reflexivity.
  - right. exists "x". simpl. auto.
Defined.

(** ** Attribute simplification: what is kept *)

Lemma strings_simplify (n : Node) :
  strings (Stages.simplify_node n) = strings n.
Proof.
  induction n as [nm a cs IH | s | s | s] using Node_ind'; try reflexivity.
  simpl. induction IH as [| c cs0 Hc _ IHcs]; [reflexivity |].
  simpl. rewrite Hc, IHcs. reflexivity.
Qed.

(** X4: [simplify_attributes] touches attributes only: the strings of the
    document, in order, and the names of its tags, in order, stay as they
    are. *)
Theorem simplify_attributes_keeps_text_and_names (f : Soup) :
  flat_map strings (Stages.simplify_attributes f) = flat_map strings f /\
  map node_name (find_all_tags (Stages.simplify_attributes f))
  = map node_name (find_all_tags f).
Proof.
  split.
  - unfold Stages.simplify_attributes.
    induction f as [| c f IH]; [reflexivity |].
    simpl. rewrite strings_simplify, IH. reflexivity.
  - rewrite find_all_tags_simplify, map_map. apply map_ext.
    intros [nm a cs | s | s | s]; reflexivity.
Qed.

Lemma get_trim_class_other (k : string) (a : attrs_t) :
  k <> "class" -> get k (Stages.trim_class a) = get k a.
Proof.
  intros Hk. unfold Stages.trim_class.
  destruct (get "class" a) as [[s | toks] |]; try reflexivity.
  destruct (6 <? List.length toks); [| reflexivity].
  rewrite get_set. destruct (String.eqb_spec k "class"); [contradiction | reflexivity].
Qed.

(** X5: the value of an allowed attribute other than [class] is never changed by
    [simplify_attributes], and a class list of at most six tokens is kept as
    it is; this for the [i]-th element in document order. *)
Theorem simplify_attributes_keeps_allowed_values
    (f : Soup) (i : nat) (nm : string) (a : attrs_t) (cs : list Node) :
  nth_error (find_all_tags f) i = Some (Tag nm a cs) ->
  exists a' cs',
    nth_error (find_all_tags (Stages.simplify_attributes f)) i = Some (Tag nm a' cs') /\
    (forall k, In k ["id"; "href"; "src"; "alt"; "title"; "role"] -> get k a' = get k a) /\
    (forall toks, get "class" a = Some (AList toks) -> List.length toks <= 6 ->
                  get "class" a' = Some (AList toks)).
Proof.
  intros Hi. exists (Stages.simplify_attrs a), (map Stages.simplify_node cs).
  split; [| split].
  - rewrite find_all_tags_simplify, nth_error_map, Hi. reflexivity.
  - intros k Hk. unfold Stages.simplify_attrs.
    assert (Hne : k <> "class").
    { simpl in Hk. intuition (subst; discriminate). }
    rewrite get_trim_class_other by exact Hne.
    apply get_filter_keep.
    simpl in Hk. intuition (subst; reflexivity).
  - intros toks Hc Hlen. unfold Stages.simplify_attrs, Stages.trim_class.
    rewrite (get_filter_keep (name_in Stages._ALLOWED_ATTRS) "class" a eq_refl), Hc.
    destruct (Nat.ltb_spec 6 (List.length toks)) as [Hlt | _]; [lia |].
    rewrite (get_filter_keep (name_in Stages._ALLOWED_ATTRS) "class" a eq_refl).
    exact Hc.
Qed.

Lemma simplify_attributes_keeps_allowed_values_witness :
  exists a' cs',
    nth_error (find_all_tags (Stages.simplify_attributes
                 [Tag "a" [("href", AStr "/x"); ("data-k", AStr "1");
                           ("class", AList ["btn"])] []])) 0
    = Some (Tag "a" a' cs') /\
    (forall k, In k ["id"; "href"; "src"; "alt"; "title"; "role"] ->
               get k a' = get k [("href", AStr "/x"); ("data-k", AStr "1");
                                 ("class", AList ["btn"])]) /\
    (forall toks,
        get "class" [("href", AStr "/x"); ("data-k", AStr "1"); ("class", AList ["btn"])]
        = Some (AList toks) ->
        List.length toks <= 6 -> get "class" a' = Some (AList toks)).
Proof.
  apply (simplify_attributes_keeps_allowed_values
           [Tag "a" [("href", AStr "/x"); ("data-k", AStr "1");
                     ("class", AList ["btn"])] []] 0 "a" _ []).
  reflexivity.
Defined.

(** ** Collapsing: what is kept *)

Lemma non_tags_collapse_node (n : Node) :
  filter not_tag (Doc.all_nodes (Stages.collapse_node n))
  = filter not_tag (Doc.nodes_of n).
Proof.
  induction n as [nm a cs IH | s | s | s] using Node_ind'; try reflexivity.
  assert (Hcs : filter not_tag (Doc.all_nodes (flat_map Stages.collapse_node cs))
                = filter not_tag (Doc.all_nodes cs)).
  { induction IH as [| c cs0 Hc _ IHcs]; [reflexivity |].
    simpl flat_map. rewrite all_nodes_app, all_nodes_cons, !filter_app, Hc, IHcs.
    reflexivity. }
  simpl Stages.collapse_node. simpl Doc.nodes_of.
  change (flat_map Doc.nodes_of cs) with (Doc.all_nodes cs).
  destruct (Stages.collapsible nm a cs).
  - simpl. exact Hcs.
  - unfold Doc.all_nodes at 1. simpl. rewrite app_nil_r.
    change (flat_map Doc.nodes_of (flat_map Stages.collapse_node cs))
      with (Doc.all_nodes (flat_map Stages.collapse_node cs)).
    exact Hcs.
Qed.

(** X6: unwrapping loses no text: every string and every comment of the
    document is in the tree after
    [collapse_deeply_nested_container_with_one_child], in the same order, the
    strings beside the single element child of an unwrapped tag included. *)
Theorem collapse_keeps_strings_and_comments (f : Soup) :
  filter not_tag
    (Doc.all_nodes (Stages.collapse_deeply_nested_container_with_one_child f))
  = filter not_tag (Doc.all_nodes f).
Proof.
  unfold Stages.collapse_deeply_nested_container_with_one_child.
  induction f as [| c f IH]; [reflexivity |].
  simpl flat_map. rewrite all_nodes_app, all_nodes_cons, !filter_app.
  rewrite non_tags_collapse_node, IH. reflexivity.
Qed.

Lemma heads_collapse_node (n : Node) :
  map Doc.head (find_all_tags (Stages.collapse_node n))
  = map Doc.head (filter kept_by_collapse (tags_of n)).
Proof.
  induction n as [nm a cs IH | s | s | s] using Node_ind'; try reflexivity.
  assert (Hcs : map Doc.head (find_all_tags (flat_map Stages.collapse_node cs))
                = map Doc.head (filter kept_by_collapse (find_all_tags cs))).
  { induction IH as [| c cs0 Hc _ IHcs]; [reflexivity |].
    simpl flat_map. rewrite find_all_tags_app, find_all_tags_cons.
    rewrite filter_app, !map_app, Hc, IHcs. reflexivity. }
  simpl Stages.collapse_node. simpl tags_of.
  change (flat_map tags_of cs) with (find_all_tags cs).
  simpl filter. unfold kept_by_collapse at 1. simpl Doc.collapsible_tag.
  destruct (Stages.collapsible nm a cs); simpl negb; cbv iota.
  - exact Hcs.
  - unfold find_all_tags at 1. simpl. rewrite app_nil_r.
    change (flat_map tags_of (flat_map Stages.collapse_node cs))
      with (find_all_tags (flat_map Stages.collapse_node cs)).
    rewrite Hcs. reflexivity.
Qed.

Lemma collapse_node_leaves_no_wrapper (n m : Node) :
  In m (find_all_tags (Stages.collapse_node n)) -> Doc.collapsible_tag m = false.
Proof.
  revert m. induction n as [nm a cs IH | s | s | s] using Node_ind'; intros m Hin;
    try (simpl in Hin; contradiction).
  assert (Hcs : forall m, In m (find_all_tags (flat_map Stages.collapse_node cs)) ->
                          Doc.collapsible_tag m = false).
  { clear Hin m. intros m Hin.
    induction IH as [| c cs0 Hc _ IHcs]; [simpl in Hin; contradiction |].
    simpl flat_map in Hin. rewrite find_all_tags_app in Hin.
    apply in_app_or in Hin. destruct Hin as [Hin | Hin]; [exact (Hc m Hin) | exact (IHcs Hin)]. }
  simpl Stages.collapse_node in Hin.
  destruct (Stages.collapsible nm a cs) eqn:E; [exact (Hcs m Hin) |].
  unfold find_all_tags in Hin. simpl in Hin. rewrite app_nil_r in Hin.
  destruct Hin as [<- | Hin]; [| exact (Hcs m Hin)].
  simpl. rewrite collapsible_after. exact E.
Qed.

(** X7: the tags in the tree after the collapse are, by name and attributes and
    in document order, exactly the tags that were not single-child wrappers
    (no attribute, one element child, a [div], [section], [article] or
    [span]); and none of those left is such a wrapper. *)
Theorem collapse_removes_exactly_the_wrappers (f : Soup) :
  map Doc.head
    (find_all_tags (Stages.collapse_deeply_nested_container_with_one_child f))
  = map Doc.head (filter kept_by_collapse (find_all_tags f)) /\
  (forall m,
      In m (find_all_tags (Stages.collapse_deeply_nested_container_with_one_child f)) ->
      Doc.collapsible_tag m = false).
Proof.
  unfold Stages.collapse_deeply_nested_container_with_one_child. split.
  - induction f as [| c f IH]; [reflexivity |].
    simpl flat_map. rewrite find_all_tags_app, find_all_tags_cons.
    rewrite filter_app, !map_app, heads_collapse_node, IH. reflexivity.
  - intros m Hin. induction f as [| c f IH]; [simpl in Hin; contradiction |].
    simpl flat_map in Hin. rewrite find_all_tags_app in Hin.
    apply in_app_or in Hin.
    destruct Hin as [Hin | Hin]; [exact (collapse_node_leaves_no_wrapper c m Hin) | exact (IH Hin)].
Qed.

(** ** Pruning: what is kept *)

Section PruneFacts.

Variable md5 : string -> string.

(** The loop on a tag, with the loop over its contents written as
    [prune_nodes]. *)
Lemma prune_node_tag (seen : list string) (nm : string) (a : attrs_t) (cs : list Node) :
  Stages.prune_node md5 seen (Tag nm a cs)
  = if name_in Stages.NAV_LIKE nm then
      if Stages.seen_mem (Stages.fingerprint md5 cs) seen
      then (fold_left (fun s _ => Stages.visit_decomposed md5 s)
                      (find_all Stages.NAV_LIKE cs) seen, [])
      else let (s', cs') :=
             Stages.prune_nodes md5 (Stages.fingerprint md5 cs :: seen) cs in
           (s', [Tag nm a cs'])
    else let (s', cs') := Stages.prune_nodes md5 seen cs in (s', [Tag nm a cs']).
Proof.
  assert (Hgo : forall l s,
    (fix go (s : list string) (l : list Node) {struct l} : list string * list Node :=
       match l with
       | [] => (s, [])
       | c :: r =>
           let (s1, c') := Stages.prune_node md5 s c in
           let (s2, r') := go s1 r in
           (s2, c' ++ r')
       end) s l = Stages.prune_nodes md5 s l).
  { induction l as [| c l IHl]; intros s0; [reflexivity |].
    simpl. destruct (Stages.prune_node md5 s0 c) as [s1 c'].
    rewrite IHl. reflexivity. }
  simpl. rewrite !Hgo. reflexivity.
Qed.

Lemma prune_nodes_cons (seen : list string) (c : Node) (r : list Node) :
  Stages.prune_nodes md5 seen (c :: r)
  = let (s1, c') := Stages.prune_node md5 seen c in
    let (s2, r') := Stages.prune_nodes md5 s1 r in
    (s2, c' ++ r').
Proof. reflexivity. Qed.

Lemma remove_in_single_tag (d : Node -> bool) (nm : string) (a : attrs_t) (cs : list Node) :
  remove_in d [Tag nm a cs]
  = if d (Tag nm a cs) then [] else [Tag nm a (remove_in d cs)].
Proof.
  unfold remove_in at 1. simpl flat_map.
  destruct (d (Tag nm a cs)); reflexivity.
Qed.

(** With the navigation-like containers taken out, the document is the same
    before and after the pruning. *)
Lemma prune_node_outside (n : Node) :
  forall seen,
    remove_in (named Stages.NAV_LIKE) (snd (Stages.prune_node md5 seen n))
    = remove_in (named Stages.NAV_LIKE) [n].
Proof.
  induction n as [nm a cs IH | s | s | s] using Node_ind'; intros seen; try reflexivity.
  assert (Hcs : forall seen,
    remove_in (named Stages.NAV_LIKE) (snd (Stages.prune_nodes md5 seen cs))
    = remove_in (named Stages.NAV_LIKE) cs).
  { induction IH as [| c cs0 Hc _ IHcs]; intros seen0; [reflexivity |].
    rewrite prune_nodes_cons.
    specialize (Hc seen0).
    destruct (Stages.prune_node md5 seen0 c) as [s1 c'].
    specialize (IHcs s1).
    destruct (Stages.prune_nodes md5 s1 cs0) as [s2 r'].
    simpl snd in *. rewrite remove_in_app, Hc, IHcs.
    change (c :: cs0) with ([c] ++ cs0). rewrite remove_in_app. reflexivity. }
  rewrite prune_node_tag, (remove_in_single_tag _ nm a cs).
  change (named Stages.NAV_LIKE (Tag nm a cs)) with (name_in Stages.NAV_LIKE nm).
  destruct (name_in Stages.NAV_LIKE nm) eqn:En.
  - destruct (Stages.seen_mem (Stages.fingerprint md5 cs) seen); [reflexivity |].
    destruct (Stages.prune_nodes md5 (Stages.fingerprint md5 cs :: seen) cs) as [s' cs'].
    simpl snd. rewrite remove_in_single_tag.
    change (named Stages.NAV_LIKE (Tag nm a cs')) with (name_in Stages.NAV_LIKE nm).
    rewrite En. reflexivity.
  - specialize (Hcs seen).
    destruct (Stages.prune_nodes md5 seen cs) as [s' cs'].
    simpl snd in *. rewrite remove_in_single_tag.
    change (named Stages.NAV_LIKE (Tag nm a cs')) with (name_in Stages.NAV_LIKE nm).
    rewrite En, Hcs. reflexivity.
Qed.

(** X8: the pruning changes nothing outside [nav], [ul] and [ol]: with those
    containers taken out, the document after the stage is the document
    before it, whatever the digest. *)
Theorem prune_leaves_the_rest (f : Soup) :
  remove_in (named Stages.NAV_LIKE)
    (Stages.prune_repetitive_and_boilerplate_navigation_items md5 f)
  = remove_in (named Stages.NAV_LIKE) f.
Proof.
  unfold Stages.prune_repetitive_and_boilerplate_navigation_items.
  generalize (@nil string) as seen.
  induction f as [| c f IH]; intros seen; [reflexivity |].
  rewrite prune_nodes_cons.
  pose proof (prune_node_outside c seen) as Hc.
  destruct (Stages.prune_node md5 seen c) as [s1 c'].
  specialize (IH s1).
  destruct (Stages.prune_nodes md5 s1 f) as [s2 r'].
  simpl snd in *. rewrite remove_in_app, Hc, IH.
  change (c :: f) with ([c] ++ f). rewrite remove_in_app. reflexivity.
Qed.

Lemma seen_mem_false (h : string) (seen : list string) :
  ~ In h seen -> Stages.seen_mem h seen = false.
Proof.
  intros H. unfold Stages.seen_mem.
  destruct (existsb (String.eqb h) seen) eqn:E; [| reflexivity].
  apply existsb_exists in E. destruct E as (x & Hx & Heq).
  apply String.eqb_eq in Heq. subst x. contradiction.
Qed.

Lemma fingerprints_cons (c : Node) (r : list Node) :
  Doc.fingerprints md5 (c :: r) = Doc.fingerprints md5 [c] ++ Doc.fingerprints md5 r.
Proof.
  unfold Doc.fingerprints, find_all. rewrite find_all_tags_cons, filter_app, map_app.
  unfold find_all_tags at 2. simpl flat_map. rewrite app_nil_r. reflexivity.
Qed.

Lemma fingerprints_tag (nm : string) (a : attrs_t) (cs : list Node) :
  Doc.fingerprints md5 [Tag nm a cs]
  = (if name_in Stages.NAV_LIKE nm then [Stages.fingerprint md5 cs] else [])
    ++ Doc.fingerprints md5 cs.
Proof.
  unfold Doc.fingerprints, find_all, find_all_tags. simpl flat_map.
  rewrite app_nil_r. cbn [filter named tags_of].
  destruct (name_in Stages.NAV_LIKE nm); reflexivity.
Qed.

(** Without two equal fingerprints, every container is recorded and kept. *)
Lemma prune_node_distinct (n : Node) :
  forall seen,
    NoDup (Doc.fingerprints md5 [n]) ->
    (forall h, In h (Doc.fingerprints md5 [n]) -> ~ In h seen) ->
    Stages.prune_node md5 seen n = (rev (Doc.fingerprints md5 [n]) ++ seen, [n]).
Proof.
  induction n as [nm a cs IH | s | s | s] using Node_ind'; intros seen Hnd Hdis;
    try reflexivity.
  assert (Hcs : forall seen,
    NoDup (Doc.fingerprints md5 cs) ->
    (forall h, In h (Doc.fingerprints md5 cs) -> ~ In h seen) ->
    Stages.prune_nodes md5 seen cs = (rev (Doc.fingerprints md5 cs) ++ seen, cs)).
  { clear Hnd Hdis seen.
    induction IH as [| c cs0 Hc _ IHcs]; intros seen Hnd Hdis; [reflexivity |].
    rewrite (fingerprints_cons c cs0) in Hnd, Hdis.
    rewrite prune_nodes_cons.
    rewrite (Hc seen).
    - rewrite IHcs.
      + rewrite (fingerprints_cons c cs0), rev_app_distr, <- app_assoc. reflexivity.
      + apply NoDup_app_remove_l in Hnd. exact Hnd.
      + intros h Hh Hin. apply in_app_or in Hin. destruct Hin as [Hin | Hin].
        * apply in_rev in Hin.
          revert Hnd Hin Hh. clear. intros Hnd Hin Hh.
          induction (Doc.fingerprints md5 [c]) as [| x l IHl]; [contradiction |].
          simpl in Hnd. inversion Hnd as [| ? ? Hx Hl]; subst.
          destruct Hin as [-> | Hin]; [apply Hx; apply in_or_app; auto | exact (IHl Hl Hin)].
        * apply (Hdis h); [apply in_or_app; auto | exact Hin].
    - apply NoDup_app_remove_r in Hnd. exact Hnd.
    - intros h Hh. apply Hdis. apply in_or_app. auto. }
  rewrite prune_node_tag. rewrite fingerprints_tag in Hnd, Hdis |- *.
  destruct (name_in Stages.NAV_LIKE nm).
  - simpl app in Hnd, Hdis |- *. inversion Hnd as [| ? ? Hx Hl]; subst.
    rewrite seen_mem_false by (apply Hdis; simpl; auto).
    rewrite Hcs.
    + simpl rev. rewrite <- app_assoc. reflexivity.
    + exact Hl.
    + intros h Hh [<- | Hin]; [exact (Hx Hh) |].
      apply (Hdis h); [simpl; auto | exact Hin].
  - simpl app in Hnd, Hdis |- *. rewrite Hcs by assumption. reflexivity.
Qed.

(** X9: in a document whose text is ASCII, when no two [nav], [ul] or [ol]
    containers have the same fingerprint, one nested in the other included,
    the pruning removes nothing.  The fingerprint is the digest of the text
    [get_text] gives, which leaves out comments and the strings of [script],
    [style] and [template]. *)
Theorem prune_without_duplicates (f : Soup) :
  Doc.ascii_text f = true ->
  NoDup (Doc.fingerprints md5 f) ->
  Stages.prune_repetitive_and_boilerplate_navigation_items md5 f = f.
Proof.
  unfold Stages.prune_repetitive_and_boilerplate_navigation_items.
  intros _ Hnd.
  assert (H : forall seen,
    NoDup (Doc.fingerprints md5 f) ->
    (forall h, In h (Doc.fingerprints md5 f) -> ~ In h seen) ->
    snd (Stages.prune_nodes md5 seen f) = f).
  { clear Hnd. induction f as [| c f IH]; intros seen Hnd Hdis; [reflexivity |].
    rewrite (fingerprints_cons c f) in Hnd, Hdis.
    rewrite prune_nodes_cons.
    rewrite (prune_node_distinct c seen).
    - specialize (IH (rev (Doc.fingerprints md5 [c]) ++ seen)).
      destruct (Stages.prune_nodes md5 (rev (Doc.fingerprints md5 [c]) ++ seen) f)
        as [s2 r'].
      simpl snd in *. rewrite IH; [reflexivity | |].
      + apply NoDup_app_remove_l in Hnd. exact Hnd.
      + intros h Hh Hin. apply in_app_or in Hin. destruct Hin as [Hin | Hin].
        * apply in_rev in Hin.
          revert Hnd Hin Hh. clear. intros Hnd Hin Hh.
          induction (Doc.fingerprints md5 [c]) as [| x l IHl]; [contradiction |].
          simpl in Hnd. inversion Hnd as [| ? ? Hx Hl]; subst.
          destruct Hin as [-> | Hin]; [apply Hx; apply in_or_app; auto | exact (IHl Hl Hin)].
        * apply (Hdis h); [apply in_or_app; auto | exact Hin].
    - apply NoDup_app_remove_r in Hnd. exact Hnd.
    - intros h Hh. apply Hdis. apply in_or_app. auto. }
  apply H; [exact Hnd | intros h _ []].
Qed.

End PruneFacts.

Lemma prune_without_duplicates_witness :
  Stages.prune_repetitive_and_boilerplate_navigation_items Samples.md5
    [Tag "nav" [] [NavigableString "Home"; Tag "ul" [] [NavigableString "About"]];
     Tag "ol" [] [NavigableString "home"; Tag "script" [] [OtherString "About"]]]
  = [Tag "nav" [] [NavigableString "Home"; Tag "ul" [] [NavigableString "About"]];
     Tag "ol" [] [NavigableString "home"; Tag "script" [] [OtherString "About"]]].
Proof.
  apply (prune_without_duplicates Samples.md5); [reflexivity |].
  vm_compute.
  repeat (constructor; [simpl; intuition discriminate |]).
  constructor.
Defined.

(** ** The media stage *)

Section MediaFacts.

Variable parse : string -> Soup.

(** The second loop on a tag, with the loop over its contents written as
    [replace_imgs_in]. *)
Lemma replace_imgs_tag (nm : string) (a : attrs_t) (cs : list Node) :
  Stages.replace_imgs parse (Tag nm a cs)
  = let below :=
      let (cs', e) := Stages.replace_imgs_in parse cs in ([Tag nm a cs'], e) in
    if String.eqb nm "img" then
      match Stages.big_dims a with
      | None => ([Tag nm a cs], true)
      | Some bd =>
          if Stages.big_data_uri a || bd
          then (parse (Stages._IMG_PLACEHOLDER (get_str "width" "auto" a)
                                               (get_str "height" "auto" a)),
                existsb Stages.img_raises (find_all ["img"] cs))
          else below
      end
    else below.
Proof.
  assert (Hgo : forall l,
    (fix go (l : list Node) : list Node * bool :=
       match l with
       | [] => ([], false)
       | c :: r =>
           let (c', e) := Stages.replace_imgs parse c in
           if e then (c' ++ r, true)
           else let (r', e') := go r in (c' ++ r', e')
       end) l = Stages.replace_imgs_in parse l).
  { induction l as [| c l IHl]; [reflexivity |].
    simpl. destruct (Stages.replace_imgs parse c) as [c' [|]]; [reflexivity |].
    rewrite IHl. reflexivity. }
  simpl. rewrite !Hgo. reflexivity.
Qed.

Lemma replace_imgs_in_cons (c : Node) (r : list Node) :
  Stages.replace_imgs_in parse (c :: r)
  = let (c', e) := Stages.replace_imgs parse c in
    if e then (c' ++ r, true)
    else let (r', e') := Stages.replace_imgs_in parse r in (c' ++ r', e').
Proof. reflexivity. Qed.

Lemma find_all_cons (names : list string) (c : Node) (r : list Node) :
  find_all names (c :: r) = filter (named names) (tags_of c) ++ find_all names r.
Proof. unfold find_all. rewrite find_all_tags_cons, filter_app. reflexivity. Qed.

Lemma replace_imgs_raises (n : Node) :
  snd (Stages.replace_imgs parse n)
  = existsb Stages.img_raises (filter (named ["img"]) (tags_of n)).
Proof.
  induction n as [nm a cs IH | s | s | s] using Node_ind'; try reflexivity.
  assert (Hcs : snd (Stages.replace_imgs_in parse cs)
                = existsb Stages.img_raises (find_all ["img"] cs)).
  { induction IH as [| c cs0 Hc _ IHcs]; [reflexivity |].
    rewrite replace_imgs_in_cons, find_all_cons, existsb_app, <- Hc, <- IHcs.
    destruct (Stages.replace_imgs parse c) as [c' [|]]; [reflexivity |].
    destruct (Stages.replace_imgs_in parse cs0) as [r' e']. reflexivity. }
  rewrite replace_imgs_tag.
  cbn [tags_of filter named name_in existsb].
  change (flat_map tags_of cs) with (find_all_tags cs).
  change (filter (named ["img"]) (find_all_tags cs)) with (find_all ["img"] cs).
  rewrite orb_false_r.
  destruct (String.eqb nm "img").
  - cbn [existsb Stages.img_raises].
    destruct (Stages.big_dims a) as [bd |]; [| reflexivity].
    cbn [orb].
    destruct (Stages.big_data_uri a || bd); [reflexivity |].
    destruct (Stages.replace_imgs_in parse cs) as [cs' e]. exact Hcs.
  - destruct (Stages.replace_imgs_in parse cs) as [cs' e]. exact Hcs.
Qed.

Lemma replace_imgs_in_raises (l : list Node) :
  snd (Stages.replace_imgs_in parse l)
  = existsb Stages.img_raises (find_all ["img"] l).
Proof.
  induction l as [| c l IH]; [reflexivity |].
  rewrite replace_imgs_in_cons, find_all_cons, existsb_app,
    <- replace_imgs_raises, <- IH.
  destruct (Stages.replace_imgs parse c) as [c' [|]]; [reflexivity |].
  destruct (Stages.replace_imgs_in parse l) as [r' e']. reflexivity.
Qed.

(** X10: when the [width] and the [height] of the images are ASCII strings,
    the media stage raises [ValueError] exactly when, once the [svg] elements
    are replaced, some [img] of the tree, large or small, has a [width] or a
    [height] that is neither missing, nor empty, nor accepted by [int]: a
    decimal literal of at most 4300 digits, with an optional sign, between
    blanks, tabs and line ends. *)
Theorem media_stage_raises_iff (st : HtmlReducer.t) (f : Soup) :
  HtmlReducer.dom_tree st = Some f ->
  forallb Doc.ascii_dims
    (find_all ["img"] (replace_in (Stages.svg_turn parse) f)) = true ->
  (exists st',
      HtmlReducer.reduce_large_inline_SVGs_or_images_to_lightweight_placeholders
        parse st = HtmlReducer.Raise HtmlReducer.ValueError st')
  <->
  (exists nm a cs,
      In (Tag nm a cs) (find_all ["img"] (replace_in (Stages.svg_turn parse) f)) /\
      (Stages.int_or_zero "width" a = None \/ Stages.int_or_zero "height" a = None)).
Proof.
  intros Hf _.
  unfold HtmlReducer.reduce_large_inline_SVGs_or_images_to_lightweight_placeholders,
    Stages.reduce_large_inline_SVGs_or_images_to_lightweight_placeholders.
  rewrite Hf.
  pose proof (replace_imgs_in_raises (replace_in (Stages.svg_turn parse) f)) as Hr.
  destruct (Stages.replace_imgs_in parse (replace_in (Stages.svg_turn parse) f))
    as [f' raised].
  simpl snd in Hr. split.
  - intros (st' & H). destruct raised; [| discriminate].
    symmetry in Hr. apply existsb_exists in Hr. destruct Hr as (x & Hx & Hb).
    destruct x as [nm a cs | s | s | s]; try discriminate.
    exists nm, a, cs. split; [exact Hx |].
    simpl in Hb. unfold Stages.big_dims in Hb.
    destruct (Stages.int_or_zero "width" a); [| auto].
    destruct (Stages.int_or_zero "height" a); [discriminate | auto].
  - intros (nm & a & cs & Hin & Hor).
    assert (Hb : existsb Stages.img_raises
                   (find_all ["img"] (replace_in (Stages.svg_turn parse) f)) = true).
    { apply existsb_exists. exists (Tag nm a cs). split; [exact Hin |].
      simpl. unfold Stages.big_dims.
      destruct Hor as [-> | Hh]; [reflexivity |].
      destruct (Stages.int_or_zero "width" a); [rewrite Hh |]; reflexivity. }
    rewrite Hb in Hr. rewrite Hr. eexists. reflexivity.
Qed.

End MediaFacts.

Lemma media_stage_raises_iff_witness :
  exists st',
    HtmlReducer.reduce_large_inline_SVGs_or_images_to_lightweight_placeholders
      Samples.parse (HtmlReducer.mk "" (Some [Tag "p" [] [Samples.wide_img]]))
    = HtmlReducer.Raise HtmlReducer.ValueError st'.
Proof.
  apply (proj2 (media_stage_raises_iff Samples.parse
                  (HtmlReducer.mk "" (Some [Tag "p" [] [Samples.wide_img]]))
                  [Tag "p" [] [Samples.wide_img]] eq_refl eq_refl)).
  exists "img", [("width", AStr "100%"); ("height", AStr "50")], [].
  split; [simpl; auto | left; reflexivity].
Defined.

(** ** Replacement loops: what they leave *)

Section ReplaceOuterMore.

Variable turn : Node -> option (list Node).

(** A loop with nothing to replace leaves the tree as it is. *)
Lemma replace_outer_nothing (n : Node) :
  (forall m, In m (tags_of n) -> turn m = None) -> replace_outer turn n = [n].
Proof.
  induction n as [nm a cs IH | s | s | s] using Node_ind'; intros H; try reflexivity.
  simpl replace_outer. rewrite (H (Tag nm a cs)) by (simpl; auto).
  do 2 f_equal.
  assert (Hcs : forall m, In m (find_all_tags cs) -> turn m = None).
  { intros m Hm. apply H. simpl. right. exact Hm. }
  clear H. induction IH as [| c cs0 Hc _ IHcs]; [reflexivity |].
  rewrite find_all_tags_cons in Hcs. simpl flat_map.
  rewrite Hc by (intros m Hm; apply Hcs; apply in_or_app; auto).
  rewrite IHcs by (intros m Hm; apply Hcs; apply in_or_app; auto).
  reflexivity.
Qed.

Lemma replace_in_nothing (f : Soup) :
  (forall m, In m (find_all_tags f) -> turn m = None) -> replace_in turn f = f.
Proof.
  induction f as [| c f IH]; intros H; [reflexivity |].
  rewrite find_all_tags_cons in H. rewrite replace_in_cons.
  rewrite replace_outer_nothing by (intros m Hm; apply H; apply in_or_app; auto).
  rewrite IH by (intros m Hm; apply H; apply in_or_app; auto).
  reflexivity.
Qed.

(** A tag of the tree after the loop is a tag of something put in, or has
    the name and the attributes of a tag the loop went past. *)
Lemma replace_outer_tags_kept (n m : Node) :
  In m (find_all_tags (replace_outer turn n)) ->
  (exists n0 l, In n0 (tags_of n) /\ turn n0 = Some l /\ In m (find_all_tags l)) \/
  (exists m0, In m0 (tags_of n) /\ turn m0 = None /\ same_head m m0).
Proof.
  revert m. induction n as [nm a cs IH | s | s | s] using Node_ind'; intros m Hin;
    try (simpl in Hin; contradiction).
  simpl replace_outer in Hin.
  destruct (turn (Tag nm a cs)) as [l |] eqn:Ht.
  - left. exists (Tag nm a cs), l. split; [simpl; auto | auto].
  - unfold find_all_tags in Hin. simpl in Hin. rewrite app_nil_r in Hin.
    destruct Hin as [<- | Hin].
    + right. exists (Tag nm a cs). split; [simpl; auto | simpl; auto].
    + change (flat_map tags_of (flat_map (replace_outer turn) cs))
        with (find_all_tags (replace_in turn cs)) in Hin.
      assert (H : (exists n0 l, In n0 (find_all_tags cs) /\ turn n0 = Some l /\
                                In m (find_all_tags l)) \/
                  (exists m0, In m0 (find_all_tags cs) /\ turn m0 = None /\
                              same_head m m0)).
      { clear Ht.
        induction IH as [| c cs0 Hc _ IHcs]; [simpl in Hin; contradiction |].
        rewrite replace_in_cons, find_all_tags_app in Hin.
        rewrite find_all_tags_cons.
        apply in_app_or in Hin. destruct Hin as [Hin | Hin].
        - destruct (Hc m Hin) as [(n0 & l & Hn0 & Hl & Hm) | (m0 & Hm0 & Hh)].
          + left. exists n0, l. split; [apply in_or_app; auto | auto].
          + right. exists m0. split; [apply in_or_app; auto | auto].
        - destruct (IHcs Hin) as [(n0 & l & Hn0 & Hl & Hm) | (m0 & Hm0 & Hh)].
          + left. exists n0, l. split; [apply in_or_app; auto | auto].
          + right. exists m0. split; [apply in_or_app; auto | auto]. }
      destruct H as [(n0 & l & Hn0 & Hl & Hm) | (m0 & Hm0 & Hh)].
      * left. exists n0, l. split; [simpl; right; exact Hn0 | auto].
      * right. exists m0. split; [simpl; right; exact Hm0 | auto].
Qed.

Lemma replace_in_tags_kept (cs : list Node) (m : Node) :
  In m (find_all_tags (replace_in turn cs)) ->
  (exists n0 l, In n0 (find_all_tags cs) /\ turn n0 = Some l /\ In m (find_all_tags l)) \/
  (exists m0, In m0 (find_all_tags cs) /\ turn m0 = None /\ same_head m m0).
Proof.
  induction cs as [| c cs IH]; intros Hin; [simpl in Hin; contradiction |].
  rewrite replace_in_cons, find_all_tags_app in Hin. rewrite find_all_tags_cons.
  apply in_app_or in Hin. destruct Hin as [Hin | Hin].
  - destruct (replace_outer_tags_kept c m Hin)
      as [(n0 & l & Hn0 & Hl & Hm) | (m0 & Hm0 & Hh)].
    + left. exists n0, l. split; [apply in_or_app; auto | auto].
    + right. exists m0. split; [apply in_or_app; auto | auto].
  - destruct (IH Hin) as [(n0 & l & Hn0 & Hl & Hm) | (m0 & Hm0 & Hh)].
    + left. exists n0, l. split; [apply in_or_app; auto | auto].
    + right. exists m0. split; [apply in_or_app; auto | auto].
Qed.

Hypothesis put_in_done :
  forall n l m, turn n = Some l -> In m (find_all_tags l) -> turn m = None.
Hypothesis skipped_again :
  forall nm a cs,
    turn (Tag nm a cs) = None -> turn (Tag nm a (replace_in turn cs)) = None.

(** After the loop there is no tag left that it would replace. *)
Lemma replace_outer_leaves_nothing (n m : Node) :
  In m (find_all_tags (replace_outer turn n)) -> turn m = None.
Proof.
  revert m. induction n as [nm a cs IH | s | s | s] using Node_ind'; intros m Hin;
    try (simpl in Hin; contradiction).
  simpl replace_outer in Hin.
  destruct (turn (Tag nm a cs)) as [l |] eqn:Ht; [exact (put_in_done _ _ _ Ht Hin) |].
  unfold find_all_tags in Hin. simpl in Hin. rewrite app_nil_r in Hin.
  destruct Hin as [<- | Hin]; [exact (skipped_again nm a cs Ht) |].
  clear Ht. induction IH as [| c cs0 Hc _ IHcs]; [simpl in Hin; contradiction |].
  simpl flat_map in Hin. rewrite flat_map_app in Hin.
  apply in_app_or in Hin. destruct Hin as [Hin | Hin]; [exact (Hc m Hin) | exact (IHcs Hin)].
Qed.

Lemma replace_in_leaves_nothing (f : Soup) (m : Node) :
  In m (find_all_tags (replace_in turn f)) -> turn m = None.
Proof.
  induction f as [| c f IH]; intros Hin; [simpl in Hin; contradiction |].
  rewrite replace_in_cons, find_all_tags_app in Hin.
  apply in_app_or in Hin.
  destruct Hin as [Hin | Hin]; [exact (replace_outer_leaves_nothing c m Hin) | exact (IH Hin)].
Qed.

End ReplaceOuterMore.

(** ** The media stage: what it leaves *)

Section MediaLeaves.

Variable parse : string -> Soup.

#[local] Abbreviation from_placeholder := (from_placeholder parse).

Lemma replaced_img_head (m m0 : Node) :
  same_head m m0 -> replaced_img m = replaced_img m0.
Proof.
  destruct m as [nm a cs | | |], m0 as [nm0 a0 cs0 | | |]; simpl; try contradiction.
  intros [-> ->]. reflexivity.
Qed.

Lemma replace_imgs_kept (n : Node) :
  snd (Stages.replace_imgs parse n) = false ->
  forall m, In m (find_all_tags (fst (Stages.replace_imgs parse n))) ->
    from_placeholder m \/
    (exists m0, In m0 (tags_of n) /\ same_head m m0 /\ replaced_img m0 = false).
Proof.
  induction n as [nm a cs IH | s | s | s] using Node_ind'; intros He m Hin;
    try (simpl in Hin; contradiction).
  assert (Hcs : snd (Stages.replace_imgs_in parse cs) = false ->
    forall m, In m (find_all_tags (fst (Stages.replace_imgs_in parse cs))) ->
      from_placeholder m \/
      (exists m0, In m0 (find_all_tags cs) /\ same_head m m0 /\ replaced_img m0 = false)).
  { clear He Hin m.
    induction IH as [| c cs0 Hc _ IHcs]; intros He m Hin; [simpl in Hin; contradiction |].
    rewrite replace_imgs_in_cons in He, Hin.
    destruct (Stages.replace_imgs parse c) as [c' e] eqn:Ec.
    destruct e; [discriminate |].
    destruct (Stages.replace_imgs_in parse cs0) as [r' e'] eqn:Er.
    simpl in He, Hin. subst e'.
    rewrite find_all_tags_app in Hin. rewrite find_all_tags_cons.
    apply in_app_or in Hin. destruct Hin as [Hin | Hin].
    - destruct (Hc eq_refl m Hin) as [Hp | (m0 & Hm0 & Hrest)]; [left; exact Hp |].
      right. exists m0. split; [apply in_or_app; auto | exact Hrest].
    - destruct (IHcs eq_refl m Hin) as [Hp | (m0 & Hm0 & Hrest)]; [left; exact Hp |].
      right. exists m0. split; [apply in_or_app; auto | exact Hrest]. }
  rewrite replace_imgs_tag in He, Hin.
  assert (Hbelow : Stages.replace_imgs_in parse cs = (fst (Stages.replace_imgs_in parse cs),
                                                      snd (Stages.replace_imgs_in parse cs)))
    by (destruct (Stages.replace_imgs_in parse cs); reflexivity).
  assert (Hkeep : replaced_img (Tag nm a cs) = false ->
    snd (Stages.replace_imgs_in parse cs) = false ->
    In m (find_all_tags [Tag nm a (fst (Stages.replace_imgs_in parse cs))]) ->
    from_placeholder m \/
    (exists m0, In m0 (tags_of (Tag nm a cs)) /\ same_head m m0 /\ replaced_img m0 = false)).
  { intros Hr He' Hin'. unfold find_all_tags in Hin'. simpl in Hin'.
    rewrite app_nil_r in Hin'. destruct Hin' as [<- | Hin'].
    - right. exists (Tag nm a cs). split; [simpl; auto |]. split; [simpl; auto | exact Hr].
    - destruct (Hcs He' m Hin') as [Hp | (m0 & Hm0 & Hrest)]; [left; exact Hp |].
      right. exists m0. split; [simpl; right; exact Hm0 | exact Hrest]. }
  cbv zeta in He, Hin.
  destruct (String.eqb nm "img") eqn:En.
  - destruct (Stages.big_dims a) as [bd |] eqn:Eb; [| discriminate].
    destruct (Stages.big_data_uri a || bd) eqn:Ebig.
    + left. exists (get_str "width" "auto" a), (get_str "height" "auto" a).
      right. exact Hin.
    + rewrite Hbelow in He, Hin. simpl in He, Hin.
      apply Hkeep; [| exact He | exact Hin].
      unfold replaced_img, Doc.big_img. rewrite Eb, Ebig. apply andb_false_r.
  - rewrite Hbelow in He, Hin. simpl in He, Hin.
    apply Hkeep; [| exact He | exact Hin].
    unfold replaced_img. cbn [named name_in existsb]. rewrite En. reflexivity.
Qed.

Lemma replace_imgs_in_kept (l : list Node) :
  snd (Stages.replace_imgs_in parse l) = false ->
  forall m, In m (find_all_tags (fst (Stages.replace_imgs_in parse l))) ->
    from_placeholder m \/
    (exists m0, In m0 (find_all_tags l) /\ same_head m m0 /\ replaced_img m0 = false).
Proof.
  induction l as [| c l IH]; intros He m Hin; [simpl in Hin; contradiction |].
  rewrite replace_imgs_in_cons in He, Hin.
  pose proof (replace_imgs_kept c) as Hc.
  destruct (Stages.replace_imgs parse c) as [c' e] eqn:Ec.
  destruct e; [discriminate |].
  destruct (Stages.replace_imgs_in parse l) as [r' e'] eqn:Er.
  simpl in He, Hin, Hc, IH. subst e'.
  rewrite find_all_tags_app in Hin. rewrite find_all_tags_cons.
  apply in_app_or in Hin. destruct Hin as [Hin | Hin].
  - destruct (Hc eq_refl m Hin) as [Hp | (m0 & Hm0 & Hrest)]; [left; exact Hp |].
    right. exists m0. split; [apply in_or_app; auto | exact Hrest].
  - destruct (IH eq_refl m Hin) as [Hp | (m0 & Hm0 & Hrest)]; [left; exact Hp |].
    right. exists m0. split; [apply in_or_app; auto | exact Hrest].
Qed.

Lemma svg_turn_is_placeholder (n : Node) (l : list Node) :
  Stages.svg_turn parse n = Some l ->
  exists w h, l = parse (Stages._SVG_PLACEHOLDER w h).
Proof.
  destruct n as [nm a cs | s | s | s]; simpl; try discriminate.
  destruct (String.eqb nm "svg"); [| discriminate].
  intros H. injection H as <-. eauto.
Qed.

Lemma svg_turn_none (m : Node) :
  is_tag m = true -> Stages.svg_turn parse m = None -> named ["svg"] m = false.
Proof.
  destruct m as [nm a cs | s | s | s]; try discriminate.
  intros _. cbn [Stages.svg_turn named name_in existsb].
  destruct (String.eqb nm "svg"); [discriminate | reflexivity].
Qed.

Lemma same_head_refl (m : Node) : is_tag m = true -> same_head m m.
Proof. destruct m; try discriminate. intros _. simpl. auto. Qed.

Lemma named_is_tag (names : list string) (m : Node) :
  named names m = true -> is_tag m = true.
Proof. destruct m; try discriminate. reflexivity. Qed.

(** X11: when the media stage has returned, none of the document's own [svg]
    elements and none of its [img] elements over the size threshold is left:
    every [svg] and every such [img] in the tree has the name and the
    attributes of a tag of a parsed placeholder. *)
Theorem media_stage_replaces_all (f f' : Soup) (m : Node) :
  Stages.reduce_large_inline_SVGs_or_images_to_lightweight_placeholders parse f
  = (f', false) ->
  In m (find_all_tags f') ->
  named ["svg"] m = true \/ (named ["img"] m = true /\ Doc.big_img m = true) ->
  exists p, from_placeholder p /\ same_head m p.
Proof.
  unfold Stages.reduce_large_inline_SVGs_or_images_to_lightweight_placeholders.
  intros Hrun Hin Hor.
  pose proof (replace_imgs_in_kept (replace_in (Stages.svg_turn parse) f)) as Hk.
  rewrite Hrun in Hk. simpl in Hk.
  assert (Htag : is_tag m = true).
  { destruct Hor as [H | [H _]]; exact (named_is_tag _ m H). }
  destruct (Hk eq_refl m Hin) as [Hp | (m0 & Hm0 & Hh & Hr)].
  { exists m. split; [exact Hp | exact (same_head_refl m Htag)]. }
  destruct Hor as [Hsvg | [Himg Hbig]].
  - destruct (replace_in_tags_kept (Stages.svg_turn parse) f m0 Hm0)
      as [(n0 & l & _ & Hl & Hml) | (m1 & Hm1 & Ht & Hh1)].
    + destruct (svg_turn_is_placeholder n0 l Hl) as (w & h & ->).
      exists m0. split; [| exact Hh]. exists w, h. left. exact Hml.
    + exfalso.
      rewrite (named_head ["svg"] m m0 Hh), (named_head ["svg"] m0 m1 Hh1) in Hsvg.
      rewrite (svg_turn_none m1 (find_all_tags_are_tags f m1 Hm1) Ht) in Hsvg.
      discriminate.
  - exfalso. rewrite <- (replaced_img_head m m0 Hh) in Hr.
    unfold replaced_img in Hr. rewrite Himg, Hbig in Hr. discriminate.
Qed.

Lemma replace_imgs_small (n : Node) :
  (forall m, In m (tags_of n) -> named ["img"] m = true ->
             Doc.big_img m = false /\ Stages.img_raises m = false) ->
  Stages.replace_imgs parse n = ([n], false).
Proof.
  induction n as [nm a cs IH | s | s | s] using Node_ind'; intros H; try reflexivity.
  assert (Hcs : Stages.replace_imgs_in parse cs = (cs, false)).
  { assert (Hcs : forall m, In m (find_all_tags cs) -> named ["img"] m = true ->
                            Doc.big_img m = false /\ Stages.img_raises m = false).
    { intros m Hm. apply H. simpl. right. exact Hm. }
    clear H. induction IH as [| c cs0 Hc _ IHcs]; [reflexivity |].
    rewrite find_all_tags_cons in Hcs. rewrite replace_imgs_in_cons.
    rewrite Hc by (intros m Hm; apply Hcs; apply in_or_app; auto).
    rewrite IHcs by (intros m Hm; apply Hcs; apply in_or_app; auto).
    reflexivity. }
  rewrite replace_imgs_tag, Hcs. cbv zeta.
  destruct (String.eqb nm "img") eqn:En; [| reflexivity].
  destruct (H (Tag nm a cs)) as [Hbig Hraise].
  { simpl. auto. }
  { cbn [named name_in existsb]. rewrite En. reflexivity. }
  simpl in Hbig, Hraise.
  destruct (Stages.big_dims a) as [bd |]; [| discriminate].
  rewrite Hbig. reflexivity.
Qed.

(** X12: a document without [svg] whose images have ASCII strings for [src],
    [width] and [height] and are all under the threshold, with widths and
    heights that [int] accepts (decimal literals of at most 4300 digits),
    goes through the media stage unchanged. *)
Theorem media_stage_leaves_small_images (f : Soup) :
  (forall m, In m (find_all_tags f) ->
     named ["svg"] m = false /\
     (named ["img"] m = true ->
      Doc.ascii_src m = true /\ Doc.ascii_dims m = true /\
      Doc.big_img m = false /\ Stages.img_raises m = false)) ->
  Stages.reduce_large_inline_SVGs_or_images_to_lightweight_placeholders parse f
  = (f, false).
Proof.
  intros H0.
  assert (H : forall m, In m (find_all_tags f) ->
     named ["svg"] m = false /\
     (named ["img"] m = true ->
      Doc.big_img m = false /\ Stages.img_raises m = false)).
  { intros m Hm. destruct (H0 m Hm) as [Hsvg Himg]. split; [exact Hsvg |].
    intros Hn. destruct (Himg Hn) as (_ & _ & Hb & Hr). split; assumption. }
  clear H0.
  unfold Stages.reduce_large_inline_SVGs_or_images_to_lightweight_placeholders.
  rewrite replace_in_nothing.
  - induction f as [| c f IH]; [reflexivity |].
    rewrite find_all_tags_cons in H. rewrite replace_imgs_in_cons.
    rewrite replace_imgs_small
      by (intros m Hm; apply (H m); apply in_or_app; auto).
    rewrite IH by (intros m Hm; apply H; apply in_or_app; auto).
    reflexivity.
  - intros m Hm. destruct (H m Hm) as [Hsvg _].
    destruct m as [nm a cs | s | s | s]; try reflexivity.
    cbn [Stages.svg_turn named name_in existsb] in *.
    destruct (String.eqb nm "svg"); [discriminate | reflexivity].
Qed.

End MediaLeaves.

Lemma media_stage_replaces_all_witness :
  exists p,
    from_placeholder Samples.parse_stub p /\ same_head Samples.svg_stub p.
Proof.
  apply (media_stage_replaces_all Samples.parse_stub
           [Tag "svg" [("width", AStr "800"); ("height", AStr "600")]
              [Tag "circle" [] []]]
           [Tag "html" [] [Tag "body" [] [Samples.svg_stub]]]
           Samples.svg_stub).
  - reflexivity.
  - simpl. auto.
  - left. reflexivity.
Defined.

Lemma media_stage_leaves_small_images_witness :
  Stages.reduce_large_inline_SVGs_or_images_to_lightweight_placeholders Samples.parse
    [Tag "p" [] [Tag "img" [("src", AStr "a.png"); ("width", AStr "32");
                            ("height", AStr "")] []]]
  = ([Tag "p" [] [Tag "img" [("src", AStr "a.png"); ("width", AStr "32");
                             ("height", AStr "")] []]], false).
Proof.
  apply media_stage_leaves_small_images.
  intros m Hm. simpl in Hm.
  repeat (destruct Hm as [<- | Hm];
    [split; [reflexivity | intros _; repeat split; reflexivity] |]).
  contradiction.
Defined.

(** ** The conversions: what they leave *)

Lemma table_turn_skipped_again (nm : string) (a : attrs_t) (cs : list Node) :
  Stages.table_turn (Tag nm a cs) = None ->
  Stages.table_turn (Tag nm a (replace_in Stages.table_turn cs)) = None.
Proof.
  intros H. simpl in *.
  destruct (String.eqb nm "table"); [| reflexivity].
  destruct (Stages.convert_table cs) eqn:E; [discriminate |].
  apply (proj1 (convert_table_none cs)) in E.
  rewrite (proj2 (convert_table_none (replace_in Stages.table_turn cs)));
    [reflexivity |].
  rewrite find_all_as_filter in *.
  apply filter_tags_after; [apply named_head | | exact E].
  intros n l m Hl Hm. destruct (table_turn_is_pre n l Hl) as (text & ->).
  simpl in Hm. destruct Hm as [<- | []]. reflexivity.
Qed.

Lemma figure_turn_skipped_again (nm : string) (a : attrs_t) (cs : list Node) :
  Stages.figure_turn (Tag nm a cs) = None ->
  Stages.figure_turn (Tag nm a (replace_in Stages.figure_turn cs)) = None.
Proof.
  intros H. simpl in *.
  destruct (String.eqb nm "figure"); [| reflexivity].
  destruct (Stages.convert_figure cs) eqn:E; [discriminate |].
  apply (proj1 (convert_figure_none cs)) in E.
  rewrite (proj2 (convert_figure_none (replace_in Stages.figure_turn cs)));
    [reflexivity |].
  rewrite find_all_as_filter in *.
  apply filter_tags_after; [apply named_head | | exact E].
  intros n l m Hl Hm. destruct (figure_turn_is_pre n l Hl) as (text & ->).
  simpl in Hm. destruct Hm as [<- | []]. reflexivity.
Qed.

Lemma dl_turn_skipped_again (nm : string) (a : attrs_t) (cs : list Node) :
  Stages.dl_turn (Tag nm a cs) = None ->
  Stages.dl_turn (Tag nm a (replace_in Stages.dl_turn cs)) = None.
Proof.
  intros H. simpl in *.
  destruct (String.eqb nm "dl"); [| reflexivity].
  unfold Stages.convert_dl in *.
  destruct (Stages.dl_lines cs) eqn:E; [| discriminate].
  apply (proj1 (dl_lines_nil cs)) in E.
  rewrite (proj2 (dl_lines_nil (replace_in Stages.dl_turn cs))); [reflexivity |].
  rewrite child_tags_named_as_filter in *.
  apply filter_children_after; [apply named_head | | exact E].
  intros n l m Hl Hm. destruct (dl_turn_is_pre n l Hl) as (text & ->).
  simpl in Hm. destruct Hm as [<- | []]. reflexivity.
Qed.

Lemma list_turn_skipped_again (nm : string) (a : attrs_t) (cs : list Node) :
  Stages.list_turn (Tag nm a cs) = None ->
  Stages.list_turn (Tag nm a (replace_in Stages.list_turn cs)) = None.
Proof.
  intros H.
  remember (replace_in Stages.list_turn cs) as cs' eqn:Hcs'.
  unfold Stages.list_turn in *.
  destruct (name_in Stages.LISTS nm); [| reflexivity].
  destruct (Stages.walk_list 0 (Tag nm a cs)) eqn:E; [| discriminate].
  apply (proj1 (walk_list_nil 0 nm a cs)) in E.
  rewrite (proj2 (walk_list_nil 0 nm a cs')); [reflexivity |].
  subst cs'.
  rewrite child_tags_named_as_filter in *.
  apply filter_children_after; [apply named_head | | exact E].
  intros n l m Hl Hm. destruct (list_turn_is_pre n l Hl) as (text & ->).
  simpl in Hm. destruct Hm as [<- | []]. reflexivity.
Qed.

Lemma css_table_turn_skipped_again (nm : string) (a : attrs_t) (cs : list Node) :
  Stages.css_table_turn (Tag nm a cs) = None ->
  Stages.css_table_turn (Tag nm a (replace_in Stages.css_table_turn cs)) = None.
Proof.
  intros H.
  remember (replace_in Stages.css_table_turn cs) as cs' eqn:Hcs'.
  unfold Stages.css_table_turn in *.
  change (Stages.style_displays "table" (Tag nm a cs'))
    with (Stages.style_displays "table" (Tag nm a cs)).
  destruct (Stages.style_displays "table" (Tag nm a cs)); [| reflexivity].
  destruct (Stages.convert_css_table cs) eqn:E; [discriminate |].
  apply (proj1 (convert_css_table_none cs)) in E.
  rewrite (proj2 (convert_css_table_none cs')); [reflexivity |].
  subst cs'.
  apply filter_tags_after; [apply style_displays_head | | exact E].
  intros n l m Hl Hm. destruct (css_table_turn_is_pre n l Hl) as (text & ->).
  simpl in Hm. destruct Hm as [<- | []]. reflexivity.
Qed.

(** X13: after each conversion nothing is left in the tree that it converts: no
    [table] with a row, no [dl] with a [dt] or [dd] child, no [ul] or [ol]
    with an [li] child, no [figure] with an image, no element styled
    [display:table] with a descendant styled [display:table-row]. *)
Theorem conversions_leave_nothing_to_convert (f : Soup) :
  (forall a cs,
      In (Tag "table" a cs) (find_all_tags (Stages.preserve_tables_as_markdown f)) ->
      find_all ["tr"] cs = []) /\
  (forall a cs,
      In (Tag "dl" a cs) (find_all_tags (Stages.preserve_deflists_as_markdown f)) ->
      child_tags_named ["dt"; "dd"] cs = []) /\
  (forall nm a cs,
      In (Tag nm a cs) (find_all_tags (Stages.preserve_lists_as_markdown f)) ->
      In nm ["ul"; "ol"] ->
      child_tags_named ["li"] cs = []) /\
  (forall a cs,
      In (Tag "figure" a cs) (find_all_tags (Stages.preserve_figures_as_markdown f)) ->
      find_all ["img"] cs = []) /\
  (forall nm a cs,
      In (Tag nm a cs) (find_all_tags (Stages.preserve_css_tables_as_markdown f)) ->
      Stages.style_displays "table" (Tag nm a cs) = true ->
      filter (Stages.style_displays "table-row") (find_all_tags cs) = []).
Proof.
  repeat split.
  - intros a cs Hin.
    assert (H : Stages.table_turn (Tag "table" a cs) = None).
    { apply (replace_in_leaves_nothing Stages.table_turn) with (f := f);
        [| exact table_turn_skipped_again | exact Hin].
      intros n l m Hl Hm. destruct (table_turn_is_pre n l Hl) as (text & ->).
      simpl in Hm. destruct Hm as [<- | []]. reflexivity. }
    simpl in H. destruct (Stages.convert_table cs) eqn:E; [discriminate |].
    exact (proj1 (convert_table_none cs) E).
  - intros a cs Hin.
    assert (H : Stages.dl_turn (Tag "dl" a cs) = None).
    { apply (replace_in_leaves_nothing Stages.dl_turn) with (f := f);
        [| exact dl_turn_skipped_again | exact Hin].
      intros n l m Hl Hm. destruct (dl_turn_is_pre n l Hl) as (text & ->).
      simpl in Hm. destruct Hm as [<- | []]. reflexivity. }
    simpl in H. unfold Stages.convert_dl in H.
    destruct (Stages.dl_lines cs) eqn:E; [| discriminate].
    exact (proj1 (dl_lines_nil cs) E).
  - intros nm a cs Hin Hnm.
    assert (H : Stages.list_turn (Tag nm a cs) = None).
    { apply (replace_in_leaves_nothing Stages.list_turn) with (f := f);
        [| exact list_turn_skipped_again | exact Hin].
      intros n l m Hl Hm. destruct (list_turn_is_pre n l Hl) as (text & ->).
      simpl in Hm. destruct Hm as [<- | []]. reflexivity. }
    unfold Stages.list_turn in H.
    assert (Hn : name_in Stages.LISTS nm = true).
    { simpl in Hnm. destruct Hnm as [<- | [<- | []]]; reflexivity. }
    rewrite Hn in H.
    destruct (Stages.walk_list 0 (Tag nm a cs)) eqn:E; [| discriminate].
    exact (proj1 (walk_list_nil 0 nm a cs) E).
  - intros a cs Hin.
    assert (H : Stages.figure_turn (Tag "figure" a cs) = None).
    { apply (replace_in_leaves_nothing Stages.figure_turn) with (f := f);
        [| exact figure_turn_skipped_again | exact Hin].
      intros n l m Hl Hm. destruct (figure_turn_is_pre n l Hl) as (text & ->).
      simpl in Hm. destruct Hm as [<- | []]. reflexivity. }
    simpl in H. destruct (Stages.convert_figure cs) eqn:E; [discriminate |].
    exact (proj1 (convert_figure_none cs) E).
  - intros nm a cs Hin Hst.
    assert (H : Stages.css_table_turn (Tag nm a cs) = None).
    { apply (replace_in_leaves_nothing Stages.css_table_turn) with (f := f);
        [| exact css_table_turn_skipped_again | exact Hin].
      intros n l m Hl Hm. destruct (css_table_turn_is_pre n l Hl) as (text & ->).
      simpl in Hm. destruct Hm as [<- | []]. reflexivity. }
    unfold Stages.css_table_turn in H. rewrite Hst in H.
    destruct (Stages.convert_css_table cs) eqn:E; [discriminate |].
    exact (proj1 (convert_css_table_none cs) E).
Qed.

(** X14: a document with no [table], [dl], [ul], [ol] or [figure] and no element
    styled [display:table] goes through the five conversions unchanged. *)
Theorem conversions_skip_other_documents (f : Soup) :
  (forall m, In m (find_all_tags f) ->
     named ["table"; "dl"; "ul"; "ol"; "figure"] m = false /\
     Stages.style_displays "table" m = false) ->
  Stages.preserve_tables_as_markdown f = f /\
  Stages.preserve_deflists_as_markdown f = f /\
  Stages.preserve_lists_as_markdown f = f /\
  Stages.preserve_figures_as_markdown f = f /\
  Stages.preserve_css_tables_as_markdown f = f.
Proof.
  intros H.
  assert (Hn : forall m, In m (find_all_tags f) ->
            match m with
            | Tag nm _ _ =>
                String.eqb nm "table" = false /\ String.eqb nm "dl" = false /\
                String.eqb nm "ul" = false /\ String.eqb nm "ol" = false /\
                String.eqb nm "figure" = false
            | _ => True
            end).
  { intros m Hm. destruct (H m Hm) as [Hnm _].
    destruct m as [nm a cs | s | s | s]; [| exact I | exact I | exact I].
    cbn [named name_in existsb] in Hnm.
    repeat (apply orb_false_iff in Hnm; destruct Hnm as [? Hnm]).
    auto. }
  repeat split; apply replace_in_nothing; intros m Hm;
    pose proof (Hn m Hm) as Hm1; destruct (H m Hm) as [_ Hm2];
    destruct m as [nm a cs | s | s | s]; try reflexivity;
    destruct Hm1 as (H1 & H2 & H3 & H4 & H5).
  - cbn [Stages.table_turn]. rewrite H1. reflexivity.
  - cbn [Stages.dl_turn]. rewrite H2. reflexivity.
  - unfold Stages.list_turn. cbn [name_in Stages.LISTS existsb].
    rewrite H3, H4. reflexivity.
  - cbn [Stages.figure_turn]. rewrite H5. reflexivity.
  - unfold Stages.css_table_turn. rewrite Hm2. reflexivity.
Qed.

Lemma conversions_skip_other_documents_witness :
  Stages.preserve_tables_as_markdown [Tag "p" [("style", AStr "display:block")] []]
  = [Tag "p" [("style", AStr "display:block")] []] /\
  Stages.preserve_deflists_as_markdown [Tag "p" [("style", AStr "display:block")] []]
  = [Tag "p" [("style", AStr "display:block")] []] /\
  Stages.preserve_lists_as_markdown [Tag "p" [("style", AStr "display:block")] []]
  = [Tag "p" [("style", AStr "display:block")] []] /\
  Stages.preserve_figures_as_markdown [Tag "p" [("style", AStr "display:block")] []]
  = [Tag "p" [("style", AStr "display:block")] []] /\
  Stages.preserve_css_tables_as_markdown [Tag "p" [("style", AStr "display:block")] []]
  = [Tag "p" [("style", AStr "display:block")] []].
Proof.
  apply conversions_skip_other_documents.
  intros m Hm. simpl in Hm. destruct Hm as [<- | []]. split; reflexivity.
Defined.

(** ** The runner: composition and what it keeps *)

Section RunnerFacts.

Variable parse : string -> Soup.
Variable md5 : string -> string.

(** X15: running a list of steps made of two lists that are not empty is running
    the first and, when it returns, the second on what it left. *)
Theorem reduce_of_two_lists (a b : list string) (st : HtmlReducer.t) :
  a <> [] -> b <> [] ->
  HtmlReducer.reduce parse md5 (Some (a ++ b)) st
  = match HtmlReducer.reduce parse md5 (Some a) st with
    | HtmlReducer.Ok st' => HtmlReducer.reduce parse md5 (Some b) st'
    | r => r
    end.
Proof.
  intros Ha Hb. unfold HtmlReducer.reduce.
  destruct a as [| x a]; [contradiction |].
  destruct b as [| y b]; [contradiction |].
  change (HtmlReducer.steps_of (Some ((x :: a) ++ y :: b))) with ((x :: a) ++ y :: b).
  change (HtmlReducer.steps_of (Some (x :: a))) with (x :: a).
  change (HtmlReducer.steps_of (Some (y :: b))) with (y :: b).
  apply run_app.
Qed.

Lemma guarded_keeps_raw_html (body : Soup -> Soup) :
  keeps_raw_html (HtmlReducer.guarded body).
Proof.
  intros st. unfold HtmlReducer.guarded.
  destruct (HtmlReducer.dom_tree st); reflexivity.
Qed.

Lemma media_keeps_raw_html :
  keeps_raw_html
    (HtmlReducer.reduce_large_inline_SVGs_or_images_to_lightweight_placeholders parse).
Proof.
  intros st.
  unfold HtmlReducer.reduce_large_inline_SVGs_or_images_to_lightweight_placeholders.
  destruct (HtmlReducer.dom_tree st) as [f |]; [| reflexivity].
  destruct (Stages.reduce_large_inline_SVGs_or_images_to_lightweight_placeholders parse f)
    as [f' [|]]; reflexivity.
Qed.

Lemma assoc_in (A : Type) (k : string) (l : list (string * A)) (v : A) :
  HtmlReducer.assoc k l = Some v -> In (k, v) l.
Proof.
  induction l as [| [k' v'] l IH]; simpl; [discriminate |].
  destruct (String.eqb_spec k k') as [-> | _].
  - intros H. injection H as ->. auto.
  - intros H. right. exact (IH H).
Qed.

Lemma later_stages_keep_raw_html (name : string)
    (m : HtmlReducer.t -> HtmlReducer.outcome) :
  In (name, m) (HtmlReducer.later_stages parse md5) -> keeps_raw_html m.
Proof.
  intros Hin. simpl in Hin.
  repeat (destruct Hin as [Heq | Hin];
    [ injection Heq as <- <-;
      first [ apply guarded_keeps_raw_html | apply media_keeps_raw_html ]
    | ]).
  contradiction.
Qed.

Lemma run_keeps_raw_html (lookup : HtmlReducer.t -> string -> HtmlReducer.attribute) :
  (forall st name fn, lookup st name = HtmlReducer.Callable fn -> keeps_raw_html fn) ->
  forall steps, keeps_raw_html (HtmlReducer.run lookup steps).
Proof.
  intros Hl steps. induction steps as [| name rest IH]; intros st; simpl;
    [reflexivity |].
  destruct (lookup st name) as [fn | | |] eqn:E; try reflexivity.
  pose proof (Hl st name fn E st) as Hfn.
  destruct (fn st) as [st1 | e st1 |]; [| exact Hfn | exact I].
  pose proof (IH st1) as Hrest.
  destruct (HtmlReducer.run lookup rest st1) as [st2 | e st2 |];
    [congruence | congruence | exact I].
Qed.

Lemma getattr_but_reduce_keeps_raw_html (st : HtmlReducer.t) (name : string)
    (fn : HtmlReducer.t -> HtmlReducer.outcome) :
  HtmlReducer.getattr_but_reduce parse md5 st name = HtmlReducer.Callable fn ->
  keeps_raw_html fn.
Proof.
  unfold HtmlReducer.getattr_but_reduce.
  destruct (String.eqb name "parse_the_full_dom_into_a_dom_tree").
  { intros H. injection H as <-. intros s. reflexivity. }
  destruct (HtmlReducer.assoc name (HtmlReducer.later_stages parse md5)) as [m |] eqn:E.
  { intros H. injection H as <-.
    exact (later_stages_keep_raw_html name m (assoc_in _ _ _ _ E)). }
  destruct (name_in ["to_html"; "_assert_parsed"] name).
  { intros H. injection H as <-. intros s. unfold HtmlReducer._assert_parsed.
    destruct (HtmlReducer.dom_tree s); reflexivity. }
  destruct (String.eqb name "_walk").
  { intros H. injection H as <-. intros s. reflexivity. }
  destruct (String.eqb name "dom_tree").
  { destruct (HtmlReducer.dom_tree st) as [f |]; [| discriminate].
    intros H. injection H as <-. intros s. reflexivity. }
  destruct (name_in _ name); [discriminate |].
  destruct (PyStr.startswith "__" name); discriminate.
Qed.

(** X16: whatever the list of steps and however the call ends, [reduce] leaves
    [raw_html] as it was: the stages only ever touch the tree. *)
Theorem reduce_keeps_raw_html (order : option (list string)) (st : HtmlReducer.t) :
  match HtmlReducer.reduce parse md5 order st with
  | HtmlReducer.Ok st' | HtmlReducer.Raise _ st' =>
      HtmlReducer.raw_html st' = HtmlReducer.raw_html st
  | HtmlReducer.Beyond => True
  end.
Proof.
  unfold HtmlReducer.reduce.
  apply (run_keeps_raw_html (HtmlReducer.getattr parse md5)).
  intros s name fn. unfold HtmlReducer.getattr.
  destruct (String.eqb name "reduce").
  - intros H. injection H as <-.
    exact (run_keeps_raw_html (HtmlReducer.getattr_but_reduce parse md5)
             getattr_but_reduce_keeps_raw_html HtmlReducer._DEFAULT_PIPE).
  - apply getattr_but_reduce_keeps_raw_html.
Qed.

Lemma guarded_keeps_parsed (body : Soup -> Soup) :
  keeps_parsed (HtmlReducer.guarded body).
Proof.
  intros st st' _. unfold HtmlReducer.guarded.
  destruct (HtmlReducer.dom_tree st); [| discriminate].
  intros H. injection H as <-. discriminate.
Qed.

Lemma media_keeps_parsed :
  keeps_parsed
    (HtmlReducer.reduce_large_inline_SVGs_or_images_to_lightweight_placeholders parse).
Proof.
  intros st st' _.
  unfold HtmlReducer.reduce_large_inline_SVGs_or_images_to_lightweight_placeholders.
  destruct (HtmlReducer.dom_tree st) as [f |]; [| discriminate].
  destruct (Stages.reduce_large_inline_SVGs_or_images_to_lightweight_placeholders parse f)
    as [f' [|]]; [discriminate |].
  intros H. injection H as <-. discriminate.
Qed.

Lemma later_stages_keep_parsed (name : string)
    (m : HtmlReducer.t -> HtmlReducer.outcome) :
  In (name, m) (HtmlReducer.later_stages parse md5) -> keeps_parsed m.
Proof.
  intros Hin. simpl in Hin.
  repeat (destruct Hin as [Heq | Hin];
    [ injection Heq as <- <-;
      first [ apply guarded_keeps_parsed | apply media_keeps_parsed ]
    | ]).
  contradiction.
Qed.

Lemma run_keeps_parsed (lookup : HtmlReducer.t -> string -> HtmlReducer.attribute) :
  (forall st name fn, lookup st name = HtmlReducer.Callable fn -> keeps_parsed fn) ->
  forall steps, keeps_parsed (HtmlReducer.run lookup steps).
Proof.
  intros Hl steps. induction steps as [| name rest IH]; intros st st' Hp; simpl.
  - intros H. injection H as <-. exact Hp.
  - destruct (lookup st name) as [fn | | |] eqn:E; try discriminate.
    destruct (fn st) as [st1 | e st1 |] eqn:F; try discriminate.
    apply IH. exact (Hl st name fn E st st1 Hp F).
Qed.

Lemma getattr_but_reduce_keeps_parsed (st : HtmlReducer.t) (name : string)
    (fn : HtmlReducer.t -> HtmlReducer.outcome) :
  HtmlReducer.getattr_but_reduce parse md5 st name = HtmlReducer.Callable fn ->
  keeps_parsed fn.
Proof.
  unfold HtmlReducer.getattr_but_reduce.
  destruct (String.eqb name "parse_the_full_dom_into_a_dom_tree").
  { intros H. injection H as <-. intros s s' _ E. injection E as <-. discriminate. }
  destruct (HtmlReducer.assoc name (HtmlReducer.later_stages parse md5)) as [m |] eqn:E.
  { intros H. injection H as <-.
    exact (later_stages_keep_parsed name m (assoc_in _ _ _ _ E)). }
  destruct (name_in ["to_html"; "_assert_parsed"] name).
  { intros H. injection H as <-. intros s s' Hp. unfold HtmlReducer._assert_parsed.
    destruct (HtmlReducer.dom_tree s) eqn:D; [| discriminate].
    intros E'. injection E' as <-. rewrite D. discriminate. }
  destruct (String.eqb name "_walk").
  { intros H. injection H as <-. intros s s' Hp E'. injection E' as <-. exact Hp. }
  destruct (String.eqb name "dom_tree").
  { destruct (HtmlReducer.dom_tree st) as [f |]; [| discriminate].
    intros H. injection H as <-. intros s s' Hp E'. injection E' as <-. exact Hp. }
  destruct (name_in _ name); [discriminate |].
  destruct (PyStr.startswith "__" name); discriminate.
Qed.

Lemma getattr_keeps_parsed (st : HtmlReducer.t) (name : string)
    (fn : HtmlReducer.t -> HtmlReducer.outcome) :
  HtmlReducer.getattr parse md5 st name = HtmlReducer.Callable fn ->
  keeps_parsed fn.
Proof.
  unfold HtmlReducer.getattr.
  destruct (String.eqb name "reduce").
  - intros H. injection H as <-.
    exact (run_keeps_parsed (HtmlReducer.getattr_but_reduce parse md5)
             getattr_but_reduce_keeps_parsed HtmlReducer._DEFAULT_PIPE).
  - apply getattr_but_reduce_keeps_parsed.
Qed.

Lemma getattr_keeps_raw_html (st : HtmlReducer.t) (name : string)
    (fn : HtmlReducer.t -> HtmlReducer.outcome) :
  HtmlReducer.getattr parse md5 st name = HtmlReducer.Callable fn ->
  keeps_raw_html fn.
Proof.
  unfold HtmlReducer.getattr.
  destruct (String.eqb name "reduce").
  - intros H. injection H as <-.
    exact (run_keeps_raw_html (HtmlReducer.getattr_but_reduce parse md5)
             getattr_but_reduce_keeps_raw_html HtmlReducer._DEFAULT_PIPE).
  - apply getattr_but_reduce_keeps_raw_html.
Qed.

Lemma metric_attributes_absent (st : HtmlReducer.t) (name : string) :
  In name TestRun.metric_attributes ->
  HtmlReducer.getattr parse md5 st name = HtmlReducer.Absent.
Proof.
  intros Hin. simpl in Hin.
  repeat (destruct Hin as [<- | Hin]; [reflexivity |]).
  contradiction.
Qed.

(** C2, as amended: [reduce] keeps no metrics.  Whatever the list of stage
    names, a run that returns has changed nothing of the instance but
    [dom_tree]: [raw_html] is as it was, and none of the attributes
    [total_char_len], [raw_token_size], [reduced_char_len],
    [reduced_token_size] and [reducement_details] exists, before the run or
    after it, so that reading one raises [AttributeError]: no aggregate count
    and no record of a step is kept.  What the instance does give after a
    run whose list starts with the parse stage is the final markup:
    [to_html()] returns the serialization of the tree the run left. *)
Theorem C2_reduce_keeps_no_metrics (encode : Soup -> string)
    (order : option (list string)) (st st' : HtmlReducer.t) :
  HtmlReducer.reduce parse md5 order st = HtmlReducer.Ok st' ->
  st' = HtmlReducer.mk (HtmlReducer.raw_html st) (HtmlReducer.dom_tree st') /\
  (forall name, In name TestRun.metric_attributes ->
     HtmlReducer.getattr parse md5 st name = HtmlReducer.Absent /\
     HtmlReducer.getattr parse md5 st' name = HtmlReducer.Absent) /\
  (forall rest,
     HtmlReducer.steps_of order = "parse_the_full_dom_into_a_dom_tree" :: rest ->
     exists f, HtmlReducer.dom_tree st' = Some f /\
               HtmlReducer.to_html encode st' = inr (encode f)).
Proof.
  unfold HtmlReducer.reduce. intros Hrun. split; [| split].
  - pose proof (run_keeps_raw_html (HtmlReducer.getattr parse md5)
                  getattr_keeps_raw_html (HtmlReducer.steps_of order) st) as Hraw.
    rewrite Hrun in Hraw. destruct st' as [raw tree]. simpl in *. congruence.
  - intros name Hin. split; apply metric_attributes_absent; exact Hin.
  - intros rest Hsteps. rewrite Hsteps in Hrun.
    change (HtmlReducer.run (HtmlReducer.getattr parse md5)
              ("parse_the_full_dom_into_a_dom_tree" :: rest) st)
      with (HtmlReducer.run (HtmlReducer.getattr parse md5) rest
              (HtmlReducer.mk (HtmlReducer.raw_html st)
                 (Some (parse (HtmlReducer.raw_html st))))) in Hrun.
    pose proof (run_keeps_parsed (HtmlReducer.getattr parse md5)
                  getattr_keeps_parsed rest
                  (HtmlReducer.mk (HtmlReducer.raw_html st)
                     (Some (parse (HtmlReducer.raw_html st)))) st') as Hp.
    specialize (Hp ltac:(discriminate) Hrun).
    unfold HtmlReducer.to_html.
    destruct (HtmlReducer.dom_tree st') as [f |].
    + exists f. split; reflexivity.
    + exfalso. apply Hp. reflexivity.
Qed.

(** X17: the default pipeline, whatever the instance held before: the tree is
    parsed anew from [raw_html] and taken through the six stages in order;
    the call returns unless the media stage raises [ValueError], and no other
    exception can come out of it. *)
Theorem reduce_default_pipeline (st : HtmlReducer.t) :
  HtmlReducer.reduce parse md5 None st
  = let (f, raised) :=
      Stages.reduce_large_inline_SVGs_or_images_to_lightweight_placeholders parse
        (Stages.prune_repetitive_and_boilerplate_navigation_items md5
           (Stages.collapse_deeply_nested_container_with_one_child
              (Stages.simplify_attributes
                 (Stages.strip_out_non_visual_nodes
                    (Stages.strip_out_non_structural_nodes
                       (parse (HtmlReducer.raw_html st))))))) in
    if raised
    then HtmlReducer.Raise HtmlReducer.ValueError
           (HtmlReducer.mk (HtmlReducer.raw_html st) (Some f))
    else HtmlReducer.Ok (HtmlReducer.mk (HtmlReducer.raw_html st) (Some f)).
Proof.
  unfold HtmlReducer.reduce.
  cbn -[Stages.strip_out_non_structural_nodes Stages.strip_out_non_visual_nodes
        Stages.simplify_attributes
        Stages.collapse_deeply_nested_container_with_one_child
        Stages.prune_repetitive_and_boilerplate_navigation_items
        Stages.reduce_large_inline_SVGs_or_images_to_lightweight_placeholders].
  destruct (Stages.reduce_large_inline_SVGs_or_images_to_lightweight_placeholders _ _)
    as [f [|]]; reflexivity.
Qed.

(** X18: a list of steps that starts with a stage other than the parse stage,
    run on an instance that has not been parsed, raises [RuntimeError] at
    once and leaves the instance as it was. *)
Theorem reduce_without_parse_first
    (name : string) (m : HtmlReducer.t -> HtmlReducer.outcome)
    (rest : list string) (st : HtmlReducer.t) :
  In (name, m) (HtmlReducer.later_stages parse md5) ->
  HtmlReducer.dom_tree st = None ->
  HtmlReducer.reduce parse md5 (Some (name :: rest)) st
  = HtmlReducer.Raise HtmlReducer.RuntimeError st.
Proof.
  intros Hin Hnone. unfold HtmlReducer.reduce.
  change (HtmlReducer.steps_of (Some (name :: rest))) with (name :: rest).
  simpl in Hin.
  repeat (destruct Hin as [Heq | Hin];
    [ injection Heq as <- <-;
      cbn -[Stages.reduce_large_inline_SVGs_or_images_to_lightweight_placeholders];
      unfold HtmlReducer.strip_out_non_structural_nodes,
        HtmlReducer.strip_out_non_visual_nodes, HtmlReducer.simplify_attributes,
        HtmlReducer.collapse_deeply_nested_container_with_one_child,
        HtmlReducer.prune_repetitive_and_boilerplate_navigation_items,
        HtmlReducer.reduce_large_inline_SVGs_or_images_to_lightweight_placeholders,
        HtmlReducer.preserve_tables_as_markdown,
        HtmlReducer.preserve_deflists_as_markdown,
        HtmlReducer.preserve_lists_as_markdown,
        HtmlReducer.preserve_figures_as_markdown,
        HtmlReducer.preserve_css_tables_as_markdown, HtmlReducer.guarded;
      rewrite Hnone; reflexivity
    | ]).
  contradiction.
Qed.

End RunnerFacts.

(** C2 fails on the sample page: the default run returns, and the instance
    it leaves has no aggregate count and no record of a step: each of the
    five attributes the caller reads is absent, so that reading it raises
    [AttributeError]. *)
Lemma C2_counterexample :
  HtmlReducer.reduce Samples.parse Samples.md5 None (HtmlReducer.init Samples.html)
  = HtmlReducer.Ok
      (HtmlReducer.mk Samples.html
         (Some [Tag "html" [] [Tag "body" [] [Tag "nav" [] []]]])) /\
  Forall
    (fun name =>
       HtmlReducer.getattr Samples.parse Samples.md5
         (HtmlReducer.mk Samples.html
            (Some [Tag "html" [] [Tag "body" [] [Tag "nav" [] []]]])) name
       = HtmlReducer.Absent)
    ["total_char_len"; "raw_token_size"; "reduced_char_len";
     "reduced_token_size"; "reducement_details"].
Proof.
  split; [vm_compute; reflexivity |].
  repeat constructor.
Qed.

Lemma C2_reduce_keeps_no_metrics_witness :
  HtmlReducer.reduce Samples.parse Samples.md5 None (HtmlReducer.init Samples.html)
  = HtmlReducer.Ok
      (HtmlReducer.mk Samples.html
         (Some [Tag "html" [] [Tag "body" [] [Tag "nav" [] []]]])) /\
  HtmlReducer.getattr Samples.parse Samples.md5 (HtmlReducer.init Samples.html)
    "reducement_details" = HtmlReducer.Absent /\
  exists f,
    HtmlReducer.to_html Samples.serialize
      (HtmlReducer.mk Samples.html
         (Some [Tag "html" [] [Tag "body" [] [Tag "nav" [] []]]]))
    = inr (Samples.serialize f).
Proof.
  destruct (C2_reduce_keeps_no_metrics Samples.parse Samples.md5 Samples.serialize
              None (HtmlReducer.init Samples.html)
              (HtmlReducer.mk Samples.html
                 (Some [Tag "html" [] [Tag "body" [] [Tag "nav" [] []]]])))
    as (_ & Habsent & Hhtml).
  - vm_compute. reflexivity.
  - split; [vm_compute; reflexivity |].
    split.
    + apply (Habsent "reducement_details"). simpl. auto 6.
    + destruct (Hhtml (tl HtmlReducer._DEFAULT_PIPE) eq_refl) as (f & _ & Hf).
      exists f. exact Hf.
Defined.

(** The call of [test_run.py], on the sample page: the list names stages the
    class does not have, and the run stops at the first of them. *)
Example reduce_of_extra_pipe :
  HtmlReducer.reduce Samples.parse Samples.md5 (Some TestRun._EXTRA_PIPE)
    (HtmlReducer.init Samples.html)
  = HtmlReducer.Raise HtmlReducer.AttributeError
      (HtmlReducer.mk Samples.html (Some Samples.tree)).
Proof. vm_compute. reflexivity. Qed.

Example to_html_before_parse :
  HtmlReducer.to_html Samples.serialize (HtmlReducer.init Samples.html)
  = inl HtmlReducer.RuntimeError.
Proof. reflexivity. Qed.

Example to_html_of_sample :
  HtmlReducer.to_html Samples.serialize
    (HtmlReducer.mk Samples.html
       (Some [Tag "html" [] [Tag "body" [] [Tag "nav" [] []]]]))
  = inr "<html><body><nav></nav></body></html>".
Proof. reflexivity. Qed.

Lemma reduce_of_two_lists_witness :
  HtmlReducer.reduce Samples.parse Samples.md5
    (Some (["parse_the_full_dom_into_a_dom_tree"] ++
           ["prune_repetitive_and_boilerplate_navigation_items"]))
    (HtmlReducer.init Samples.html)
  = HtmlReducer.Ok
      (HtmlReducer.mk Samples.html
         (Some [Tag "html" [] [Tag "body" [] [Tag "nav" [] []]]])).
Proof.
  rewrite (reduce_of_two_lists Samples.parse Samples.md5
             ["parse_the_full_dom_into_a_dom_tree"]
             ["prune_repetitive_and_boilerplate_navigation_items"]
             (HtmlReducer.init Samples.html)); [| discriminate | discriminate].
  vm_compute. reflexivity.
Defined.

Lemma reduce_without_parse_first_witness :
  HtmlReducer.reduce Samples.parse Samples.md5
    (Some ["simplify_attributes"; "parse_the_full_dom_into_a_dom_tree"])
    (HtmlReducer.init Samples.html)
  = HtmlReducer.Raise HtmlReducer.RuntimeError (HtmlReducer.init Samples.html).
Proof.
  apply (reduce_without_parse_first Samples.parse Samples.md5
           "simplify_attributes" HtmlReducer.simplify_attributes).
  - simpl. auto.
  - reflexivity.
Defined.

(** ** The grid of a table *)

Lemma length_le_max_cols (td : list (list string)) (row : list string) :
  In row td -> List.length row <= Stages.max_cols td.
Proof.
  induction td as [| r td IH]; [contradiction |].
  simpl. intros [<- | Hin]; [apply Nat.le_max_l |].
  etransitivity; [exact (IH Hin) | apply Nat.le_max_r].
Qed.

Lemma pad_length (n : nat) (row : list string) :
  List.length row <= n -> List.length (Stages.pad n row) = n.
Proof. intros H. unfold Stages.pad. rewrite length_app, repeat_length. lia. Qed.

(** X19: a table with rows, its text being ASCII, is replaced by a grid with
    one line per row and a separator line after the first; every line of the
    grid, the separator included, has as many cells as the longest row, and
    each row is its own cells, in order, followed by empty cells.  The text
    of a cell is what [get_text] gives for it, comments and the strings of
    [script], [style] and [template] left out. *)
Theorem table_grid_shape (cs : list Node) (r : Node) (rows : list Node) :
  Doc.ascii_text cs = true ->
  find_all ["tr"] cs = r :: rows ->
  exists header rest,
    Stages.convert_table cs
    = Some (pre_placeholder "data-table"
              (PyStr.join Stages.NL
                 (map Stages.md_line
                    (header
                       :: repeat "---" (Stages.max_cols (Stages.table_data_of (r :: rows)))
                       :: rest)))) /\
    List.length rest = List.length rows /\
    Forall (fun row => List.length row
                       = Stages.max_cols (Stages.table_data_of (r :: rows)))
           (header :: repeat "---" (Stages.max_cols (Stages.table_data_of (r :: rows)))
                   :: rest) /\
    Forall2 (fun cells row => exists k, row = cells ++ repeat EmptyString k)
            (Stages.table_data_of (r :: rows)) (header :: rest).
Proof.
  intros _ Hrows.
  set (td := Stages.table_data_of (r :: rows)).
  set (n := Stages.max_cols td).
  exists (Stages.pad n (hd [] td)), (map (Stages.pad n) (tl td)).
  assert (Hall : Forall (fun row => List.length row = n) (map (Stages.pad n) td)).
  { apply Forall_forall. intros row Hin. apply in_map_iff in Hin.
    destruct Hin as (cells & <- & Hc). apply pad_length.
    exact (length_le_max_cols td cells Hc). }
  split; [| split; [| split]].
  - unfold Stages.convert_table. rewrite Hrows. fold td.
    unfold td at 1. simpl Stages.table_data_of. cbv iota.
    fold (Stages.table_data_of rows).
    change (_ :: Stages.table_data_of rows) with td.
    unfold Stages.md_lines. fold n.
    replace (hd [] (map (Stages.pad n) td)) with (Stages.pad n (hd [] td))
      by (unfold td; reflexivity).
    replace (tl (map (Stages.pad n) td)) with (map (Stages.pad n) (tl td))
      by (unfold td; reflexivity).
    destruct (Stages.first_row_has_th (r :: rows)); reflexivity.
  - unfold td.
    change (tl (Stages.table_data_of (r :: rows))) with (Stages.table_data_of rows).
    unfold Stages.table_data_of. rewrite !length_map. reflexivity.
  - unfold td in Hall |- *. simpl in Hall |- *.
    inversion Hall as [| ? ? Hh Ht]; subst.
    constructor; [exact Hh |]. constructor; [apply repeat_length | exact Ht].
  - assert (H : forall l : list (list string),
               Forall2 (fun cells row => exists k, row = cells ++ repeat EmptyString k)
                       l (map (Stages.pad n) l)).
    { induction l as [| x l IHl]; constructor; [eexists; reflexivity | exact IHl]. }
    exact (H td).
Qed.

Lemma table_grid_shape_witness :
  exists header rest,
    Stages.convert_table
      [Tag "tr" [] [Tag "td" [] [NavigableString "a"]];
       Tag "tr" [] [Tag "td" [] [NavigableString "b"]; Tag "td" [] [NavigableString "c"]]]
    = Some (pre_placeholder "data-table"
              (PyStr.join Stages.NL
                 (map Stages.md_line (header :: repeat "---" 2 :: rest)))) /\
    List.length rest = 1 /\
    Forall (fun row => List.length row = 2) (header :: repeat "---" 2 :: rest) /\
    Forall2 (fun cells row => exists k, row = cells ++ repeat EmptyString k)
            [["a"]; ["b"; "c"]] (header :: rest).
Proof.
  apply (table_grid_shape
           [Tag "tr" [] [Tag "td" [] [NavigableString "a"]];
            Tag "tr" [] [Tag "td" [] [NavigableString "b"];
                         Tag "td" [] [NavigableString "c"]]]
           (Tag "tr" [] [Tag "td" [] [NavigableString "a"]])
           [Tag "tr" [] [Tag "td" [] [NavigableString "b"];
                         Tag "td" [] [NavigableString "c"]]]).
  - reflexivity.
  - reflexivity.
Defined.

(** ** The rendering of a list *)

Lemma no_nested_lines (depth : nat) (lcs : list Node) :
  child_tags_named Stages.LISTS lcs = [] ->
  flat_map (fun child =>
              match child with
              | Tag cn _ _ =>
                  if name_in Stages.LISTS cn then Stages.walk_list depth child else []
              | _ => []
              end) lcs = [].
Proof.
  unfold child_tags_named.
  induction lcs as [| c lcs IH]; [reflexivity |].
  destruct c as [cn ca ccs | s | s | s]; cbn [filter named flat_map].
  - destruct (name_in Stages.LISTS cn); [discriminate | exact IH].
  - exact IH.
  - exact IH.
  - exact IH.
Qed.

(** X20: of a list none of whose items holds a list, the rendering has one line
    per [li] child, in order: the items of an [ol] are numbered 1, 2, 3, ...
    whatever stands between them, those of any other list get a dash. *)
Theorem flat_list_lines (depth : nat) (nm : string) (a : attrs_t) (cs : list Node) :
  (forall ln la lcs, In (Tag ln la lcs) (child_tags_named ["li"] cs) ->
                     child_tags_named ["ul"; "ol"] lcs = []) ->
  Stages.walk_list depth (Tag nm a cs)
  = map (fun p => item_line depth nm (fst p) (snd p))
        (combine (seq 1 (List.length (child_tags_named ["li"] cs)))
                 (child_tags_named ["li"] cs)).
Proof.
  cbn [Stages.walk_list]. generalize 1 as idx. unfold child_tags_named.
  induction cs as [| c cs IH]; intros idx H; [reflexivity |].
  destruct c as [ln la lcs | s | s | s]; cbn [filter named] in H |- *;
    try (apply IH; exact H).
  replace (name_in ["li"] ln) with (String.eqb ln "li") in H |- *
    by (cbn [name_in existsb]; rewrite orb_false_r; reflexivity).
  destruct (String.eqb ln "li") eqn:E.
  - rewrite (no_nested_lines (S depth) lcs)
      by (apply (H ln la lcs); simpl; auto).
    cbn [List.length seq combine map fst snd app].
    f_equal. apply IH. intros ln' la' lcs' Hin. apply (H ln' la' lcs').
    simpl. auto.
  - apply IH. exact H.
Qed.

Lemma flat_list_lines_witness :
  Stages.walk_list 0
    (Tag "ol" [] [Tag "li" [] [NavigableString " a "]; NavigableString "x";
                  Tag "p" [] []; Tag "li" [] [NavigableString "b"]])
  = ["1. a"; "2. b"].
Proof.
  rewrite flat_list_lines.
  - reflexivity.
  - intros ln la lcs Hin. simpl in Hin.
    destruct Hin as [Heq | [Heq | []]]; injection Heq as <- <- <-; reflexivity.
Defined.

(** ** The patterns on [style] *)

Lemma match_lit_ci_app (kw rest : string) :
  PyStr.match_lit_ci (PyStr.lower kw) (String.append kw rest) = Some rest.
Proof.
  induction kw as [| c kw IH]; [reflexivity |].
  simpl. rewrite Ascii.eqb_refl. exact IH.
Qed.

Lemma lstrip_app_space (ws x : string) :
  all_space ws = true -> PyStr.lstrip (String.append ws x) = PyStr.lstrip x.
Proof.
  induction ws as [| c ws IH]; [reflexivity |].
  simpl. intros H. apply andb_true_iff in H. destruct H as [Hc Hws].
  rewrite Hc. exact (IH Hws).
Qed.

Lemma display_search_app (v pre s : string) :
  PyStr.display_at v s = true ->
  PyStr.display_search v (String.append pre s) = true.
Proof.
  intros H. induction pre as [| c pre IH].
  - cbn [String.append]. destruct s; cbn [PyStr.display_search]; rewrite H; reflexivity.
  - cbn [String.append PyStr.display_search]. rewrite IH. apply orb_true_r.
Qed.

Lemma lower_starts_with_letter (val rest : string) (c : ascii) (p : string) :
  PyStr.lower val = String c p -> PyStr.is_space c = false ->
  PyStr.lstrip (String.append val rest) = String.append val rest.
Proof.
  destruct val as [| b val]; [discriminate |].
  simpl. intros H Hc. injection H as Hb _.
  assert (Hsp : PyStr.is_space b = false).
  { destruct (PyStr.is_space b) eqn:E; [| reflexivity].
    assert (PyStr.lower_char b = b).
    { unfold PyStr.lower_char. unfold PyStr.is_space in E.
      destruct ((65 <=? nat_of_ascii b) && (nat_of_ascii b <=? 90)) eqn:E2;
        [| reflexivity].
      apply andb_true_iff in E2. destruct E2 as [E2 E3].
      apply Nat.leb_le in E2. apply Nat.leb_le in E3.
      repeat (apply orb_true_iff in E; destruct E as [E | E]);
        repeat (apply andb_true_iff in E; destruct E as [? E]);
        repeat match goal with
               | H : (_ <=? _) = true |- _ => apply Nat.leb_le in H
               | H : (_ =? _) = true |- _ => apply Nat.eqb_eq in H
               end; lia. }
    congruence. }
  rewrite Hsp. reflexivity.
Qed.

(** X21: an element whose [style] holds [display], a colon and [none], in any
    letter case, with any white space around the colon and anything before
    and after, is taken for hidden. *)
Theorem display_none_is_hidden
    (a : attrs_t) (pre kw ws1 ws2 val post : string) :
  get "style" a
  = Some (AStr (String.append pre
                  (String.append kw
                     (String.append ws1
                        (String.append ":"
                           (String.append ws2 (String.append val post))))))) ->
  PyStr.lower kw = "display" ->
  PyStr.lower val = "none" ->
  all_space ws1 = true ->
  all_space ws2 = true ->
  Stages.hidden_attr a = true.
Proof.
  intros Hs Hkw Hval H1 H2. unfold Stages.hidden_attr. rewrite Hs.
  cbn [str_value]. rewrite display_search_app; [apply orb_true_r |].
  unfold PyStr.display_at. rewrite <- Hkw, match_lit_ci_app.
  rewrite (lstrip_app_space ws1) by exact H1.
  change (PyStr.lstrip (String.append ":" ?x)) with (String.append ":" x).
  cbn [String.append].
  rewrite (lstrip_app_space ws2) by exact H2.
  rewrite (lower_starts_with_letter val post "n" "one" Hval eq_refl).
  rewrite <- Hval, match_lit_ci_app. reflexivity.
Qed.

Lemma display_none_is_hidden_witness :
  Stages.hidden_attr [("style", AStr "color:red; Display :  NONE;")] = true.
Proof.
  apply (display_none_is_hidden _ "color:red; " "Display" " " "  " "NONE" ";");
    reflexivity.
Defined.

Lemma match_lit_ci_prefix (v w s r : string) :
  PyStr.match_lit_ci (String.append v w) s = Some r ->
  exists r', PyStr.match_lit_ci v s = Some r'.
Proof.
  revert s. induction v as [| c v IH]; intros s H; [simpl; eauto |].
  destruct s as [| b s]; [discriminate |].
  simpl in H |- *. destruct (Ascii.eqb c (PyStr.lower_char b)); [| discriminate].
  exact (IH s H).
Qed.

Lemma display_search_prefix (v w s : string) :
  PyStr.display_search (String.append v w) s = true ->
  PyStr.display_search v s = true.
Proof.
  assert (Hat : forall s, PyStr.display_at (String.append v w) s = true ->
                          PyStr.display_at v s = true).
  { intros s0. unfold PyStr.display_at.
    destruct (PyStr.match_lit_ci "display" s0) as [r |]; [| discriminate].
    destruct (PyStr.lstrip r) as [| c r0]; [discriminate |].
    destruct c as [[] [] [] [] [] [] [] []]; try discriminate.
    destruct (PyStr.match_lit_ci (String.append v w) (PyStr.lstrip r0)) eqn:E;
      [| discriminate].
    destruct (match_lit_ci_prefix v w _ _ E) as (r' & ->). reflexivity. }
  induction s as [| c s IH]; cbn [PyStr.display_search]; intros H.
  - apply orb_true_iff in H. destruct H as [H | H]; [| discriminate].
    rewrite (Hat _ H). reflexivity.
  - apply orb_true_iff in H. destruct H as [H | H].
    + rewrite (Hat _ H). reflexivity.
    + rewrite (IH H). apply orb_true_r.
Qed.

(** X22: the pattern for [display:table] has no end mark: an element styled
    [display:table-row] or [display:table-cell] is matched by it as well, and
    so is itself looked at as a CSS table. *)
Theorem css_row_and_cell_match_table (n : Node) :
  Stages.style_displays "table-row" n = true \/
  Stages.style_displays "table-cell" n = true ->
  Stages.style_displays "table" n = true.
Proof.
  destruct n as [nm a cs | s | s | s]; simpl; [| intros [H | H]; discriminate ..].
  destruct (get "style" a) as [v |]; [| intros [H | H]; discriminate].
  intros [H | H].
  - exact (display_search_prefix "table" "-row" _ H).
  - exact (display_search_prefix "table" "-cell" _ H).
Qed.

Lemma css_row_and_cell_match_table_witness :
  Stages.style_displays "table" (Tag "div" [("style", AStr "display: table-row")] [])
  = true.
Proof.
  apply css_row_and_cell_match_table. left. reflexivity.
Defined.

(** ** Documents with nothing to reduce *)

Lemma simplify_attrs_simple (a : attrs_t) :
  attrs_simple a = true -> Stages.simplify_attrs a = a.
Proof.
  unfold attrs_simple, Stages.simplify_attrs. intros H.
  apply andb_true_iff in H. destruct H as [Hk Hc].
  rewrite (filter_all _ (fun kv => name_in Stages._ALLOWED_ATTRS (fst kv)))
    by (apply Forall_forall; exact (proj1 (forallb_forall _ a) Hk)).
  unfold Stages.trim_class.
  destruct (get "class" a) as [[s | toks] |]; try reflexivity.
  apply Nat.leb_le in Hc.
  destruct (Nat.ltb_spec 6 (List.length toks)); [lia | reflexivity].
Qed.

Lemma plain_node_unchanged (n : Node) :
  (forall x, In x (Doc.nodes_of n) -> plain x = true) ->
  Stages.simplify_node n = n /\ Stages.collapse_node n = [n].
Proof.
  induction n as [nm a cs IH | s | s | s] using Node_ind'; intros H;
    try (split; reflexivity).
  assert (Hn : plain (Tag nm a cs) = true) by (apply H; simpl; auto).
  unfold plain in Hn. repeat (apply andb_true_iff in Hn; destruct Hn as [Hn ?]).
  assert (Hcs : map Stages.simplify_node cs = cs /\
                flat_map Stages.collapse_node cs = cs).
  { assert (Hall : forall x, In x (Doc.all_nodes cs) -> plain x = true).
    { intros x Hx. apply H. simpl. right. exact Hx. }
    clear - IH Hall. induction IH as [| c cs0 Hc _ IHcs]; [split; reflexivity |].
    rewrite all_nodes_cons in Hall.
    destruct Hc as [Hs Hco]; [intros x Hx; apply Hall; apply in_or_app; auto |].
    destruct IHcs as [Hss Hcos]; [intros x Hx; apply Hall; apply in_or_app; auto |].
    simpl. rewrite Hs, Hco, Hss, Hcos. split; reflexivity. }
  destruct Hcs as [Hs Hco]. split.
  - simpl. rewrite Hs, simplify_attrs_simple by assumption. reflexivity.
  - simpl Stages.collapse_node. rewrite Hco.
    match goal with Hw : negb (Doc.collapsible_tag _) = true |- _ =>
      apply negb_true_iff in Hw; simpl in Hw; rewrite Hw end.
    reflexivity.
Qed.

(** X23: a document in which no node is a hidden leaf, an empty [span], [b], [i]
    or [u], or a single-child wrapper, and whose attributes are all allowed
    with class lists of at most six tokens, goes unchanged through the
    removal of non-visual nodes, the simplification of attributes and the
    collapse. *)
Theorem plain_document_is_left_alone (f : Soup) :
  (forall x, In x (Doc.all_nodes f) -> plain x = true) ->
  Stages.strip_out_non_visual_nodes f = f /\
  Stages.simplify_attributes f = f /\
  Stages.collapse_deeply_nested_container_with_one_child f = f.
Proof.
  intros H.
  assert (Hp : forall x, In x (Doc.all_nodes f) ->
            Stages.hidden_leaf x = false /\ Stages.empty_inline x = false).
  { intros x Hx. specialize (H x Hx). unfold plain in H.
    repeat (apply andb_true_iff in H; destruct H as [H ?]).
    split; apply negb_true_iff; assumption. }
  split; [| split].
  - unfold Stages.strip_out_non_visual_nodes, Stages.strip_hidden.
    rewrite (remove_in_nothing Stages.hidden_leaf f) by (intros x Hx; apply Hp; exact Hx).
    apply remove_in_nothing. intros x Hx. apply Hp. exact Hx.
  - unfold Stages.simplify_attributes. clear Hp.
    induction f as [| c f IH]; [reflexivity |].
    rewrite all_nodes_cons in H. simpl.
    rewrite (proj1 (plain_node_unchanged c
               (fun x Hx => H x (in_or_app _ _ _ (or_introl Hx))))).
    rewrite IH by (intros x Hx; apply H; apply in_or_app; auto). reflexivity.
  - unfold Stages.collapse_deeply_nested_container_with_one_child. clear Hp.
    induction f as [| c f IH]; [reflexivity |].
    rewrite all_nodes_cons in H. simpl.
    rewrite (proj2 (plain_node_unchanged c
               (fun x Hx => H x (in_or_app _ _ _ (or_introl Hx))))).
    rewrite IH by (intros x Hx; apply H; apply in_or_app; auto). reflexivity.
Qed.

Lemma plain_document_is_left_alone_witness :
  Stages.strip_out_non_visual_nodes Samples.tree = Samples.tree /\
  Stages.simplify_attributes Samples.tree = Samples.tree /\
  Stages.collapse_deeply_nested_container_with_one_child Samples.tree = Samples.tree.
Proof.
  apply plain_document_is_left_alone.
  intros x Hx. simpl in Hx.
  repeat (destruct Hx as [<- | Hx]; [reflexivity |]).
  contradiction.
Defined.
